(** * Vega P&L risk engine: a shallow embedding of [vega_risk_engine.py]

    The development follows the layout of the Python module: data structures,
    CSV parsing, the interpolation engine, the two vol scenario models, the
    P&L pipeline and the scenario matrix.

    Modelling conventions.
    - A Python [float] is an exact rational ([Q]).  Equalities that the
      documentation states "within floating tolerance" are therefore stated
      with [==] ([Qeq]); [==] is also what Python's [==] on floats becomes, so
      dictionaries keyed by floats compare keys with [Qeq_bool].
    - Infinities and nan are no values of [Q]: the inputs on which the code
      produces them (a zero float divisor, the square root of a negative
      number, a NaT timestamp) lie outside the model, and a statement whose
      truth depends on it carries the hypothesis that excludes them.
    - A Python [dict] is an insertion-ordered association list: assigning to
      a key that is present replaces the value in place, assigning to a new
      key appends.
    - A raised exception is the left injection of [result]; the exception
      class and its message are kept.
    - The grids are never mutated by the module, so a numpy [copy()] and the
      array it copies are the same value here.
    - Library routines whose code is not part of the module (numpy's [exp],
      [log], [sqrt], scipy's cubic [interp1d], [pandas.Timestamp],
      [pathlib.Path.stem]) are the fields of one record, [PyLib], over which
      the engine is parameterised. *)

From Stdlib Require Import QArith Qminmax Qround Qabs Lqa ZArith Lia.
From Stdlib Require Import String Ascii Bool DecimalString List Sorted.
Import ListNotations.

Local Open Scope Q_scope.

(* ------------------------------------------------------------------------- *)
(** ** Exceptions *)

Inductive exn : Type :=
| ValueError (msg : string)
| IndexError (msg : string)
| KeyError (msg : string).

Inductive exn_class : Type := ValueErrorClass | IndexErrorClass | KeyErrorClass.

Definition class_of (e : exn) : exn_class :=
  match e with
  | ValueError _ => ValueErrorClass
  | IndexError _ => IndexErrorClass
  | KeyError _ => KeyErrorClass
  end.

Definition result (A : Type) : Type := (exn + A)%type.

Definition ret {A} (a : A) : result A := inr a.
Definition raise {A} (e : exn) : result A := inl e.

Definition bind {A B} (c : result A) (k : A -> result B) : result B :=
  match c with
  | inl e => inl e
  | inr a => k a
  end.

Declare Scope result_scope.
Delimit Scope result_scope with result.
Notation "x <- c ;; k" := (bind c (fun x => k))
  (at level 61, c at next level, right associativity) : result_scope.
Notation "' pat <- c ;; k" := (bind c (fun x => match x with pat => k end))
  (at level 61, pat pattern, c at next level, right associativity) : result_scope.
Local Open Scope result_scope.

(** [for x in l: s = f(s, x)], stopping at the first exception. *)
Fixpoint for_each {A S} (f : S -> A -> result S) (l : list A) (s : S) : result S :=
  match l with
  | [] => ret s
  | x :: l' => s' <- f s x ;; for_each f l' s'
  end.

(** A list comprehension whose element expression may raise. *)
Fixpoint map_result {A B} (f : A -> result B) (l : list A) : result (list B) :=
  match l with
  | [] => ret []
  | x :: l' => y <- f x ;; ys <- map_result f l' ;; ret (y :: ys)
  end.

Definition enumerate {A} (l : list A) : list (nat * A) :=
  combine (seq 0 (length l)) l.

(* ------------------------------------------------------------------------- *)
(** ** Floats as rationals *)

Definition Qltb (x y : Q) : bool := negb (Qle_bool y x).

(** Python's builtin [max(a, b)] and [min(a, b)]: the first argument wins
    unless the second is strictly larger (smaller). *)
Definition py_max (a b : Q) : Q := if Qltb a b then b else a.
Definition py_min (a b : Q) : Q := if Qltb b a then b else a.

(** [np.clip(x, lo, hi)] is [np.minimum(hi, np.maximum(x, lo))]. *)
Definition np_clip (x lo hi : Q) : Q := Qmin hi (Qmax x lo).

(** [np.sign]. *)
Definition np_sign (x : Q) : Q :=
  if Qltb x 0 then -(1) else if Qltb 0 x then 1 else 0.

Definition qsum (l : list Q) : Q := fold_right Qplus 0 l.

(** [sorted(...)] on floats: a stable insertion sort. *)
Fixpoint insert_sorted (x : Q) (l : list Q) : list Q :=
  match l with
  | [] => [x]
  | y :: l' => if Qltb x y then x :: l else y :: insert_sorted x l'
  end.

Definition sorted (l : list Q) : list Q := fold_left (fun acc x => insert_sorted x acc) l [].

(** [l[i]] for a non-negative index. *)
Definition index {A} (l : list A) (i : nat) : result A :=
  match nth_error l i with
  | Some a => ret a
  | None => raise (IndexError "index out of range")
  end.

(* ------------------------------------------------------------------------- *)
(** ** Dictionaries *)

Section Dict.
Context {K V : Type}.
Variable eqb : K -> K -> bool.

Definition dict : Type := list (K * V).

(** [d.get(k)] / [k in d] *)
Fixpoint dict_get (d : dict) (k : K) : option V :=
  match d with
  | [] => None
  | (k', v) :: d' => if eqb k' k then Some v else dict_get d' k
  end.

Definition dict_mem (d : dict) (k : K) : bool :=
  match dict_get d k with Some _ => true | None => false end.

(** [d.get(k, default)] *)
Definition dict_get_default (d : dict) (k : K) (default : V) : V :=
  match dict_get d k with Some v => v | None => default end.

(** [d[k] = v] *)
Fixpoint dict_set (d : dict) (k : K) (v : V) : dict :=
  match d with
  | [] => [(k, v)]
  | (k', v') :: d' => if eqb k' k then (k', v) :: d' else (k', v') :: dict_set d' k v
  end.

Definition dict_keys (d : dict) : list K := map fst d.
Definition dict_values (d : dict) : list V := map snd d.

(** No two keys of the list are equal: what every Python dict satisfies. *)
Fixpoint distinct (l : list K) : bool :=
  match l with
  | [] => true
  | k :: l' => negb (existsb (eqb k) l') && distinct l'
  end.
End Dict.

(* ------------------------------------------------------------------------- *)
(** ** Two-dimensional arrays *)

(** A numpy array of shape [(length rows, ncols)], stored by rows. *)
Record ndarray2 : Type := mk_ndarray2 {
  ncols : nat;
  rows : list (list Q)
}.

Definition shape (a : ndarray2) : nat * nat := (length (rows a), ncols a).

(** Every row has [ncols] entries: the invariant of a numpy array. *)
Definition rectangular (a : ndarray2) : Prop :=
  Forall (fun r => length r = ncols a) (rows a).

(** [np.zeros((n, m))] *)
Definition np_zeros (n m : nat) : ndarray2 := mk_ndarray2 m (repeat (repeat 0 m) n).

(** [a[i, j]] *)
Definition get2 (a : ndarray2) (i j : nat) : result Q :=
  r <- index (rows a) i ;; index r j.

(** [a[i, :]] *)
Definition row_at (a : ndarray2) (i : nat) : result (list Q) := index (rows a) i.

(** [a[:, j]] *)
Definition col_at (a : ndarray2) (j : nat) : result (list Q) :=
  if (j <? ncols a)%nat then ret (map (fun r => nth j r 0) (rows a))
  else raise (IndexError "index is out of bounds for axis 1").

(** [a.sum(axis=1)], [a.sum(axis=0)] and [a.sum()] *)
Definition sum_axis1 (a : ndarray2) : list Q := map qsum (rows a).
Definition sum_axis0 (a : ndarray2) : list Q :=
  map (fun j => qsum (map (fun r => nth j r 0) (rows a))) (seq 0 (ncols a)).
Definition sum_all (a : ndarray2) : Q := qsum (map qsum (rows a)).

Fixpoint zip_with {A B C} (f : A -> B -> C) (l1 : list A) (l2 : list B) : list C :=
  match l1, l2 with
  | x :: l1', y :: l2' => f x y :: zip_with f l1' l2'
  | _, _ => []
  end.

(** Elementwise [a * b] and [a + b] of two arrays of the same shape. *)
Definition ew (f : Q -> Q -> Q) (a b : ndarray2) : ndarray2 :=
  mk_ndarray2 (ncols a) (zip_with (zip_with f) (rows a) (rows b)).

(* ------------------------------------------------------------------------- *)
(** ** Data structures *)

Record VegaGrid : Type := mk_VegaGrid {
  spot_shift : Q;
  moneyness : list Q;
  expiries : list string;
  expiry_years : list Q;
  values : ndarray2;
  row_totals : list Q;
  col_totals : list Q;
  total : Q
}.

Definition n_strikes (g : VegaGrid) : nat := length (moneyness g).
Definition n_expiries (g : VegaGrid) : nat := length (expiries g).

Record BetaParams : Type := mk_BetaParams {
  spot_vol_beta : Q;
  skew_beta : Q;
  term_decay : Q;
  convexity : Q;
  beta_volga_scale : Q;
  term_floor : Q
}.

Definition BetaParams_default : BetaParams :=
  mk_BetaParams (-(40 # 100)) (15 # 100) (50 # 100) 2 (15 # 100) (8 # 100).

Record ManualParams : Type := mk_ManualParams {
  atm_vol_change : Q;
  skew_change : Q;
  term_multiplier : Q;
  volga_scale : Q
}.

(** The dataclass defaults; a constructor call that omits a field gets them. *)
Definition ManualParams_atm_vol_change_default : Q := 0.
Definition ManualParams_skew_change_default : Q := 1 # 10.
Definition ManualParams_term_multiplier_default : Q := 5 # 10.
Definition ManualParams_volga_scale_default : Q := 15 # 100.

Definition ManualParams_default : ManualParams :=
  mk_ManualParams ManualParams_atm_vol_change_default ManualParams_skew_change_default
    ManualParams_term_multiplier_default ManualParams_volga_scale_default.

Inductive VolParams : Type :=
| VolParamsBeta (spot_vol_beta skew_beta term_decay convexity : Q)
| VolParamsManual (atm_vol_change skew_change term_multiplier : Q).

Record PnLResult : Type := mk_PnLResult {
  total_pnl : Q;
  pnl_grid : ndarray2;
  pnl_by_expiry : @dict string Q;
  pnl_by_bucket : @dict string Q;
  pnl_by_moneyness : @dict Q Q;
  vega_grid : VegaGrid;
  vol_change_grid : ndarray2;
  spot_move : Q;
  vol_params : VolParams
}.

(** A calendar date, as [datetime.date]. *)
Record date : Type := mk_date { year : Z; month : Z; day : Z }.

(** The routines the module imports. *)
Record PyLib : Type := mk_PyLib {
  np_exp : Q -> Q;
  np_log : Q -> Q;
  np_sqrt : Q -> Q;
  (** [interp1d(x, y, kind="cubic", fill_value="extrapolate")(x_new)] *)
  interp1d_cubic : list Q -> list Q -> Q -> Q;
  (** [pd.Timestamp(s).date()], [None] when the string is not a date *)
  pd_Timestamp : string -> option date;
  (** [Path(filename).stem] *)
  path_stem : string -> string
}.

(* ------------------------------------------------------------------------- *)
(** ** Strings and dates *)

Definition lower_ascii (c : ascii) : ascii :=
  let n := nat_of_ascii c in
  if ((65 <=? n) && (n <=? 90))%nat then ascii_of_nat (n + 32) else c.

(** [s.lower()] on ASCII text *)
Fixpoint str_lower (s : string) : string :=
  match s with
  | EmptyString => EmptyString
  | String c s' => String (lower_ascii c) (str_lower s')
  end.

(** [sub in s] *)
Fixpoint str_contains (sub s : string) : bool :=
  match s with
  | EmptyString => String.prefix sub EmptyString
  | String _ s' => String.prefix sub s || str_contains sub s'
  end.

Definition is_space (c : ascii) : bool :=
  let n := nat_of_ascii c in
  (((9 <=? n) && (n <=? 13)) || ((28 <=? n) && (n <=? 32)))%nat.

Fixpoint lstrip (s : string) : string :=
  match s with
  | EmptyString => EmptyString
  | String c s' => if is_space c then lstrip s' else s
  end.

Fixpoint rstrip (s : string) : string :=
  match s with
  | EmptyString => EmptyString
  | String c s' =>
      match rstrip s' with
      | EmptyString => if is_space c then EmptyString else String c EmptyString
      | t => String c t
      end
  end.

(** [s.strip()] *)
Definition strip (s : string) : string := rstrip (lstrip s).

Definition is_leap (y : Z) : bool :=
  (((y mod 4 =? 0) && negb (y mod 100 =? 0)) || (y mod 400 =? 0))%Z.

Definition days_before_year (y : Z) : Z :=
  (let y1 := y - 1 in y1 * 365 + y1 / 4 - y1 / 100 + y1 / 400)%Z.

Definition days_in_month (y m : Z) : Z :=
  (if m =? 2 then (if is_leap y then 29 else 28)
   else if (m =? 4) || (m =? 6) || (m =? 9) || (m =? 11) then 30 else 31)%Z.

Definition days_before_month (y m : Z) : Z :=
  fold_right Z.add 0%Z
    (map (fun k => days_in_month y (Z.of_nat k)) (seq 1 (Z.to_nat (m - 1)))).

(** [d.toordinal()] *)
Definition toordinal (d : date) : Z :=
  (days_before_year (year d) + days_before_month (year d) (month d) + day d)%Z.

(** [(a - b).days] *)
Definition days_between (a b : date) : Z := (toordinal a - toordinal b)%Z.

(* ------------------------------------------------------------------------- *)
(** ** CSV parsing *)

Definition REFERENCE_DATE : date := mk_date 2026 2 6.

Definition FILE_SHIFT_MAP : list (string * Q) :=
  [ ("down_75"%string, -(75 # 1000));
    ("down_50"%string, -(5 # 100));
    ("down_25"%string, -(25 # 1000));
    ("atm"%string, 0);
    ("up_25"%string, 25 # 1000);
    ("up_50"%string, 5 # 100);
    ("up_75"%string, 75 # 1000) ].

(** The frame [pd.read_csv(filepath, header=0, index_col=0)] returns: the
    column labels, and one row per line with its index label ([None] for a
    blank label, which pandas reads as NaN) and its cells. *)
Record DataFrame : Type := mk_DataFrame {
  columns : list string;
  frame_rows : list (option Q * list Q)
}.

(** Every row has one cell per column. *)
Definition frame_rectangular (df : DataFrame) : Prop :=
  Forall (fun r => length (snd r) = length (columns df)) (frame_rows df).

(** [row[name]] and the row without the columns labelled [name] *)
Definition column_cell (cols : list string) (name : string) (cells : list Q) : Q :=
  match find (fun p => String.eqb (fst p) name) (combine cols cells) with
  | Some (_, v) => v
  | None => 0
  end.

Definition drop_column {A} (cols : list string) (name : string) (cells : list A) : list A :=
  map snd (filter (fun p => negb (String.eqb (fst p) name)) (combine cols cells)).

Definition notna {A} (r : option Q * A) : bool :=
  match fst r with Some _ => true | None => false end.

Section Engine.
Variable lib : PyLib.

Definition detect_shift_from_filename (filename : string) : option Q :=
  let name := str_lower (path_stem lib filename) in
  match find (fun kv => str_contains (fst kv) name) FILE_SHIFT_MAP with
  | Some (_, shift) => Some shift
  | None => None
  end.

(** [max((pd.Timestamp(e) - pd.Timestamp(ref_date)).days / 365.25, 1 / 365.25)].
    A label is read as a date or rejected with the library's [ValueError].
    The labels that pandas reads as the missing timestamp NaT have no day
    count, their year fraction is no number: they lie outside this model,
    and a statement about year fractions excludes them ([reads_as_nat]). *)
Definition year_fraction (ref_date : date) (e : string) : result Q :=
  match pd_Timestamp lib e with
  | Some d => ret (py_max (inject_Z (days_between d ref_date) / (36525 # 100))
                          (1 / (36525 # 100)))
  | None => raise (ValueError ("Unknown datetime string format: " ++ e))
  end.

(** [df] stands for the frame read from [filepath]. *)
Definition parse_csv (filepath : string) (df : DataFrame)
    (spot_shift : option Q) (ref_date : option date) : result VegaGrid :=
  let ref_date := match ref_date with Some d => d | None => REFERENCE_DATE end in
  spot_shift <-
    match spot_shift with
    | Some s => ret s
    | None =>
        match detect_shift_from_filename filepath with
        | Some s => ret s
        | None => raise (ValueError ("Cannot detect spot shift from filename: " ++ filepath))
        end
    end ;;
  let has_total := existsb (String.eqb "TOTAL") (columns df) in
  let row_totals_col :=
    if has_total
    then Some (map (fun r => (fst r, column_cell (columns df) "TOTAL" (snd r))) (frame_rows df))
    else None in
  let df :=
    if has_total
    then mk_DataFrame (drop_column (columns df) "TOTAL" (columns df))
           (map (fun r => (fst r, drop_column (columns df) "TOTAL" (snd r))) (frame_rows df))
    else df in
  let data_df := filter notna (frame_rows df) in
  let summary_row := filter (fun r => negb (notna r)) (frame_rows df) in
  let moneyness := flat_map (fun r => match fst r with Some m => [m] | None => [] end) data_df in
  let expiry_strs := map strip (columns df) in
  expiry_years <- map_result (year_fraction ref_date) expiry_strs ;;
  let values := mk_ndarray2 (length (columns df)) (map snd data_df) in
  let row_totals :=
    match row_totals_col with
    | Some col => map snd (filter notna col)
    | None => sum_axis1 values
    end in
  let col_totals :=
    match summary_row with
    | r :: _ => snd r
    | [] => sum_axis0 values
    end in
  let total := qsum row_totals in
  ret (mk_VegaGrid spot_shift moneyness expiry_strs expiry_years values
         row_totals col_totals total).

(* ----------------------------------------------------------------------- *)
(** *** Interpolation engine *)

(** [d[k]] on a float-keyed dict; the keys looked up below are keys of [d]. *)
Definition lookup {V} (d : @dict Q V) (k : Q) : result V :=
  match dict_get Qeq_bool d k with
  | Some v => ret v
  | None => raise (KeyError "key not found")
  end.

(** [np.searchsorted(xs, v)] on an ascending [xs]: how many entries are
    below [v]. *)
Definition searchsorted (xs : list Q) (v : Q) : nat :=
  length (filter (fun x => Qltb x v) xs).

(** [interp1d(x, y, kind="linear", fill_value="extrapolate")(x_new)]: the
    segment is chosen by [searchsorted], clipped to [1 .. len(x) - 1], so
    the first and last segments also serve outside the sampled range. *)
Definition interp1d_linear (x y : list Q) (x_new : Q) : Q :=
  let idx := Nat.min (Nat.max (searchsorted x x_new) 1) (length x - 1) in
  let lo := (idx - 1)%nat in
  let hi := idx in
  let x_lo := nth lo x 0 in
  let x_hi := nth hi x 0 in
  let y_lo := nth lo y 0 in
  let y_hi := nth hi y 0 in
  let slope := (y_hi - y_lo) / (x_hi - x_lo) in
  slope * (x_new - x_lo) + y_lo.

Definition interpolate_vega_grid (surfaces : @dict Q VegaGrid) (spot_move : Q)
    (method : string) : result VegaGrid :=
  let shifts := sorted (dict_keys surfaces) in
  if (length shifts =? 0)%nat then raise (ValueError "No surfaces provided")
  else if (length shifts =? 1)%nat then lookup surfaces (nth 0 shifts 0)
  else
    (* Clamp to available range *)
    let clamped := np_clip spot_move (nth 0 shifts 0) (last shifts 0) in
    (* If exact match, return directly *)
    match dict_get Qeq_bool surfaces clamped with
    | Some grid =>
        ret (mk_VegaGrid spot_move (moneyness grid) (expiries grid) (expiry_years grid)
               (values grid) (row_totals grid) (col_totals grid) (total grid))
    | None =>
        (* Get reference grid for structure *)
        ref <- lookup surfaces (nth 0 shifts 0) ;;
        let '(n_strikes, n_expiries) := shape (values ref) in
        (* Build interpolated values cell by cell *)
        let shift_arr := shifts in
        cells <-
          map_result (fun i =>
            map_result (fun j =>
              y_vals <- map_result (fun s => g <- lookup surfaces s ;; get2 (values g) i j)
                          shifts ;;
              ret (if String.eqb method "cubic" && (4 <=? length shifts)%nat
                   then interp1d_cubic lib shift_arr y_vals clamped
                   else interp1d_linear shift_arr y_vals clamped))
              (seq 0 n_expiries))
            (seq 0 n_strikes) ;;
        let interp_values := mk_ndarray2 n_expiries cells in
        let row_totals := sum_axis1 interp_values in
        let col_totals := sum_axis0 interp_values in
        let total := sum_all interp_values in
        ret (mk_VegaGrid spot_move (moneyness ref) (expiries ref) (expiry_years ref)
               interp_values row_totals col_totals total)
    end.

(* ----------------------------------------------------------------------- *)
(** *** Vol scenario models *)

(** [0.5 * volga_factor * dSigma * dSigma * volga_scale], shared by the two
    models. *)
Definition volga_term (moneyness years_to_expiry dSigma scale : Q) : Q :=
  let log_m := np_log lib (py_max moneyness (1 # 100)) in
  let sigma_approx := 20 # 100 in
  let volga_factor :=
    py_min ((log_m * log_m) / ((sigma_approx * sigma_approx) * py_max years_to_expiry (1 # 100)))
           10 in
  (5 # 10) * volga_factor * dSigma * dSigma * scale.

Definition atm_change (params : BetaParams) (dS : Q) : Q :=
  spot_vol_beta params * dS + convexity params * dS * dS * (1 # 100).

Definition beta_vol_change (moneyness years_to_expiry spot_move : Q)
    (params : BetaParams) : Q * Q :=
  let dS := spot_move * 100 in
  (* Core ATM vol change + convexity (always amplifies) *)
  let atm_change := atm_change params dS in
  (* Skew: OTM puts get MORE vol on down moves (fixed sign) *)
  let m_diff := moneyness - 1 in
  let skew_effect :=
    np_clip (1 - skew_beta params * m_diff * np_sign (- dS)) (5 # 10) 2 in
  (* Term structure with floor *)
  let term_factor :=
    py_max (term_floor params) (np_exp lib (- term_decay params * years_to_expiry)) in
  let dSigma := atm_change * skew_effect * term_factor in
  let volga_pnl := volga_term moneyness years_to_expiry dSigma (beta_volga_scale params) in
  (dSigma, volga_pnl).

(** The term factor is a float quotient: where its denominator is zero, or
    the tenor negative, the code yields an infinity or no number, values
    that the rationals lack.  A statement about the size of the result is
    made away from both. *)
Definition manual_vol_change (moneyness years_to_expiry : Q)
    (params : ManualParams) : Q * Q :=
  let m_diff := moneyness - 1 in
  let term_factor := 1 / (1 + term_multiplier params * np_sqrt lib years_to_expiry) in
  let dSigma := (atm_vol_change params + skew_change params * m_diff) * term_factor in
  let volga_pnl := volga_term moneyness years_to_expiry dSigma (volga_scale params) in
  (dSigma, volga_pnl).

Definition compute_vol_change_grid (grid : VegaGrid) (spot_move : Q) (vol_mode : string)
    (beta_params : option BetaParams) (manual_params : option ManualParams)
    : result (ndarray2 * ndarray2) :=
  let beta_params := match beta_params with Some p => p | None => BetaParams_default end in
  let manual_params :=
    match manual_params with Some p => p | None => ManualParams_default end in
  let '(n, m) := shape (values grid) in
  cells <-
    map_result (fun i =>
      map_result (fun j =>
        mny <- index (moneyness grid) i ;;
        yrs <- index (expiry_years grid) j ;;
        ret (if String.eqb vol_mode "beta"
             then beta_vol_change mny yrs spot_move beta_params
             else manual_vol_change mny yrs manual_params))
        (seq 0 m))
      (seq 0 n) ;;
  let vol_changes := mk_ndarray2 m (map (map fst) cells) in
  let volga_pnl := mk_ndarray2 m (map (map snd) cells) in
  ret (vol_changes, volga_pnl).

(* ----------------------------------------------------------------------- *)
(** *** P&L computation *)

(** The threshold [float("inf")] is [None]. *)
Definition EXPIRY_BUCKET_THRESHOLDS : list (option Z * string) :=
  [ (Some 30%Z, "0-1M"%string);
    (Some 90%Z, "1-3M"%string);
    (Some 180%Z, "3-6M"%string);
    (Some 365%Z, "6-12M"%string);
    (Some 730%Z, "1-2Y"%string);
    (None, "2Y+"%string) ].

(** [days <= threshold] *)
Definition le_threshold (days : Z) (threshold : option Z) : bool :=
  match threshold with
  | Some t => (days <=? t)%Z
  | None => true
  end.

(** The loop of [classify_expiry] and the [return] after it. *)
Fixpoint first_bucket (days : Z) (thresholds : list (option Z * string)) : string :=
  match thresholds with
  | [] => "2Y+"%string
  | (threshold, label) :: rest =>
      if le_threshold days threshold then label else first_bucket days rest
  end.

Definition classify_days (days : Z) : string := first_bucket days EXPIRY_BUCKET_THRESHOLDS.

(** A label that [pd.Timestamp] rejects raises the library's error, a
    [ValueError] whose wording is the library's; a NaT label lies outside
    the model, as for [year_fraction]. *)
Definition classify_expiry (expiry_str : string) (ref_date : option date) : result string :=
  let ref_date := match ref_date with Some d => d | None => REFERENCE_DATE end in
  match pd_Timestamp lib expiry_str with
  | Some exp_date => ret (classify_days (days_between exp_date ref_date))
  | None => raise (ValueError ("Unknown datetime string format: " ++ expiry_str))
  end.

Definition compute_pnl (surfaces : @dict Q VegaGrid) (spot_move : Q) (vol_mode : string)
    (beta_params : option BetaParams) (manual_params : option ManualParams)
    (interp_method : string) : result PnLResult :=
  let beta_params := match beta_params with Some p => p | None => BetaParams_default end in
  let manual_params :=
    match manual_params with Some p => p | None => ManualParams_default end in
  (* Step 1: Interpolate vega grid *)
  vega_grid <- interpolate_vega_grid surfaces spot_move interp_method ;;
  (* Step 2: Compute vol changes + Volga *)
  '(vol_changes, volga_grid) <-
    compute_vol_change_grid vega_grid spot_move vol_mode
      (Some beta_params) (Some manual_params) ;;
  (* Step 3: P&L = Vega x dVol + Vega x VolgaPnL *)
  let pnl_grid :=
    ew Qplus (ew Qmult (values vega_grid) vol_changes)
             (ew Qmult (values vega_grid) volga_grid) in
  (* Step 4: Aggregations *)
  let total_pnl := sum_all pnl_grid in
  pnl_by_expiry <-
    for_each (fun d '(j, exp) =>
                c <- col_at pnl_grid j ;; ret (dict_set String.eqb d exp (qsum c)))
      (enumerate (expiries vega_grid)) [] ;;
  pnl_by_bucket <-
    for_each (fun d '(j, exp) =>
                bucket <- classify_expiry exp None ;;
                c <- col_at pnl_grid j ;;
                ret (dict_set String.eqb d bucket
                       (dict_get_default String.eqb d bucket 0 + qsum c)))
      (enumerate (expiries vega_grid)) [] ;;
  pnl_by_moneyness <-
    for_each (fun d '(i, m) =>
                r <- row_at pnl_grid i ;; ret (dict_set Qeq_bool d m (qsum r)))
      (enumerate (moneyness vega_grid)) [] ;;
  let vp :=
    if String.eqb vol_mode "beta"
    then VolParamsBeta (spot_vol_beta beta_params) (skew_beta beta_params)
           (term_decay beta_params) (convexity beta_params)
    else VolParamsManual (atm_vol_change manual_params) (skew_change manual_params)
           (term_multiplier manual_params) in
  ret (mk_PnLResult total_pnl pnl_grid pnl_by_expiry pnl_by_bucket pnl_by_moneyness
         vega_grid vol_changes spot_move vp).

(* ----------------------------------------------------------------------- *)
(** *** Scenario matrix *)

(** Rounding to the nearest integer, ties to even, of a non-negative
    number: what the format ".0f" prints. *)
Definition round_half_even (q : Q) : Z :=
  let f := Qfloor q in
  match Qcompare (q - inject_Z f) (1 # 2) with
  | Lt => f
  | Gt => (f + 1)%Z
  | Eq => if Z.even f then f else (f + 1)%Z
  end.

(** [f"{dv:+.0f}"] *)
Definition format_signed_0f (dv : Q) : string :=
  ((if Qltb dv 0 then "-" else "+")
     ++ NilZero.string_of_uint (N.to_uint (Z.to_N (round_half_even (Qabs dv)))))%string.

(** [[round(s, 4) for s in np.arange(-0.075, 0.076, 0.005)]] *)
Definition default_spot_moves : list Q :=
  map (fun k => (5 * Z.of_nat k - 75)%Z # 1000) (seq 0 31).

Definition default_vol_changes_override : list Q :=
  [ -(5); -(3); -(1); 0; 1; 3; 5 ].

(** The [ManualParams(...)] call of the manual sweep: [volga_scale] is not
    passed, so the dataclass default fills it. *)
Definition sweep_manual_params (manual_params : ManualParams) (dv : Q) : ManualParams :=
  mk_ManualParams dv (skew_change manual_params) (term_multiplier manual_params)
    ManualParams_volga_scale_default.

(** The rows handed to [pd.DataFrame], in order.  The frame takes the union
    of the rows' keys as its columns; where all rows carry the same keys,
    as they do in the manual sweep and in the beta sweep over surfaces with
    one expiry axis, the records of the frame are these rows. *)
Definition compute_scenario_matrix (surfaces : @dict Q VegaGrid)
    (spot_moves : option (list Q)) (vol_mode : string)
    (beta_params : option BetaParams) (manual_params : option ManualParams)
    (vol_changes_override : option (list Q)) : result (list (@dict string Q)) :=
  let spot_moves := match spot_moves with Some l => l | None => default_spot_moves end in
  let beta_params := match beta_params with Some p => p | None => BetaParams_default end in
  let manual_params :=
    match manual_params with Some p => p | None => ManualParams_default end in
  if String.eqb vol_mode "beta" then
    map_result (fun sm =>
      r <- compute_pnl surfaces sm "beta" (Some beta_params) None "linear" ;;
      ret (fold_left
             (fun row '(bucket, pnl) => dict_set String.eqb row ("pnl_" ++ bucket)%string pnl)
             (pnl_by_bucket r)
             [("spot_move"%string, sm); ("total_pnl"%string, total_pnl r)]))
      spot_moves
  else
    let vol_changes_override :=
      match vol_changes_override with
      | Some l => l
      | None => default_vol_changes_override
      end in
    map_result (fun sm =>
      for_each (fun row dv =>
        let mp := sweep_manual_params manual_params dv in
        r <- compute_pnl surfaces sm "manual" None (Some mp) "linear" ;;
        ret (dict_set String.eqb row ("vol_" ++ format_signed_0f dv)%string (total_pnl r)))
        vol_changes_override [("spot_move"%string, sm)])
      spot_moves.

End Engine.

(* ========================================================================= *)
(** * Vocabulary of the statements *)

(** The grid [g] under another shift label: what the paths of
    [interpolate_vega_grid] that rebuild the grid with [spot_shift=spot_move]
    return for a stored grid [g]. *)
Definition relabel (s : Q) (g : VegaGrid) : VegaGrid :=
  mk_VegaGrid s (moneyness g) (expiries g) (expiry_years g) (values g)
    (row_totals g) (col_totals g) (total g).

(** The smallest and the largest loaded shift. *)
Definition is_min_shift (surfaces : @dict Q VegaGrid) (b : Q) : Prop :=
  In b (dict_keys surfaces) /\ forall k, In k (dict_keys surfaces) -> b <= k.
Definition is_max_shift (surfaces : @dict Q VegaGrid) (b : Q) : Prop :=
  In b (dict_keys surfaces) /\ forall k, In k (dict_keys surfaces) -> k <= b.

(** The six tenor bucket labels. *)
Definition BUCKETS : list string :=
  [ "0-1M"; "1-3M"; "3-6M"; "6-12M"; "1-2Y"; "2Y+" ]%string.

(** The axes of a grid fit its matrix: one moneyness per row, one expiry
    label per column. *)
Definition grid_consistent (g : VegaGrid) : Prop :=
  rectangular (values g) /\
  length (moneyness g) = length (rows (values g)) /\
  length (expiries g) = ncols (values g).

(** The column label of a vol override. *)
Definition vol_label (dv : Q) : string := ("vol_" ++ format_signed_0f dv)%string.

(** The totals a table supplies: the TOTAL cell of every data row, and the
    cells of the first blank-index row under the expiry columns. *)
Definition supplied_row_totals (df : DataFrame) : list Q :=
  map (fun r => column_cell (columns df) "TOTAL" (snd r)) (filter notna (frame_rows df)).

Definition supplied_col_totals (df : DataFrame) : list Q :=
  match filter (fun r => negb (notna r)) (frame_rows df) with
  | r :: _ => drop_column (columns df) "TOTAL" (snd r)
  | [] => []
  end.

(* ------------------------------------------------------------------------- *)
(** ** Concrete data for the runs below *)

Definition digit_of (c : ascii) : option Z :=
  let n := nat_of_ascii c in
  if ((48 <=? n) && (n <=? 57))%nat then Some (Z.of_nat (n - 48)) else None.

Fixpoint number_of (s : string) (acc : Z) : option Z :=
  match s with
  | EmptyString => Some acc
  | String c s' =>
      match digit_of c with
      | Some d => number_of s' (10 * acc + d)%Z
      | None => None
      end
  end.

(** Dates written [YYYY-MM-DD]. *)
Definition iso_date (s : string) : option date :=
  if (String.length s =? 10)%nat then
    match number_of (substring 0 4 s) 0, number_of (substring 5 2 s) 0,
          number_of (substring 8 2 s) 0 with
    | Some y, Some m, Some d =>
        if String.eqb (substring 4 1 s) "-" && String.eqb (substring 7 1 s) "-"
        then Some (mk_date y m d) else None
    | _, _, _ => None
    end
  else None.

(** The text before the first dot. *)
Fixpoint before_dot (s : string) : string :=
  match s with
  | EmptyString => EmptyString
  | String c s' => if Ascii.eqb c "."%char then EmptyString else String c (before_dot s')
  end.

(** A closed library instance for concrete runs: ISO dates, file names
    without directories and with one suffix, the linear interpolant in place
    of the cubic one, and low-order rational approximations of [exp], [log]
    and [sqrt].  Every theorem below is proved for an arbitrary library. *)
Definition sample_lib : PyLib :=
  mk_PyLib
    (fun x => 1 + x + x * x / 2)
    (fun x => 2 * (x - 1) / (x + 1))
    (fun x => (1 + x) / 2)
    interp1d_linear
    iso_date
    before_dot.

Definition sample_grid (shift : Q) (v11 v12 v21 v22 : Q) : VegaGrid :=
  mk_VegaGrid shift [9 # 10; 11 # 10]
    ["2026-03-20"%string; "2026-09-18"%string] [1 # 10; 5 # 10]
    (mk_ndarray2 2 [[v11; v12]; [v21; v22]])
    [v11 + v12; v21 + v22] [v11 + v21; v12 + v22] (v11 + v12 + (v21 + v22)).

Definition sample_down : VegaGrid := sample_grid (-(5 # 100)) 100 200 150 250.
Definition sample_atm : VegaGrid := sample_grid 0 110 190 160 240.
Definition sample_up : VegaGrid := sample_grid (5 # 100) 120 180 170 230.

Definition one_surface : @dict Q VegaGrid := [(0, sample_atm)].
Definition two_surfaces : @dict Q VegaGrid :=
  [(-(5 # 100), sample_down); (5 # 100, sample_up)].

(** A frame whose two expiry headers differ only in surrounding blanks, and
    the surface [parse_csv] reads from it: both columns carry one label. *)
Definition repeated_label_frame : DataFrame :=
  mk_DataFrame ["2026-03-20"; " 2026-03-20"]%string [(Some 1, [100; 200])].

Definition repeated_label_grid : VegaGrid :=
  mk_VegaGrid 0 [1] ["2026-03-20"; "2026-03-20"]%string
    [py_max (inject_Z 42 / (36525 # 100)) (1 / (36525 # 100));
     py_max (inject_Z 42 / (36525 # 100)) (1 / (36525 # 100))]
    (mk_ndarray2 2 [[100; 200]]) [100 + (200 + 0)] [100 + 0; 200 + 0] (100 + (200 + 0) + 0).

(** A parallel one-point vol shift with skew, term damping and volga
    switched off: the P&L of a cell is its vega. *)
Definition parallel_shift : ManualParams := mk_ManualParams 1 0 0 0.

(** A grid that lists one moneyness value twice, and one whose expiry axis
    is shorter than its matrix. *)
Definition repeated_moneyness_grid : VegaGrid :=
  mk_VegaGrid 0 [1; 2 # 2] ["2026-03-20"]%string [1 # 10]
    (mk_ndarray2 1 [[100]; [200]]) [100; 200] [300] 300.

Definition short_axis_grid : VegaGrid :=
  mk_VegaGrid 0 [1] ["2026-03-20"]%string [1 # 10; 5 # 10]
    (mk_ndarray2 2 [[100; 200]]) [300] [100; 200] 300.

(** Manual parameters with [volga_scale = 1]. *)
Definition unit_volga : ManualParams := mk_ManualParams 0 (1 # 10) (5 # 10) 1.

(** A table whose supplied totals are the sums of its matrix. *)
Definition consistent_frame : DataFrame :=
  mk_DataFrame ["2026-03-20"; "2026-09-18"; "TOTAL"]%string
    [ (Some (9 # 10), [100; 200; 300]);
      (Some (11 # 10), [150; 250; 400]);
      (None, [250; 450; 700]) ].

(** A table whose supplied totals agree with each other, 701 along either
    axis, without being the sums of its matrix (a rounded export). *)
Definition agreeing_frame : DataFrame :=
  mk_DataFrame ["2026-03-20"; "2026-09-18"; "TOTAL"]%string
    [ (Some (9 # 10), [100; 200; 301]);
      (Some (11 # 10), [150; 250; 400]);
      (None, [251; 450; 701]) ].

(* ========================================================================= *)
(** * Directory load, JSON export and the server's endpoints *)

(** ** Directory load *)

(** One path that [data_dir.glob(prefix + "*.csv")] yields: its name, its
    full path and the frame read from it. *)
Record DirEntry : Type := mk_DirEntry {
  entry_name : string;
  entry_path : string;
  entry_frame : DataFrame
}.

(** [sorted(d.items())] on a float-keyed dict, whose keys are pairwise
    different: a stable insertion sort by key. *)
Fixpoint insert_item {V} (x : Q * V) (l : list (Q * V)) : list (Q * V) :=
  match l with
  | [] => [x]
  | y :: l' => if Qltb (fst x) (fst y) then x :: l else y :: insert_item x l'
  end.

Definition sorted_items {V} (d : @dict Q V) : @dict Q V :=
  fold_left (fun acc x => insert_item x acc) d [].

(** [d.update(other)] *)
Definition dict_update {V} (d other : @dict Q V) : @dict Q V :=
  fold_left (fun d kv => dict_set Qeq_bool d (fst kv) (snd kv)) other d.

(** ** JSON export *)

Record GridPayload : Type := mk_GridPayload {
  payload_moneyness : list Q;
  payload_expiries : list string;
  payload_values : list (list Q)
}.

Record ExpiryEntry : Type := mk_ExpiryEntry {
  entry_expiry : string;
  entry_pnl : Q;
  entry_bucket : string
}.

Record PnLDict : Type := mk_PnLDict {
  out_total_pnl : Q;
  out_spot_move : Q;
  out_vol_params : VolParams;
  out_pnl_by_expiry : list ExpiryEntry;
  out_pnl_by_bucket : list (string * Q);
  out_pnl_by_moneyness : list (Q * Q);
  out_vega_total : Q;
  out_pnl_grid : GridPayload;
  out_vol_change_grid : GridPayload
}.

(** ** Server *)

(** What an endpoint does: return a body, raise [HTTPException], or let an
    exception of the engine escape. *)
Inductive response (A : Type) : Type :=
| Ok (body : A)
| HTTPException (status_code : nat) (detail : string)
| Unhandled (e : exn).
Arguments Ok {A} body.
Arguments HTTPException {A} status_code detail.
Arguments Unhandled {A} e.

(** [str(e)] for the exceptions above. *)
Definition exn_str (e : exn) : string :=
  match e with
  | ValueError msg => msg
  | IndexError msg => msg
  | KeyError msg => msg
  end.

Record BetaParamsInput : Type := mk_BetaParamsInput {
  in_spot_vol_beta : Q;
  in_skew_beta : Q;
  in_term_decay : Q;
  in_convexity : Q
}.

Definition BetaParamsInput_default : BetaParamsInput :=
  mk_BetaParamsInput (-(40 # 100)) (15 # 100) (80 # 100) 2.

Record ManualParamsInput : Type := mk_ManualParamsInput {
  in_atm_vol_change : Q;
  in_skew_change : Q;
  in_term_multiplier : Q
}.

Definition ManualParamsInput_default : ManualParamsInput :=
  mk_ManualParamsInput 0 (1 # 10) (5 # 10).

Record PnLRequest : Type := mk_PnLRequest {
  req_spot_move : Q;
  req_vol_mode : string;
  req_beta_params : option BetaParamsInput;
  req_manual_params : option ManualParamsInput;
  req_interp_method : string
}.

Record ScenarioMatrixRequest : Type := mk_ScenarioMatrixRequest {
  sreq_vol_mode : string;
  sreq_beta_params : option BetaParamsInput;
  sreq_manual_params : option ManualParamsInput;
  sreq_spot_moves : option (list Q)
}.

(** The dataclasses built from the fields of the input models: the fields an
    input model lacks get the dataclass defaults. *)
Definition BetaParams_of_input (p : BetaParamsInput) : BetaParams :=
  mk_BetaParams (in_spot_vol_beta p) (in_skew_beta p) (in_term_decay p) (in_convexity p)
    (beta_volga_scale BetaParams_default) (term_floor BetaParams_default).

Definition ManualParams_of_input (p : ManualParamsInput) : ManualParams :=
  mk_ManualParams (in_atm_vol_change p) (in_skew_change p) (in_term_multiplier p)
    ManualParams_volga_scale_default.

(** An uploaded file: its name, the temporary path its bytes are written
    to, and the frame read from that path. *)
Record UploadFile : Type := mk_UploadFile {
  upload_filename : string;
  upload_tmp_path : string;
  upload_content : DataFrame
}.

Record UploadSummary : Type := mk_UploadSummary {
  summary_uploaded : nat;
  summary_total_surfaces : nat;
  summary_shifts : list Q
}.

Record Health : Type := mk_Health {
  health_surfaces_loaded : nat;
  health_shifts : list Q
}.

Section Callers.
Variable lib : PyLib.

Definition load_surfaces (entries : list DirEntry) : result (@dict Q VegaGrid) :=
  surfaces <-
    for_each (fun surfaces f =>
                match detect_shift_from_filename lib (entry_name f) with
                | Some shift =>
                    grid <- parse_csv lib (entry_path f) (entry_frame f) (Some shift) None ;;
                    ret (dict_set Qeq_bool surfaces shift grid)
                | None => ret surfaces
                end)
      entries [] ;;
  ret (sorted_items surfaces).

Definition pnl_result_to_dict (res : PnLResult) : result PnLDict :=
  by_expiry <-
    map_result (fun kv =>
                  bucket <- classify_expiry lib (fst kv) None ;;
                  ret (mk_ExpiryEntry (fst kv) (snd kv) bucket))
      (pnl_by_expiry res) ;;
  let by_bucket := pnl_by_bucket res in
  let by_moneyness := filter (fun kv => Qltb 1 (Qabs (snd kv))) (pnl_by_moneyness res) in
  ret (mk_PnLDict (total_pnl res) (spot_move res) (vol_params res)
         by_expiry by_bucket by_moneyness
         (total (vega_grid res))
         (mk_GridPayload (moneyness (vega_grid res)) (expiries (vega_grid res))
            (rows (pnl_grid res)))
         (mk_GridPayload (moneyness (vega_grid res)) (expiries (vega_grid res))
            (rows (vol_change_grid res)))).

(** [GET /health] *)
Definition health (surfaces : @dict Q VegaGrid) : Health :=
  mk_Health (length surfaces) (sorted (dict_keys surfaces)).

(** The loop of [POST /upload] that fills [loaded]. *)
Fixpoint upload_loop (files : list UploadFile) (loaded : @dict Q VegaGrid)
    : response (@dict Q VegaGrid) :=
  match files with
  | [] => Ok loaded
  | file :: rest =>
      match detect_shift_from_filename lib (upload_filename file) with
      | None => upload_loop rest loaded
      | Some shift =>
          match parse_csv lib (upload_tmp_path file) (upload_content file) (Some shift) None with
          | inr grid => upload_loop rest (dict_set Qeq_bool loaded shift grid)
          | inl e =>
              HTTPException 400
                ("Error parsing " ++ upload_filename file ++ ": " ++ exn_str e)%string
          end
      end
  end.

(** [POST /upload]: the store after the call, and the response. *)
Definition upload_surfaces (surfaces : @dict Q VegaGrid) (files : list UploadFile)
    : @dict Q VegaGrid * response UploadSummary :=
  match upload_loop files [] with
  | Ok loaded =>
      let surfaces := dict_update surfaces loaded in
      (surfaces,
       Ok (mk_UploadSummary (length loaded) (length surfaces) (sorted (dict_keys surfaces))))
  | HTTPException status_code detail => (surfaces, HTTPException status_code detail)
  | Unhandled e => (surfaces, Unhandled e)
  end.

(** [POST /pnl] *)
Definition compute_pnl_endpoint (surfaces : @dict Q VegaGrid) (req : PnLRequest)
    : response PnLDict :=
  if (length surfaces =? 0)%nat
  then HTTPException 400 "No surfaces loaded. Upload CSVs first."
  else
    let bp := match req_beta_params req with
              | Some p => BetaParams_of_input p
              | None => BetaParams_default
              end in
    let mp := match req_manual_params req with
              | Some p => ManualParams_of_input p
              | None => ManualParams_default
              end in
    match compute_pnl lib surfaces (req_spot_move req) (req_vol_mode req)
            (Some bp) (Some mp) (req_interp_method req) with
    | inl e => Unhandled e
    | inr res =>
        match pnl_result_to_dict res with
        | inl e => Unhandled e
        | inr body => Ok body
        end
    end.

(** [POST /scenario-matrix] *)
Definition scenario_matrix_endpoint (surfaces : @dict Q VegaGrid)
    (req : ScenarioMatrixRequest) : response (list (@dict string Q)) :=
  if (length surfaces =? 0)%nat
  then HTTPException 400 "No surfaces loaded."
  else
    let bp := match sreq_beta_params req with
              | Some p => BetaParams_of_input p
              | None => BetaParams_default
              end in
    let mp := match sreq_manual_params req with
              | Some p => ManualParams_of_input p
              | None => ManualParams_default
              end in
    match compute_scenario_matrix lib surfaces (sreq_spot_moves req) (sreq_vol_mode req)
            (Some bp) (Some mp) None with
    | inl e => Unhandled e
    | inr table => Ok table
    end.

(** [POST /clear]: the store after the call. *)
Definition clear_surfaces (surfaces : @dict Q VegaGrid) : @dict Q VegaGrid := [].

End Callers.

(* ========================================================================= *)
(** * Vocabulary of the further statements *)

(** The value on the segment from [(a, va)] to [(b, vb)]. *)
Definition blend (a b s va vb : Q) : Q := (vb - va) / (b - a) * (s - a) + va.

(** Every entry of the array is zero. *)
Definition all_zero (a : ndarray2) : Prop :=
  Forall (Forall (fun x => x == 0)) (rows a).

(** The frame [parse_csv] works on once the TOTAL column is set aside. *)
Definition without_total (df : DataFrame) : DataFrame :=
  if existsb (String.eqb "TOTAL") (columns df)
  then mk_DataFrame (drop_column (columns df) "TOTAL" (columns df))
         (map (fun r => (fst r, drop_column (columns df) "TOTAL" (snd r))) (frame_rows df))
  else df.

(** The exceptions that [compute_pnl] and [compute_scenario_matrix] as
    modelled here raise once the store is not empty; none of them is the
    empty-store error. *)
Definition pipeline_error (e : exn) : Prop :=
  (exists msg, e = IndexError msg) \/ (exists msg, e = KeyError msg) \/
  (exists label, e = ValueError ("Unknown datetime string format: " ++ label)).

(** What every surface stored by an upload or a directory load satisfies:
    it is labelled with its key, and the key is a shift of the naming
    convention. *)
Definition stored_under_its_shift (kv : Q * VegaGrid) : Prop :=
  spot_shift (snd kv) == fst kv /\ In (fst kv) (map snd FILE_SHIFT_MAP).

(** Strictly ascending keys. *)
Definition key_lt {V} (a b : Q * V) : Prop := fst a < fst b.

(** The labels that [pd.Timestamp] reads as the missing timestamp NaT
    instead of a date: the empty string and pandas' [nat_strings]. *)
Definition NAT_STRINGS : list string :=
  ["NaT"; "nat"; "NAT"; "nan"; "NaN"; "NAN"]%string.

Definition reads_as_nat (label : string) : bool :=
  (String.length label =? 0)%nat || existsb (String.eqb label) NAT_STRINGS.

(** A table whose first expiry lies before the reference date. *)
Definition past_expiry_frame : DataFrame :=
  mk_DataFrame ["2025-12-19"; "2026-09-18"]%string [(Some 1, [100; 200])].

(** A table with neither a TOTAL column nor a summary row. *)
Definition bare_frame : DataFrame :=
  mk_DataFrame ["2026-03-20"; "2026-09-18"]%string
    [ (Some (9 # 10), [100; 200]); (Some (11 # 10), [150; 250]) ].

(* ========================================================================= *)
(** * Properties *)

Local Ltac inv H := inversion H; subst; clear H.

(** ** The result monad *)

Lemma bind_inr {A B} (c : result A) (k : A -> result B) (b : B) :
  bind c k = inr b -> exists a, c = inr a /\ k a = inr b.
Proof. destruct c as [e | a]; simpl; [discriminate | eauto]. Qed.

Lemma bind_inl {A B} (c : result A) (k : A -> result B) (e : exn) :
  bind c k = inl e -> c = inl e \/ exists a, c = inr a /\ k a = inl e.
Proof. destruct c as [e' | a]; simpl; [intros [= ->]; auto | eauto]. Qed.

Lemma map_result_inl {A B} (f : A -> result B) (l : list A) (e : exn) :
  map_result f l = inl e -> exists x, In x l /\ f x = inl e.
Proof.
  induction l as [| x l IH]; simpl; [discriminate |].
  destruct (f x) as [e' | y] eqn:Hx; simpl.
  - intros [= ->]. eauto.
  - destruct (map_result f l) as [e' | ys]; simpl; [| discriminate].
    intros [= ->]. destruct (IH eq_refl) as (x' & Hin & Hf). eauto.
Qed.

Lemma map_result_ext {A B} (f g : A -> result B) (l : list A) :
  (forall x, In x l -> f x = g x) -> map_result f l = map_result g l.
Proof.
  induction l as [| x l IH]; simpl; intros H; [reflexivity |].
  rewrite (H x (or_introl eq_refl)), IH; auto.
Qed.

(** ** Comparisons, sorting and clamping *)

Lemma Qltb_lt (x y : Q) : Qltb x y = true <-> x < y.
Proof.
  unfold Qltb. rewrite negb_true_iff, <- not_true_iff_false, Qle_bool_iff.
  split; [apply Qnot_le_lt | apply Qlt_not_le].
Qed.

Lemma Qltb_ge (x y : Q) : Qltb x y = false <-> y <= x.
Proof. unfold Qltb. rewrite negb_false_iff. apply Qle_bool_iff. Qed.

Lemma insert_sorted_In (a x : Q) (l : list Q) :
  In x (insert_sorted a l) <-> x = a \/ In x l.
Proof.
  induction l as [| y l IH]; simpl; [intuition |].
  destruct (Qltb a y); simpl; rewrite ?IH; intuition.
Qed.

Lemma insert_sorted_length (a : Q) (l : list Q) :
  length (insert_sorted a l) = S (length l).
Proof.
  induction l as [| y l IH]; simpl; [reflexivity |].
  destruct (Qltb a y); simpl; rewrite ?IH; reflexivity.
Qed.

Lemma insert_sorted_ascending (a : Q) (l : list Q) :
  StronglySorted Qle l -> StronglySorted Qle (insert_sorted a l).
Proof.
  induction 1 as [| y l Hs IH Hy]; simpl.
  - repeat constructor.
  - destruct (Qltb a y) eqn:E.
    + apply Qltb_lt in E. constructor; [now constructor |].
      constructor; [now apply Qlt_le_weak |].
      rewrite Forall_forall in Hy |- *. intros z Hz.
      apply Qle_trans with y; [now apply Qlt_le_weak | auto].
    + apply Qltb_ge in E. constructor; [exact IH |].
      rewrite Forall_forall in Hy |- *. intros z Hz.
      apply insert_sorted_In in Hz. destruct Hz as [-> | Hz]; auto.
Qed.

Lemma sorted_acc_In (l acc : list Q) (x : Q) :
  In x (fold_left (fun acc x => insert_sorted x acc) l acc) <-> In x l \/ In x acc.
Proof.
  revert acc. induction l as [| a l IH]; simpl; intros acc; [intuition |].
  rewrite IH, insert_sorted_In. intuition.
Qed.

Lemma sorted_In (l : list Q) (x : Q) : In x (sorted l) <-> In x l.
Proof. unfold sorted. rewrite sorted_acc_In. simpl. intuition. Qed.

Lemma sorted_acc_length (l acc : list Q) :
  length (fold_left (fun acc x => insert_sorted x acc) l acc) = (length l + length acc)%nat.
Proof.
  revert acc. induction l as [| a l IH]; simpl; intros acc; [reflexivity |].
  rewrite IH, insert_sorted_length. lia.
Qed.

Lemma sorted_length (l : list Q) : length (sorted l) = length l.
Proof. unfold sorted. rewrite sorted_acc_length. simpl. lia. Qed.

Lemma sorted_ascending (l : list Q) : StronglySorted Qle (sorted l).
Proof.
  unfold sorted. generalize (SSorted_nil Qle). generalize (@nil Q).
  induction l as [| a l IH]; simpl; intros acc Hacc; [exact Hacc |].
  apply IH. now apply insert_sorted_ascending.
Qed.

Lemma ascending_first_le (l : list Q) (x : Q) :
  StronglySorted Qle l -> In x l -> nth 0 l 0 <= x.
Proof.
  intros Hs Hin. destruct l as [| y l]; [contradiction |]. simpl.
  inv Hs. destruct Hin as [-> | Hin]; [apply Qle_refl |].
  rewrite Forall_forall in H2. auto.
Qed.

Lemma ascending_le_last (l : list Q) (x : Q) :
  StronglySorted Qle l -> In x l -> x <= last l 0.
Proof.
  induction 1 as [| y l Hs IH Hy]; [contradiction |].
  intros [-> | Hin].
  - destruct l as [| z l]; [apply Qle_refl |].
    rewrite Forall_forall in Hy. apply Hy.
    change (In (last (z :: l) 0) (z :: l)).
    clear. revert z. induction l as [| w l IH]; intros z; simpl; [auto |].
    right. apply IH.
  - destruct l as [| z l]; [contradiction |]. now apply IH.
Qed.

Lemma last_In (l : list Q) : l <> [] -> In (last l 0) l.
Proof.
  induction l as [| y l IH]; [congruence |]. intros _.
  destruct l as [| z l]; [now left |]. right. apply IH. discriminate.
Qed.

Lemma first_In (l : list Q) : l <> [] -> In (nth 0 l 0) l.
Proof. destruct l; [congruence | now left]. Qed.

(** ** Float-keyed dictionaries *)

Lemma dict_get_Qeq {V} (d : @dict Q V) (k k' : Q) :
  k == k' -> dict_get Qeq_bool d k = dict_get Qeq_bool d k'.
Proof.
  intros E. induction d as [| [k0 v] d IH]; simpl; [reflexivity |].
  rewrite IH. now rewrite E.
Qed.

Lemma dict_get_key {V} (d : @dict Q V) (k : Q) :
  In k (dict_keys d) -> exists v, dict_get Qeq_bool d k = Some v.
Proof.
  induction d as [| [k0 v] d IH]; simpl; [contradiction |].
  intros [-> | Hin].
  - rewrite Qeq_bool_refl. eauto.
  - destruct (Qeq_bool k0 k); eauto.
Qed.

Lemma np_clip_inside (x lo hi : Q) : lo <= x -> x <= hi -> np_clip x lo hi == x.
Proof.
  intros H1 H2. unfold np_clip.
  destruct (Q.max_spec x lo) as [[? E1] | [? E1]];
    destruct (Q.min_spec hi (Qmax x lo)) as [[? E2] | [? E2]]; lra.
Qed.

Lemma np_clip_above (x lo hi : Q) : lo <= hi -> hi <= x -> np_clip x lo hi == hi.
Proof.
  intros H1 H2. unfold np_clip.
  destruct (Q.max_spec x lo) as [[? E1] | [? E1]];
    destruct (Q.min_spec hi (Qmax x lo)) as [[? E2] | [? E2]]; lra.
Qed.

Lemma np_clip_below (x lo hi : Q) : lo <= hi -> x <= lo -> np_clip x lo hi == lo.
Proof.
  intros H1 H2. unfold np_clip.
  destruct (Q.max_spec x lo) as [[? E1] | [? E1]];
    destruct (Q.min_spec hi (Qmax x lo)) as [[? E2] | [? E2]]; lra.
Qed.

(** ** Interpolation engine *)

Section InterpolationFacts.
Variable lib : PyLib.

Lemma interpolate_single (k : Q) (g : VegaGrid) (s : Q) (method : string) :
  interpolate_vega_grid lib [(k, g)] s method = ret g.
Proof.
  unfold interpolate_vega_grid, sorted, lookup. simpl.
  now rewrite Qeq_bool_refl.
Qed.

Lemma interpolate_exact_match (surfaces : @dict Q VegaGrid) (s : Q) (method : string)
    (grid : VegaGrid) :
  (2 <= length surfaces)%nat ->
  dict_get Qeq_bool surfaces
    (np_clip s (nth 0 (sorted (dict_keys surfaces)) 0) (last (sorted (dict_keys surfaces)) 0))
    = Some grid ->
  interpolate_vega_grid lib surfaces s method = ret (relabel s grid).
Proof.
  intros Hlen Hget. unfold interpolate_vega_grid.
  assert (Hl : length (sorted (dict_keys surfaces)) = length surfaces)
    by (rewrite sorted_length; apply length_map).
  rewrite Hl.
  destruct (Nat.eqb_spec (length surfaces) 0); [lia |].
  destruct (Nat.eqb_spec (length surfaces) 1); [lia |].
  now rewrite Hget.
Qed.

Lemma shifts_bounds (surfaces : @dict Q VegaGrid) :
  (1 <= length surfaces)%nat ->
  let shifts := sorted (dict_keys surfaces) in
  In (nth 0 shifts 0) (dict_keys surfaces) /\
  In (last shifts 0) (dict_keys surfaces) /\
  (forall k, In k (dict_keys surfaces) -> nth 0 shifts 0 <= k <= last shifts 0).
Proof.
  intros Hlen shifts.
  assert (Hne : shifts <> []).
  { intros E. apply (f_equal (@length Q)) in E. unfold shifts in E.
    rewrite sorted_length in E. unfold dict_keys in E. rewrite length_map in E.
    simpl in E. lia. }
  split; [| split].
  - apply sorted_In. now apply first_In.
  - apply sorted_In. now apply last_In.
  - intros k Hk. apply sorted_In in Hk. split.
    + apply ascending_first_le; [apply sorted_ascending | exact Hk].
    + apply ascending_le_last; [apply sorted_ascending | exact Hk].
Qed.

Lemma interpolate_above_max (surfaces : @dict Q VegaGrid) (s b : Q) (method : string) :
  (2 <= length surfaces)%nat -> is_max_shift surfaces b -> b <= s ->
  exists g, dict_get Qeq_bool surfaces b = Some g /\
            interpolate_vega_grid lib surfaces s method = ret (relabel s g).
Proof.
  intros Hlen [Hin Hmax] Hs.
  destruct (dict_get_key surfaces b Hin) as [g Hg]. exists g. split; [exact Hg |].
  destruct (shifts_bounds surfaces) as (Hlo & Hhi & Hb); [lia |].
  apply interpolate_exact_match; [exact Hlen |].
  rewrite <- Hg. apply dict_get_Qeq.
  pose proof (Hb b Hin) as [H1 H2]. pose proof (Hmax _ Hhi) as H3.
  rewrite np_clip_above; lra.
Qed.

Lemma interpolate_below_min (surfaces : @dict Q VegaGrid) (s b : Q) (method : string) :
  (2 <= length surfaces)%nat -> is_min_shift surfaces b -> s <= b ->
  exists g, dict_get Qeq_bool surfaces b = Some g /\
            interpolate_vega_grid lib surfaces s method = ret (relabel s g).
Proof.
  intros Hlen [Hin Hmin] Hs.
  destruct (dict_get_key surfaces b Hin) as [g Hg]. exists g. split; [exact Hg |].
  destruct (shifts_bounds surfaces) as (Hlo & Hhi & Hb); [lia |].
  apply interpolate_exact_match; [exact Hlen |].
  rewrite <- Hg. apply dict_get_Qeq.
  pose proof (Hb b Hin) as [H1 H2]. pose proof (Hmin _ Hlo) as H3.
  rewrite np_clip_below; lra.
Qed.

End InterpolationFacts.

(* ------------------------------------------------------------------------- *)
(** ** Claims on the interpolation engine *)

(** C1.  With exactly one surface loaded, [interpolate_vega_grid] returns the
    stored grid itself for every requested move: the values matrix is
    retained, and so is the grid's own [spot_shift] label, which is not
    overwritten with the requested target. *)
Theorem single_surface_returns_stored_grid :
  forall (lib : PyLib) (k : Q) (g : VegaGrid) (s : Q) (method : string),
    exists r,
      interpolate_vega_grid lib [(k, g)] s method = ret r /\
      values r = values g /\
      spot_shift r = spot_shift g.
Proof.
  intros. exists g. rewrite interpolate_single. auto.
Qed.

(** A run of the single-surface path: one surface at shift 0, requested
    move +5%. *)
Example single_surface_run :
  forall lib, exists r,
    interpolate_vega_grid lib one_surface (5 # 100) "linear" = ret r /\
    values r = values sample_atm /\ spot_shift r == 0 /\ ~ spot_shift r == 5 # 100.
Proof.
  intros. exists sample_atm. unfold one_surface. rewrite interpolate_single.
  repeat split; simpl; lra.
Qed.

(** C2.  On a mapping with a single surface the clamped move always equals
    the one known key, and the grid returned is the stored one under its own
    label, whatever the requested move. *)
Theorem single_surface_exact_key_keeps_label :
  forall (lib : PyLib) (k : Q) (g : VegaGrid) (s : Q) (method : string),
    dict_mem Qeq_bool [(k, g)] (np_clip s k k) = true /\
    interpolate_vega_grid lib [(k, g)] s method = ret g.
Proof.
  intros. split; [| apply interpolate_single].
  unfold dict_mem. simpl.
  assert (E : k == np_clip s k k).
  { destruct (Qlt_le_dec s k).
    - rewrite np_clip_below; lra.
    - rewrite np_clip_above; lra. }
  apply Qeq_bool_iff in E. now rewrite E.
Qed.

(** X1.  With two or more surfaces, when the clamped move equals a known
    shift key, the stored grid comes back with only the label replaced by
    the requested, unclamped move. *)
Theorem exact_match_relabels :
  forall (lib : PyLib) (surfaces : @dict Q VegaGrid) (s : Q) (method : string)
         (grid : VegaGrid),
    (2 <= length surfaces)%nat ->
    dict_get Qeq_bool surfaces
      (np_clip s (nth 0 (sorted (dict_keys surfaces)) 0)
                 (last (sorted (dict_keys surfaces)) 0)) = Some grid ->
    exists r,
      interpolate_vega_grid lib surfaces s method = ret r /\
      spot_shift r = s /\
      values r = values grid /\ moneyness r = moneyness grid /\
      expiries r = expiries grid /\ expiry_years r = expiry_years grid /\
      row_totals r = row_totals grid /\ col_totals r = col_totals grid /\
      total r = total grid.
Proof.
  intros lib surfaces s method grid Hlen Hget. exists (relabel s grid).
  rewrite (interpolate_exact_match lib surfaces s method grid Hlen Hget).
  repeat split.
Qed.

Lemma exact_match_relabels_witness :
  exists r,
    interpolate_vega_grid sample_lib two_surfaces (1 # 10) "linear" = ret r /\
    spot_shift r = 1 # 10 /\
    values r = values sample_up /\ moneyness r = moneyness sample_up /\
    expiries r = expiries sample_up /\ expiry_years r = expiry_years sample_up /\
    row_totals r = row_totals sample_up /\ col_totals r = col_totals sample_up /\
    total r = total sample_up.
Proof.
  apply (exact_match_relabels sample_lib two_surfaces (1 # 10) "linear" sample_up).
  - simpl. lia.
  - reflexivity.
Defined.

(** C3, as stated, fails: beyond the boundary the grid carries the requested
    move as its label, so it is not the grid returned for the boundary. *)
Lemma clamped_result_differs_from_boundary_result :
  ~ (forall lib : PyLib,
       interpolate_vega_grid lib two_surfaces (1 # 10) "linear"
       = interpolate_vega_grid lib two_surfaces (5 # 100) "linear").
Proof.
  intros H. specialize (H sample_lib). vm_compute in H. discriminate H.
Qed.

(** C3, amended.  With at least two surfaces and a requested move [s] beyond
    the largest (smallest) loaded shift [b], the grids returned for [s] and
    for [b] are the same stored grid, each under the label of its own
    request: they agree in every field except [spot_shift]. *)
Theorem clamping_agrees_up_to_label :
  forall (lib : PyLib) (surfaces : @dict Q VegaGrid) (s b : Q) (method : string),
    (2 <= length surfaces)%nat ->
    (is_max_shift surfaces b /\ b < s) \/ (is_min_shift surfaces b /\ s < b) ->
    exists g,
      dict_get Qeq_bool surfaces b = Some g /\
      interpolate_vega_grid lib surfaces s method = ret (relabel s g) /\
      interpolate_vega_grid lib surfaces b method = ret (relabel b g).
Proof.
  intros lib surfaces s b method Hlen [[Hb Hs] | [Hb Hs]].
  - destruct (interpolate_above_max lib surfaces s b method Hlen Hb) as (g & Hg & Hi);
      [lra |].
    destruct (interpolate_above_max lib surfaces b b method Hlen Hb) as (g' & Hg' & Hi');
      [lra |].
    exists g. rewrite Hg in Hg'. inversion Hg'; subst g'. auto.
  - destruct (interpolate_below_min lib surfaces s b method Hlen Hb) as (g & Hg & Hi);
      [lra |].
    destruct (interpolate_below_min lib surfaces b b method Hlen Hb) as (g' & Hg' & Hi');
      [lra |].
    exists g. rewrite Hg in Hg'. inversion Hg'; subst g'. auto.
Qed.

Lemma clamping_agrees_up_to_label_witness :
  exists g,
    dict_get Qeq_bool two_surfaces (5 # 100) = Some g /\
    interpolate_vega_grid sample_lib two_surfaces (1 # 10) "linear" = ret (relabel (1 # 10) g) /\
    interpolate_vega_grid sample_lib two_surfaces (5 # 100) "linear"
    = ret (relabel (5 # 100) g).
Proof.
  apply (clamping_agrees_up_to_label sample_lib two_surfaces (1 # 10) (5 # 100) "linear").
  - simpl. lia.
  - left. split; [| reflexivity].
    split; [simpl; auto |].
    simpl. intros k [<- | [<- | []]]; discriminate.
Defined.

(** ** Failure kinds *)

Lemma parse_csv_undetermined_shift (lib : PyLib) (filepath : string) (df : DataFrame)
    (ref_date : option date) :
  detect_shift_from_filename lib filepath = None ->
  parse_csv lib filepath df None ref_date
  = raise (ValueError ("Cannot detect spot shift from filename: " ++ filepath)).
Proof. intros H. unfold parse_csv. now rewrite H. Qed.

Lemma parse_csv_error_message (lib : PyLib) (filepath : string) (df : DataFrame)
    (shift : option Q) (ref_date : option date) (e : exn) :
  parse_csv lib filepath df shift ref_date = inl e ->
  e = ValueError ("Cannot detect spot shift from filename: " ++ filepath) \/
  exists label, e = ValueError ("Unknown datetime string format: " ++ label).
Proof.
  unfold parse_csv. intros H.
  apply bind_inl in H. destruct H as [H | (sh & _ & H)].
  - destruct shift; [discriminate |].
    destruct (detect_shift_from_filename lib filepath); [discriminate |].
    left. now inversion H.
  - cbv beta zeta in H. apply bind_inl in H. destruct H as [H | (ys & _ & H)].
    + apply map_result_inl in H. destruct H as (x & _ & Hx).
      unfold year_fraction in Hx. destruct (pd_Timestamp lib x); [discriminate |].
      right. exists x. now inversion Hx.
    + discriminate.
Qed.

(** C9, as stated, fails: the failure on an empty store and the parser's
    failure on a file name without a shift key are exceptions of one and the
    same class. *)
Lemma empty_store_error_has_parse_error_class :
  ~ (forall (lib : PyLib) (filepath : string) (df : DataFrame) (e1 e2 : exn),
       interpolate_vega_grid lib [] 0 "linear" = inl e1 ->
       parse_csv lib filepath df None None = inl e2 ->
       class_of e1 <> class_of e2).
Proof.
  intros H.
  apply (H sample_lib "SPX_flat.csv"%string (mk_DataFrame [] [])
           (ValueError "No surfaces provided")
           (ValueError "Cannot detect spot shift from filename: SPX_flat.csv"));
    reflexivity.
Qed.

(** C9, amended.  On an empty mapping [interpolate_vega_grid], and with it
    [compute_pnl], raises [ValueError("No surfaces provided")] and returns no
    result.  The parser raises the same class, and no parser failure carries
    this message: the message is what tells the two apart. *)
Theorem empty_store_raises_value_error :
  forall (lib : PyLib) (s : Q) (vol_mode : string) (bp : option BetaParams)
         (mp : option ManualParams) (method : string),
    interpolate_vega_grid lib [] s method = raise (ValueError "No surfaces provided") /\
    compute_pnl lib [] s vol_mode bp mp method = raise (ValueError "No surfaces provided") /\
    (forall filepath df shift ref_date e,
        parse_csv lib filepath df shift ref_date = inl e ->
        class_of e = ValueErrorClass /\ e <> ValueError "No surfaces provided").
Proof.
  intros. split; [reflexivity | split; [reflexivity |]].
  intros filepath df shift ref_date e H.
  apply parse_csv_error_message in H. destruct H as [-> | [label ->]];
    (split; [reflexivity | discriminate]).
Qed.

(* ------------------------------------------------------------------------- *)
(** ** Tenor buckets *)

Lemma classify_days_spec (days : Z) :
  let label := classify_days days in
  In label BUCKETS /\
  (label = "0-1M"%string <-> (days <= 30)%Z) /\
  (label = "1-3M"%string <-> (30 < days <= 90)%Z) /\
  (label = "3-6M"%string <-> (90 < days <= 180)%Z) /\
  (label = "6-12M"%string <-> (180 < days <= 365)%Z) /\
  (label = "1-2Y"%string <-> (365 < days <= 730)%Z) /\
  (label = "2Y+"%string <-> (730 < days)%Z).
Proof.
  unfold classify_days, EXPIRY_BUCKET_THRESHOLDS, first_bucket, le_threshold, BUCKETS.
  destruct (Z.leb_spec days 30);
    [| destruct (Z.leb_spec days 90);
       [| destruct (Z.leb_spec days 180);
          [| destruct (Z.leb_spec days 365);
             [| destruct (Z.leb_spec days 730)]]]];
    cbv zeta;
    (split; [simpl; tauto |]);
    repeat split; intros; try reflexivity; try discriminate; try lia.
Qed.

(** The boundary day-counts fall in the lower bucket, the next day in the
    upper one. *)
Example classify_days_boundaries :
  map classify_days [30; 31; 90; 91; 180; 181; 365; 366; 730; 731; -400; 100000]%Z
  = [ "0-1M"; "1-3M"; "1-3M"; "3-6M"; "3-6M"; "6-12M"; "6-12M"; "1-2Y"; "1-2Y"; "2Y+";
      "0-1M"; "2Y+" ]%string.
Proof. reflexivity. Qed.

(** C5.  Every expiry date, at whatever distance [days] from the reference
    date, gets exactly one of the six bucket labels: the label of the first
    threshold, in ascending order, with [days <= threshold], so that the days
    30, 90, 180, 365 and 730 belong to the lower bucket, and "2Y+" beyond. *)
Theorem classify_expiry_bucket_coverage :
  forall (lib : PyLib) (expiry_str : string) (ref_date : option date) (exp_date : date),
    pd_Timestamp lib expiry_str = Some exp_date ->
    let days :=
      days_between exp_date
        (match ref_date with Some d => d | None => REFERENCE_DATE end) in
    exists label,
      classify_expiry lib expiry_str ref_date = ret label /\
      In label BUCKETS /\
      (label = "0-1M"%string <-> (days <= 30)%Z) /\
      (label = "1-3M"%string <-> (30 < days <= 90)%Z) /\
      (label = "3-6M"%string <-> (90 < days <= 180)%Z) /\
      (label = "6-12M"%string <-> (180 < days <= 365)%Z) /\
      (label = "1-2Y"%string <-> (365 < days <= 730)%Z) /\
      (label = "2Y+"%string <-> (730 < days)%Z).
Proof.
  intros lib expiry_str ref_date exp_date Hparse days.
  exists (classify_days days). split.
  - unfold classify_expiry. now rewrite Hparse.
  - apply classify_days_spec.
Qed.

(** 8 March 2026 is 30 days after the reference date, 6 February 2026. *)
Lemma classify_expiry_bucket_coverage_witness :
  let days := days_between (mk_date 2026 3 8) REFERENCE_DATE in
  exists label,
    classify_expiry sample_lib "2026-03-08" None = ret label /\
    In label BUCKETS /\
    (label = "0-1M"%string <-> (days <= 30)%Z) /\
    (label = "1-3M"%string <-> (30 < days <= 90)%Z) /\
    (label = "3-6M"%string <-> (90 < days <= 180)%Z) /\
    (label = "6-12M"%string <-> (180 < days <= 365)%Z) /\
    (label = "1-2Y"%string <-> (365 < days <= 730)%Z) /\
    (label = "2Y+"%string <-> (730 < days)%Z).
Proof.
  apply (classify_expiry_bucket_coverage sample_lib "2026-03-08" None (mk_date 2026 3 8)).
  reflexivity.
Defined.

Example classify_expiry_runs :
  map (fun s => classify_expiry sample_lib s None)
      [ "2026-03-08"; "2026-03-09"; "2027-02-06"; "2027-02-07"; "2028-02-06";
        "2028-02-07"; "2025-01-01"; "next week" ]%string
  = [ inr "0-1M"; inr "1-3M"; inr "6-12M"; inr "1-2Y"; inr "1-2Y"; inr "2Y+"; inr "0-1M";
      inl (ValueError "Unknown datetime string format: next week") ]%string.
Proof. reflexivity. Qed.

(* ------------------------------------------------------------------------- *)
(** ** Beta model *)

Lemma atm_change_up_move (b c d1 d2 : Q) :
  b < 0 -> 0 <= d1 -> d1 <= d2 -> c * d2 * (2 # 100) <= - b ->
  b * d2 + c * d2 * d2 * (1 # 100) <= b * d1 + c * d1 * d1 * (1 # 100) /\
  b * d1 + c * d1 * d1 * (1 # 100) <= 0.
Proof.
  intros Hb H1 H12 Hc.
  assert (Hslope : forall d, 0 <= d -> d <= d2 -> b + c * d * (2 # 100) <= 0).
  { intros d Hd Hd2. destruct (Qlt_le_dec c 0) as [Hneg | Hpos].
    - assert (c * d <= 0) by nra. lra.
    - assert (c * d <= c * d2) by nra. lra. }
  pose proof (Hslope d1 H1 H12) as S1.
  pose proof (Hslope d2 ltac:(lra) ltac:(lra)) as S2.
  split.
  - assert (0 <= (d2 - d1) * - (b + c * d1 * (1 # 100) + c * d2 * (1 # 100))) by
      (apply Qmult_le_0_compat; lra).
    lra.
  - assert (0 <= d1 * - (b + c * d1 * (1 # 100))) by
      (apply Qmult_le_0_compat; lra).
    lra.
Qed.

(** C6, as stated, fails: with the default parameters the magnitude of
    [atm_change] is 2 at a +10% move and 0 at a +20% move. *)
Lemma atm_change_magnitude_not_monotone :
  ~ (forall (params : BetaParams) (s1 s2 : Q),
       spot_vol_beta params < 0 -> 0 <= s1 -> s1 <= s2 ->
       Qabs (atm_change params (s1 * 100)) <= Qabs (atm_change params (s2 * 100))).
Proof.
  intros H.
  specialize (H BetaParams_default (1 # 10) (2 # 10)).
  assert (C : Qabs (atm_change BetaParams_default ((1 # 10) * 100))
              <= Qabs (atm_change BetaParams_default ((2 # 10) * 100)))
    by (apply H; [reflexivity | discriminate | discriminate]).
  apply Qle_bool_iff in C. vm_compute in C. discriminate C.
Qed.

(** C6, amended.  [beta_vol_change] scales [atm_change], which is
    [spot_vol_beta * dS + convexity * dS * dS * 0.01] at [dS = spot_move * 100]
    with the convexity term added whatever the sign of [dS].  For
    [spot_vol_beta < 0], as the move increases from 0 the magnitude of
    [atm_change] is non-decreasing up to the turning point, that is while
    [convexity * dS * 0.02 <= - spot_vol_beta]. *)
Theorem beta_atm_change_response :
  forall (lib : PyLib) (mny years : Q) (params : BetaParams) (s1 s2 : Q),
    spot_vol_beta params < 0 ->
    0 <= s1 -> s1 <= s2 ->
    convexity params * (s2 * 100) * (2 # 100) <= - spot_vol_beta params ->
    (forall dS, atm_change params dS
                = spot_vol_beta params * dS + convexity params * dS * dS * (1 # 100)) /\
    (forall s, fst (beta_vol_change lib mny years s params)
               = atm_change params (s * 100)
                 * np_clip (1 - skew_beta params * (mny - 1) * np_sign (- (s * 100))) (5 # 10) 2
                 * py_max (term_floor params) (np_exp lib (- term_decay params * years))) /\
    Qabs (atm_change params (s1 * 100)) <= Qabs (atm_change params (s2 * 100)).
Proof.
  intros lib mny years params s1 s2 Hb H1 H12 Hc.
  split; [reflexivity | split; [reflexivity |]].
  unfold atm_change.
  destruct (atm_change_up_move (spot_vol_beta params) (convexity params)
              (s1 * 100) (s2 * 100)) as [Hmono Hneg]; try lra.
  rewrite !Qabs_neg; lra.
Qed.

Lemma beta_atm_change_response_witness :
  (forall dS, atm_change BetaParams_default dS
              = spot_vol_beta BetaParams_default * dS
                + convexity BetaParams_default * dS * dS * (1 # 100)) /\
  (forall s, fst (beta_vol_change sample_lib (9 # 10) (1 # 2) s BetaParams_default)
             = atm_change BetaParams_default (s * 100)
               * np_clip (1 - skew_beta BetaParams_default * ((9 # 10) - 1)
                              * np_sign (- (s * 100))) (5 # 10) 2
               * py_max (term_floor BetaParams_default)
                   (np_exp sample_lib (- term_decay BetaParams_default * (1 # 2)))) /\
  Qabs (atm_change BetaParams_default ((2 # 100) * 100))
  <= Qabs (atm_change BetaParams_default ((5 # 100) * 100)).
Proof.
  apply (beta_atm_change_response sample_lib (9 # 10) (1 # 2) BetaParams_default
           (2 # 100) (5 # 100)).
  - reflexivity.
  - discriminate.
  - discriminate.
  - discriminate.
Defined.

(* ------------------------------------------------------------------------- *)
(** ** Sums over arrays and dictionaries *)

Lemma qsum_app (l1 l2 : list Q) : qsum (l1 ++ l2) == qsum l1 + qsum l2.
Proof. induction l1 as [| x l1 IH]; simpl; [lra | rewrite IH; lra]. Qed.

Lemma qsum_map_plus {A} (f g : A -> Q) (l : list A) :
  qsum (map (fun x => f x + g x) l) == qsum (map f l) + qsum (map g l).
Proof. induction l as [| x l IH]; simpl; [lra | rewrite IH; lra]. Qed.

Lemma map_nth_seq {A} (r : list A) (d : A) :
  map (fun j => nth j r d) (seq 0 (length r)) = r.
Proof.
  induction r as [| x r IH]; simpl; [reflexivity |].
  rewrite <- seq_shift, map_map. simpl. now rewrite IH.
Qed.

(** Summing the column sums or the row sums gives the grand total. *)
Lemma sum_axis0_total (a : ndarray2) :
  rectangular a -> qsum (sum_axis0 a) == sum_all a.
Proof.
  destruct a as [m rs]. unfold rectangular, sum_axis0, sum_all. simpl.
  induction 1 as [| r rs Hr Hrs IH]; simpl.
  - induction (seq 0 m) as [| j js IHj]; simpl; [lra | rewrite IHj; lra].
  - rewrite (qsum_map_plus (fun j => nth j r 0)
               (fun j => qsum (map (fun r0 => nth j r0 0) rs))).
    rewrite IH, <- Hr, map_nth_seq. lra.
Qed.

Lemma sum_axis1_total (a : ndarray2) : qsum (sum_axis1 a) == sum_all a.
Proof. reflexivity. Qed.

Lemma map_result_length {A B} (f : A -> result B) (l : list A) (ys : list B) :
  map_result f l = inr ys -> length ys = length l.
Proof.
  revert ys. induction l as [| x l IH]; simpl; intros ys H.
  - now inversion H.
  - apply bind_inr in H. destruct H as (y & _ & H).
    apply bind_inr in H. destruct H as (ys' & Hys & H).
    inversion H. simpl. now rewrite (IH ys').
Qed.

Lemma map_result_Forall {A B} (f : A -> result B) (l : list A) (ys : list B) (P : B -> Prop) :
  (forall x y, In x l -> f x = inr y -> P y) ->
  map_result f l = inr ys -> Forall P ys.
Proof.
  revert ys. induction l as [| x l IH]; simpl; intros ys HP H.
  - inversion H. constructor.
  - apply bind_inr in H. destruct H as (y & Hy & H).
    apply bind_inr in H. destruct H as (ys' & Hys & H).
    inversion H. constructor; [eauto | apply IH; eauto].
Qed.

Lemma zip_with_length {A B C} (f : A -> B -> C) (l1 : list A) (l2 : list B) :
  length l1 = length l2 -> length (zip_with f l1 l2) = length l1.
Proof.
  revert l2. induction l1 as [| x l1 IH]; destruct l2 as [| y l2]; simpl;
    try discriminate; auto.
Qed.

Lemma ew_rectangular (f : Q -> Q -> Q) (a b : ndarray2) :
  rectangular a -> rectangular b -> ncols b = ncols a ->
  length (rows b) = length (rows a) ->
  rectangular (ew f a b) /\ length (rows (ew f a b)) = length (rows a).
Proof.
  destruct a as [m ra], b as [m' rb]. unfold rectangular, ew. simpl.
  intros Ha Hb -> Hlen. split; [| now apply zip_with_length].
  revert rb Hb Hlen. induction Ha as [| r ra Hr Hra IH]; intros [| r' rb] Hb Hlen;
    simpl in *; try discriminate; constructor.
  - inversion Hb; subst. rewrite zip_with_length; congruence.
  - inversion Hb; subst. apply IH; auto.
Qed.

Section DictSums.
Context {K : Type}.
Variable eqb : K -> K -> bool.

Lemma dict_set_fresh (d : @dict K Q) (k : K) (v : Q) :
  existsb (fun k' => eqb k' k) (dict_keys d) = false ->
  dict_set eqb d k v = d ++ [(k, v)].
Proof.
  induction d as [| [k0 v0] d IH]; simpl; [reflexivity |].
  intros H. apply orb_false_iff in H. destruct H as [-> H]. now rewrite IH.
Qed.

Lemma distinct_app_fresh (xs l : list K) (k : K) :
  distinct eqb (xs ++ k :: l) = true ->
  existsb (fun k' => eqb k' k) xs = false.
Proof.
  induction xs as [| x xs IH]; simpl; [reflexivity |].
  intros H. apply andb_true_iff in H. destruct H as [Hx H].
  rewrite (IH H), orb_false_r.
  apply negb_true_iff in Hx. rewrite existsb_app in Hx.
  apply orb_false_iff in Hx. destruct Hx as [_ Hx]. simpl in Hx.
  now apply orb_false_iff in Hx.
Qed.



End DictSums.

(* ------------------------------------------------------------------------- *)
(** ** P&L pipeline *)



Section PipelineFacts.
Variable lib : PyLib.

Lemma compute_vol_change_grid_shape (g : VegaGrid) (s : Q) (mode : string)
    (bp : option BetaParams) (mp : option ManualParams) (vc vg : ndarray2) :
  compute_vol_change_grid lib g s mode bp mp = inr (vc, vg) ->
  (rectangular vc /\ ncols vc = ncols (values g) /\
   length (rows vc) = length (rows (values g))) /\
  (rectangular vg /\ ncols vg = ncols (values g) /\
   length (rows vg) = length (rows (values g))).
Proof.
  unfold compute_vol_change_grid, shape. intros H.
  apply bind_inr in H. destruct H as (cells & Hcells & H). inversion H; subst vc vg.
  pose proof (map_result_length _ _ _ Hcells) as Hlen. rewrite length_seq in Hlen.
  assert (Hrows : Forall (fun row => length row = ncols (values g)) cells).
  { eapply map_result_Forall; [| exact Hcells]. intros i row _ Hrow. simpl in Hrow.
    apply map_result_length in Hrow. now rewrite length_seq in Hrow. }
  unfold rectangular. simpl. rewrite !length_map.
  repeat split; auto; rewrite Forall_map;
    (eapply Forall_impl; [| exact Hrows]); intros row Hr; now rewrite length_map.
Qed.

(** What a successful [compute_pnl] has computed, step by step. *)
Lemma compute_pnl_inr (surfaces : @dict Q VegaGrid) (s : Q) (mode : string)
    (bp : option BetaParams) (mp : option ManualParams) (method : string)
    (r : PnLResult) :
  compute_pnl lib surfaces s mode bp mp method = inr r ->
  exists vg,
    interpolate_vega_grid lib surfaces s method = inr (vega_grid r) /\
    compute_vol_change_grid lib (vega_grid r) s mode
      (Some (match bp with Some p => p | None => BetaParams_default end))
      (Some (match mp with Some p => p | None => ManualParams_default end))
    = inr (vol_change_grid r, vg) /\
    pnl_grid r = ew Qplus (ew Qmult (values (vega_grid r)) (vol_change_grid r))
                          (ew Qmult (values (vega_grid r)) vg) /\
    total_pnl r = sum_all (pnl_grid r) /\
    spot_move r = s /\
    for_each (fun d '(j, exp) =>
                c <- col_at (pnl_grid r) j ;; ret (dict_set String.eqb d exp (qsum c)))
      (enumerate (expiries (vega_grid r))) [] = inr (pnl_by_expiry r) /\
    for_each (fun d '(j, exp) =>
                bucket <- classify_expiry lib exp None ;;
                c <- col_at (pnl_grid r) j ;;
                ret (dict_set String.eqb d bucket
                       (dict_get_default String.eqb d bucket 0 + qsum c)))
      (enumerate (expiries (vega_grid r))) [] = inr (pnl_by_bucket r) /\
    for_each (fun d '(i, m) =>
                c <- row_at (pnl_grid r) i ;; ret (dict_set Qeq_bool d m (qsum c)))
      (enumerate (moneyness (vega_grid r))) [] = inr (pnl_by_moneyness r).
Proof.
  unfold compute_pnl. intros H.
  apply bind_inr in H. destruct H as (g & Hg & H).
  apply bind_inr in H. destruct H as ([vc vg] & Hvc & H).
  cbv zeta in H.
  apply bind_inr in H. destruct H as (de & Hde & H).
  apply bind_inr in H. destruct H as (db & Hdb & H).
  apply bind_inr in H. destruct H as (dm & Hdm & H).
  inversion H; subst r; clear H. simpl.
  exists vg. repeat split; auto.
Qed.

Lemma pnl_grid_shape (g : VegaGrid) (vc vg : ndarray2) :
  rectangular (values g) ->
  (rectangular vc /\ ncols vc = ncols (values g) /\
   length (rows vc) = length (rows (values g))) ->
  (rectangular vg /\ ncols vg = ncols (values g) /\
   length (rows vg) = length (rows (values g))) ->
  let pnl := ew Qplus (ew Qmult (values g) vc) (ew Qmult (values g) vg) in
  rectangular pnl /\ ncols pnl = ncols (values g) /\
  length (rows pnl) = length (rows (values g)).
Proof.
  intros Hg (Hc1 & Hc2 & Hc3) (Hg1 & Hg2 & Hg3) pnl.
  destruct (ew_rectangular Qmult (values g) vc) as [R1 L1]; auto.
  destruct (ew_rectangular Qmult (values g) vg) as [R2 L2]; auto.
  destruct (ew_rectangular Qplus (ew Qmult (values g) vc) (ew Qmult (values g) vg))
    as [R3 L3]; auto; [congruence |].
  unfold pnl. repeat split; auto. congruence.
Qed.

End PipelineFacts.

Example parse_csv_repeated_label :
  parse_csv sample_lib "SPX_atm.csv" repeated_label_frame None None
  = ret repeated_label_grid.
Proof. reflexivity. Qed.


(** The other two hypotheses of the amended statement are needed as well: a
    moneyness value listed twice merges two rows of the by-moneyness dict,
    and an expiry axis shorter than the matrix leaves a column out of the
    by-expiry dict. *)
Example pnl_by_moneyness_merges_equal_values :
  exists r,
    compute_pnl sample_lib [(0, repeated_moneyness_grid)] 0 "manual" None
      (Some parallel_shift) "linear" = inr r /\
    total_pnl r == 300 /\ qsum (dict_values (pnl_by_moneyness r)) == 200.
Proof. vm_compute. eexists. split; [reflexivity |]. split; reflexivity. Qed.

Example pnl_by_expiry_follows_expiry_axis :
  exists r,
    compute_pnl sample_lib [(0, short_axis_grid)] 0 "manual" None
      (Some parallel_shift) "linear" = inr r /\
    total_pnl r == 300 /\ qsum (dict_values (pnl_by_expiry r)) == 100.
Proof. vm_compute. eexists. split; [reflexivity |]. split; reflexivity. Qed.



(* ------------------------------------------------------------------------- *)
(** ** Manual mode *)

Lemma manual_vol_change_grid_spot_free (lib : PyLib) (grid : VegaGrid) (s1 s2 : Q)
    (vol_mode : string) (bp : option BetaParams) (mp : option ManualParams) :
  String.eqb vol_mode "beta" = false ->
  compute_vol_change_grid lib grid s1 vol_mode bp mp
  = compute_vol_change_grid lib grid s2 vol_mode bp mp.
Proof.
  intros Hmode. unfold compute_vol_change_grid. rewrite Hmode. reflexivity.
Qed.

(** C10.  In manual mode (any mode other than "beta") the vol-change matrix
    and the volga matrix that [compute_vol_change_grid] returns do not depend
    on the spot move: two calls on the same grid and parameters return the
    same pair of matrices, or fail alike. *)
Theorem manual_vol_change_grid_ignores_spot_move :
  forall (lib : PyLib) (grid : VegaGrid) (s1 s2 : Q) (vol_mode : string)
         (bp : option BetaParams) (mp : option ManualParams),
    String.eqb vol_mode "beta" = false ->
    compute_vol_change_grid lib grid s1 vol_mode bp mp
    = compute_vol_change_grid lib grid s2 vol_mode bp mp.
Proof.
  intros lib grid s1 s2 vol_mode bp mp Hmode.
  now apply manual_vol_change_grid_spot_free.
Qed.

Lemma manual_vol_change_grid_ignores_spot_move_witness :
  compute_vol_change_grid sample_lib sample_atm (-(5 # 100)) "manual" None None
  = compute_vol_change_grid sample_lib sample_atm (3 # 100) "manual" None None.
Proof.
  apply (manual_vol_change_grid_ignores_spot_move sample_lib sample_atm
           (-(5 # 100)) (3 # 100) "manual" None None).
  reflexivity.
Defined.

(** In beta mode the matrices do move with the spot. *)
Example beta_vol_change_grid_follows_spot_move :
  compute_vol_change_grid sample_lib sample_atm (-(5 # 100)) "beta" None None
  <> compute_vol_change_grid sample_lib sample_atm (3 # 100) "beta" None None.
Proof. vm_compute. discriminate. Qed.

(** X3.  Hence, in manual mode, two spot moves whose interpolated grids have
    the same axes and values give the same P&L matrix, total and
    aggregations. *)
Theorem manual_pnl_depends_on_grid_only :
  forall (lib : PyLib) (surfaces : @dict Q VegaGrid) (s1 s2 : Q) (vol_mode : string)
         (bp : option BetaParams) (mp : option ManualParams) (method : string)
         (r1 r2 : PnLResult),
    String.eqb vol_mode "beta" = false ->
    compute_pnl lib surfaces s1 vol_mode bp mp method = inr r1 ->
    compute_pnl lib surfaces s2 vol_mode bp mp method = inr r2 ->
    relabel 0 (vega_grid r1) = relabel 0 (vega_grid r2) ->
    pnl_grid r1 = pnl_grid r2 /\ total_pnl r1 = total_pnl r2 /\
    vol_change_grid r1 = vol_change_grid r2 /\
    pnl_by_expiry r1 = pnl_by_expiry r2 /\ pnl_by_bucket r1 = pnl_by_bucket r2 /\
    pnl_by_moneyness r1 = pnl_by_moneyness r2.
Proof.
  intros lib surfaces s1 s2 vol_mode bp mp method r1 r2 Hmode H1 H2 Hg.
  apply compute_pnl_inr in H1. apply compute_pnl_inr in H2.
  destruct H1 as (vg1 & _ & Hvc1 & Hp1 & Ht1 & _ & He1 & Hb1 & Hm1).
  destruct H2 as (vg2 & _ & Hvc2 & Hp2 & Ht2 & _ & He2 & Hb2 & Hm2).
  injection Hg as Em Ee Ey Ev _ _ _.
  assert (Evc : vol_change_grid r1 = vol_change_grid r2 /\ vg1 = vg2).
  { rewrite (manual_vol_change_grid_spot_free lib (vega_grid r1) s1 s2) in Hvc1
      by exact Hmode.
    unfold compute_vol_change_grid in Hvc1, Hvc2.
    rewrite Em, Ey, Ev, Hvc2 in Hvc1. now inversion Hvc1. }
  destruct Evc as [Evc ->].
  assert (Ep : pnl_grid r1 = pnl_grid r2) by (rewrite Hp1, Hp2, Ev, Evc; reflexivity).
  rewrite Ep, Ee in He1, Hb1. rewrite Ep, Em in Hm1.
  rewrite He2 in He1. rewrite Hb2 in Hb1. rewrite Hm2 in Hm1.
  inversion He1. inversion Hb1. inversion Hm1.
  repeat split; congruence.
Qed.

(* ------------------------------------------------------------------------- *)
(** ** Scenario matrix *)

Lemma map_result_Forall2 {A B} (f : A -> result B) (l : list A) (ys : list B) :
  map_result f l = inr ys -> Forall2 (fun x y => f x = inr y) l ys.
Proof.
  revert ys. induction l as [| x l IH]; simpl; intros ys H.
  - inversion H. constructor.
  - apply bind_inr in H. destruct H as (y & Hy & H).
    apply bind_inr in H. destruct H as (ys' & Hys & H).
    inversion H. constructor; auto.
Qed.

Example default_vol_labels :
  map vol_label default_vol_changes_override
  = [ "vol_-5"; "vol_-3"; "vol_-1"; "vol_+0"; "vol_+1"; "vol_+3"; "vol_+5" ]%string.
Proof. reflexivity. Qed.

Section ScenarioFacts.
Variable lib : PyLib.
Variable surfaces : @dict Q VegaGrid.

(** One row of the manual sweep: under pairwise different labels, one
    column per override, in order, each holding the total P&L computed
    with the parameters of [sweep_manual_params]. *)
Lemma manual_row_columns (base : ManualParams) (sm : Q) (ovs : list Q) :
  forall (row0 row : @dict string Q),
    distinct String.eqb (dict_keys row0 ++ map vol_label ovs) = true ->
    for_each (fun row dv =>
                let mp := sweep_manual_params base dv in
                r <- compute_pnl lib surfaces sm "manual" None (Some mp) "linear" ;;
                ret (dict_set String.eqb row ("vol_" ++ format_signed_0f dv)%string
                       (total_pnl r)))
      ovs row0 = inr row ->
    exists rs,
      map_result (fun dv => compute_pnl lib surfaces sm "manual" None
                              (Some (sweep_manual_params base dv)) "linear") ovs
      = inr rs /\
      row = row0 ++ combine (map vol_label ovs) (map total_pnl rs).
Proof.
  induction ovs as [| dv ovs IH]; simpl; intros row0 row Hd H.
  - inversion H. exists []. simpl. now rewrite app_nil_r.
  - apply bind_inr in H. destruct H as (row1 & H1 & H).
    apply bind_inr in H1. destruct H1 as (r & Hr & H1). inversion H1; subst row1.
    fold (vol_label dv) in H.
    rewrite dict_set_fresh in H by (eapply distinct_app_fresh; eauto).
    apply IH in H.
    + destruct H as (rs & Hrs & Hrow). exists (r :: rs). rewrite Hr, Hrs. simpl.
      split; [reflexivity |]. rewrite Hrow. now rewrite <- app_assoc.
    + unfold dict_keys. rewrite map_app. simpl. now rewrite <- app_assoc.
Qed.

End ScenarioFacts.

(** X2.  The manual sweep: one row per spot move; under pairwise different
    labels each row has the spot move and then one total-P&L column per vol
    override, labelled with the signed integer tag, computed with
    [atm_vol_change] set to the override and [skew_change] and
    [term_multiplier] taken from the base parameters. *)
Theorem manual_sweep_rows :
  forall (lib : PyLib) (surfaces : @dict Q VegaGrid) (spot_moves : list Q)
         (vol_mode : string) (bp : option BetaParams) (base : ManualParams)
         (vol_changes_override : option (list Q)) (table : list (@dict string Q)),
    let ovs := match vol_changes_override with
               | Some l => l
               | None => default_vol_changes_override
               end in
    String.eqb vol_mode "beta" = false ->
    distinct String.eqb ("spot_move"%string :: map vol_label ovs) = true ->
    compute_scenario_matrix lib surfaces (Some spot_moves) vol_mode bp (Some base)
      vol_changes_override = inr table ->
    Forall2
      (fun sm row =>
         exists rs,
           Forall2 (fun dv r =>
                      compute_pnl lib surfaces sm "manual" None
                        (Some (mk_ManualParams dv (skew_change base) (term_multiplier base)
                                 ManualParams_volga_scale_default)) "linear" = inr r)
             ovs rs /\
           row = ("spot_move"%string, sm)
                 :: combine (map vol_label ovs) (map total_pnl rs))
      spot_moves table.
Proof.
  intros lib surfaces spot_moves vol_mode bp base vol_changes_override table ovs
         Hmode Hd H.
  unfold compute_scenario_matrix in H. rewrite Hmode in H.
  apply map_result_Forall2 in H.
  eapply Forall2_impl; [| exact H]. intros sm row Hrow. simpl in Hrow.
  apply manual_row_columns in Hrow; [| exact Hd].
  destruct Hrow as (rs & Hrs & ->). exists rs. split; [| reflexivity].
  now apply map_result_Forall2 in Hrs.
Qed.

Lemma manual_sweep_rows_witness :
  exists table,
    compute_scenario_matrix sample_lib one_surface (Some [0; 1 # 100]) "manual" None
      (Some ManualParams_default) None = inr table /\
    Forall2
      (fun sm row =>
         exists rs,
           Forall2 (fun dv r =>
                      compute_pnl sample_lib one_surface sm "manual" None
                        (Some (mk_ManualParams dv (skew_change ManualParams_default)
                                 (term_multiplier ManualParams_default)
                                 ManualParams_volga_scale_default)) "linear" = inr r)
             default_vol_changes_override rs /\
           row = ("spot_move"%string, sm)
                 :: combine (map vol_label default_vol_changes_override) (map total_pnl rs))
      [0; 1 # 100] table.
Proof.
  assert (Hc : exists table,
             compute_scenario_matrix sample_lib one_surface (Some [0; 1 # 100]) "manual"
               None (Some ManualParams_default) None = inr table)
    by (vm_compute; eexists; reflexivity).
  destruct Hc as [table Ht]. exists table. split; [exact Ht |].
  apply (manual_sweep_rows sample_lib one_surface [0; 1 # 100] "manual" None
           ManualParams_default None table); [reflexivity | reflexivity | exact Ht].
Defined.

(** C7.  The manual sweep builds its parameters from the override, the base
    [skew_change] and the base [term_multiplier] only: [volga_scale] is the
    dataclass default 0.15 whatever the base holds, and the matrix is the
    same for any two bases that differ in [volga_scale] alone. *)
Theorem manual_sweep_resets_volga_scale :
  forall (lib : PyLib) (surfaces : @dict Q VegaGrid) (spot_moves : option (list Q))
         (bp : option BetaParams) (base : ManualParams) (v : Q)
         (vol_changes_override : option (list Q)),
    (forall dv,
        sweep_manual_params base dv
        = mk_ManualParams dv (skew_change base) (term_multiplier base) (15 # 100)) /\
    compute_scenario_matrix lib surfaces spot_moves "manual" bp (Some base)
      vol_changes_override
    = compute_scenario_matrix lib surfaces spot_moves "manual" bp
        (Some (mk_ManualParams (atm_vol_change base) (skew_change base)
                 (term_multiplier base) v))
        vol_changes_override.
Proof.
  intros. split; reflexivity.
Qed.

(** A run of the manual sweep on base parameters with [volga_scale = 1].
    The sweep's column for the override +1 is the total P&L under
    [volga_scale = 0.15], which is not the total P&L under the base
    [volga_scale]. *)
Example manual_sweep_run :
  exists row r_default r_held,
    compute_scenario_matrix sample_lib one_surface (Some [0]) "manual" None
      (Some unit_volga) (Some [1]) = inr [row] /\
    compute_pnl sample_lib one_surface 0 "manual" None
      (Some (mk_ManualParams 1 (1 # 10) (5 # 10) (15 # 100))) "linear" = inr r_default /\
    compute_pnl sample_lib one_surface 0 "manual" None
      (Some (mk_ManualParams 1 (1 # 10) (5 # 10) 1)) "linear" = inr r_held /\
    dict_keys row = ["spot_move"; "vol_+1"]%string /\
    dict_get String.eqb row "vol_+1"%string = Some (total_pnl r_default) /\
    ~ total_pnl r_default == total_pnl r_held.
Proof.
  vm_compute. do 3 eexists.
  split; [reflexivity |]. split; [reflexivity |]. split; [reflexivity |].
  split; [reflexivity |]. split; [reflexivity |]. discriminate.
Qed.

(* ------------------------------------------------------------------------- *)
(** ** Surface parser *)

Lemma filter_map_index {A B} (p : option Q * B -> bool) (q : option Q * A -> bool)
    (f : option Q * A -> option Q * B) (l : list (option Q * A)) :
  (forall r, p (f r) = q r) -> filter p (map f l) = map f (filter q l).
Proof.
  intros Hpq. induction l as [| r l IH]; simpl; [reflexivity |].
  rewrite Hpq. destruct (q r); simpl; now rewrite IH.
Qed.

Lemma drop_column_length {A B} (cols : list string) (name : string)
    (c1 : list A) (c2 : list B) :
  length c1 = length cols -> length c2 = length cols ->
  length (drop_column cols name c1) = length (drop_column cols name c2).
Proof.
  unfold drop_column. rewrite !length_map.
  revert c1 c2. induction cols as [| c cols IH]; intros [| x c1] [| y c2];
    simpl; try discriminate; auto.
  intros H1 H2. destruct (negb (String.eqb c name)); simpl; auto.
Qed.

Lemma qsum_Forall2 (l1 l2 : list Q) : Forall2 Qeq l1 l2 -> qsum l1 == qsum l2.
Proof. induction 1 as [| x y l1 l2 E _ IH]; simpl; [reflexivity | rewrite E, IH; reflexivity]. Qed.

(** What [parse_csv] returns for a table with a TOTAL column. *)
Lemma parse_csv_with_total (lib : PyLib) (filepath : string) (df : DataFrame)
    (shift : option Q) (ref_date : option date) (g : VegaGrid) :
  existsb (String.eqb "TOTAL") (columns df) = true ->
  parse_csv lib filepath df shift ref_date = inr g ->
  row_totals g = supplied_row_totals df /\
  total g = qsum (row_totals g) /\
  values g = mk_ndarray2 (length (drop_column (columns df) "TOTAL" (columns df)))
               (map (fun r => drop_column (columns df) "TOTAL" (snd r))
                    (filter notna (frame_rows df))) /\
  col_totals g = match filter (fun r => negb (notna r)) (frame_rows df) with
                 | r :: _ => drop_column (columns df) "TOTAL" (snd r)
                 | [] => sum_axis0 (values g)
                 end.
Proof.
  intros Htotal H. unfold parse_csv in H. rewrite Htotal in H.
  apply bind_inr in H. destruct H as (sh & _ & H).
  cbv zeta in H. apply bind_inr in H. destruct H as (ys & _ & H).
  inversion H; subst g; clear H. cbn [row_totals total values col_totals frame_rows columns].
  rewrite (filter_map_index notna notna
             (fun r => (fst r, column_cell (columns df) "TOTAL" (snd r)))) by reflexivity.
  rewrite (filter_map_index notna notna
             (fun r => (fst r, drop_column (columns df) "TOTAL" (snd r)))) by reflexivity.
  rewrite (filter_map_index (fun r => negb (notna r)) (fun r => negb (notna r))
             (fun r => (fst r, drop_column (columns df) "TOTAL" (snd r)))) by reflexivity.
  rewrite !map_map. cbn [snd].
  repeat split; try reflexivity.
  destruct (filter (fun r => negb (notna r)) (frame_rows df)); reflexivity.
Qed.

(** C8.  Parsing a table that supplies a TOTAL column and a summary row
    reproduces exactly those totals, whether or not they are the sums of the
    table's matrix, and the row totals add up to [total].  The column totals
    add up to [total] as well for every table whose supplied column totals
    and supplied row totals add up to one grand total, and for no other. *)
Theorem parse_csv_supplied_totals :
  forall (lib : PyLib) (filepath : string) (df : DataFrame) (shift : option Q)
         (ref_date : option date) (g : VegaGrid),
    existsb (String.eqb "TOTAL") (columns df) = true ->
    existsb (fun r => negb (notna r)) (frame_rows df) = true ->
    parse_csv lib filepath df shift ref_date = inr g ->
    row_totals g = supplied_row_totals df /\
    col_totals g = supplied_col_totals df /\
    qsum (row_totals g) == total g /\
    (qsum (col_totals g) == total g <->
     qsum (supplied_col_totals df) == qsum (supplied_row_totals df)).
Proof.
  intros lib filepath df shift ref_date g Htotal Hsummary H.
  destruct (parse_csv_with_total lib filepath df shift ref_date g Htotal H)
    as (Hrow & Htot & Hval & Hcol).
  assert (Hcol' : col_totals g = supplied_col_totals df).
  { rewrite Hcol. unfold supplied_col_totals.
    destruct (filter (fun r => negb (notna r)) (frame_rows df)) eqn:E; [| reflexivity].
    apply existsb_exists in Hsummary. destruct Hsummary as (r & Hin & Hr).
    assert (Hf : In r (filter (fun r => negb (notna r)) (frame_rows df)))
      by (apply filter_In; auto).
    rewrite E in Hf. contradiction. }
  split; [exact Hrow |]. split; [exact Hcol' |]. split; [rewrite Htot; reflexivity |].
  rewrite Hcol', Htot, Hrow. reflexivity.
Qed.

(** The supplied totals of [agreeing_frame], 301 and 400 by row, 251 and 450
    by column, are reproduced and add up to the total 701 along either
    axis. *)
Lemma parse_csv_supplied_totals_witness :
  exists g,
    parse_csv sample_lib "SPX_atm.csv" agreeing_frame None None = inr g /\
    row_totals g = [301; 400] /\
    col_totals g = [251; 450] /\
    qsum (row_totals g) == total g /\
    qsum (col_totals g) == total g /\
    total g == 701.
Proof.
  assert (Hc : exists g, parse_csv sample_lib "SPX_atm.csv" agreeing_frame None None
                         = inr g)
    by (vm_compute; eexists; reflexivity).
  destruct Hc as [g Hg].
  destruct (parse_csv_supplied_totals sample_lib "SPX_atm.csv" agreeing_frame None None g
              eq_refl eq_refl Hg) as (Hrow & Hcol & Hsum & Hagree).
  exists g. split; [exact Hg |].
  split; [exact Hrow |]. split; [exact Hcol |]. split; [exact Hsum |].
  split; [apply Hagree; reflexivity |].
  rewrite <- Hsum, Hrow. reflexivity.
Defined.

(** On the consistent table both sums are the grand total 700. *)
Example parse_csv_consistent_run :
  exists g,
    parse_csv sample_lib "SPX_atm.csv" consistent_frame None None = inr g /\
    row_totals g = [300; 400] /\ col_totals g = [250; 450] /\
    qsum (row_totals g) == 700 /\ qsum (col_totals g) == 700 /\ total g == 700.
Proof.
  vm_compute. eexists. split; [reflexivity |].
  split; [reflexivity |]. split; [reflexivity |].
  split; [reflexivity |]. split; reflexivity.
Qed.

(** Two moves beyond the largest loaded shift: both grids are the surface
    stored at +5%. *)
Lemma manual_pnl_depends_on_grid_only_witness :
  exists r1 r2,
    compute_pnl sample_lib two_surfaces (1 # 10) "manual" None None "linear" = inr r1 /\
    compute_pnl sample_lib two_surfaces (2 # 10) "manual" None None "linear" = inr r2 /\
    pnl_grid r1 = pnl_grid r2 /\ total_pnl r1 = total_pnl r2 /\
    vol_change_grid r1 = vol_change_grid r2 /\
    pnl_by_expiry r1 = pnl_by_expiry r2 /\ pnl_by_bucket r1 = pnl_by_bucket r2 /\
    pnl_by_moneyness r1 = pnl_by_moneyness r2.
Proof.
  assert (H1 : exists r, compute_pnl sample_lib two_surfaces (1 # 10) "manual" None None
                           "linear" = inr r)
    by (vm_compute; eexists; reflexivity).
  assert (H2 : exists r, compute_pnl sample_lib two_surfaces (2 # 10) "manual" None None
                           "linear" = inr r)
    by (vm_compute; eexists; reflexivity).
  destruct H1 as [r1 H1]. destruct H2 as [r2 H2].
  pose proof H1 as N1. vm_compute in N1. injection N1 as N1. subst r1.
  pose proof H2 as N2. vm_compute in N2. injection N2 as N2. subst r2.
  do 2 eexists. split; [exact H1 |]. split; [exact H2 |].
  apply (manual_pnl_depends_on_grid_only sample_lib two_surfaces (1 # 10) (2 # 10)
           "manual" None None "linear" _ _ eq_refl H1 H2).
  reflexivity.
Defined.

(* ========================================================================= *)
(** * Further properties of the engine *)

(** ** The interpolation branch *)

Lemma interpolate_interpolated (lib : PyLib) (surfaces : @dict Q VegaGrid) (s : Q)
    (method : string) (r : VegaGrid) :
  (2 <= length surfaces)%nat ->
  dict_get Qeq_bool surfaces
    (np_clip s (nth 0 (sorted (dict_keys surfaces)) 0) (last (sorted (dict_keys surfaces)) 0))
  = None ->
  interpolate_vega_grid lib surfaces s method = inr r ->
  exists ref cells,
    dict_get Qeq_bool surfaces (nth 0 (sorted (dict_keys surfaces)) 0) = Some ref /\
    length cells = length (rows (values ref)) /\
    Forall (fun row => length row = ncols (values ref)) cells /\
    r = mk_VegaGrid s (moneyness ref) (expiries ref) (expiry_years ref)
          (mk_ndarray2 (ncols (values ref)) cells)
          (sum_axis1 (mk_ndarray2 (ncols (values ref)) cells))
          (sum_axis0 (mk_ndarray2 (ncols (values ref)) cells))
          (sum_all (mk_ndarray2 (ncols (values ref)) cells)).
Proof.
  intros Hlen Hnone H. unfold interpolate_vega_grid in H.
  assert (Hl : length (sorted (dict_keys surfaces)) = length surfaces)
    by (rewrite sorted_length; apply length_map).
  rewrite Hl in H.
  destruct (Nat.eqb_spec (length surfaces) 0); [lia |].
  destruct (Nat.eqb_spec (length surfaces) 1); [lia |].
  rewrite Hnone in H.
  apply bind_inr in H. destruct H as (ref & Href & H).
  unfold lookup in Href.
  destruct (dict_get Qeq_bool surfaces (nth 0 (sorted (dict_keys surfaces)) 0))
    as [ref' |] eqn:E; [| discriminate]. inversion Href; subst ref'.
  unfold shape in H. apply bind_inr in H. destruct H as (cells & Hcells & H).
  inversion H; subst r; clear H.
  exists ref, cells. split; [reflexivity |].
  pose proof (map_result_length _ _ _ Hcells) as Hn. rewrite length_seq in Hn.
  split; [exact Hn |]. split; [| reflexivity].
  eapply map_result_Forall; [| exact Hcells]. intros i row _ Hrow. simpl in Hrow.
  apply map_result_length in Hrow. now rewrite length_seq in Hrow.
Qed.

(** X4.  With two or more surfaces, when the clamped move is not a loaded
    shift, the grid returned carries the requested move as its label, takes
    its axes and its shape from the surface at the lowest shift, and has its
    totals recomputed from its own values: the row totals and the column
    totals both add up to the grand total. *)
Theorem interpolated_grid_totals :
  forall (lib : PyLib) (surfaces : @dict Q VegaGrid) (s : Q) (method : string)
         (r : VegaGrid),
    (2 <= length surfaces)%nat ->
    dict_get Qeq_bool surfaces
      (np_clip s (nth 0 (sorted (dict_keys surfaces)) 0)
                 (last (sorted (dict_keys surfaces)) 0)) = None ->
    interpolate_vega_grid lib surfaces s method = inr r ->
    exists ref,
      dict_get Qeq_bool surfaces (nth 0 (sorted (dict_keys surfaces)) 0) = Some ref /\
      spot_shift r = s /\
      moneyness r = moneyness ref /\ expiries r = expiries ref /\
      expiry_years r = expiry_years ref /\
      shape (values r) = shape (values ref) /\ rectangular (values r) /\
      row_totals r = sum_axis1 (values r) /\
      col_totals r = sum_axis0 (values r) /\
      total r = sum_all (values r) /\
      qsum (row_totals r) == total r /\
      qsum (col_totals r) == total r.
Proof.
  intros lib surfaces s method r Hlen Hnone H.
  destruct (interpolate_interpolated lib surfaces s method r Hlen Hnone H)
    as (ref & cells & Href & Hn & Hrows & ->).
  exists ref. simpl. unfold shape. simpl. rewrite Hn.
  repeat split; auto.
  apply (sum_axis0_total (mk_ndarray2 (ncols (values ref)) cells)). exact Hrows.
Qed.

Lemma interpolated_grid_totals_witness :
  exists r ref,
    interpolate_vega_grid sample_lib two_surfaces 0 "linear" = inr r /\
    dict_get Qeq_bool two_surfaces (nth 0 (sorted (dict_keys two_surfaces)) 0) = Some ref /\
    spot_shift r = 0 /\
    moneyness r = moneyness ref /\ expiries r = expiries ref /\
    expiry_years r = expiry_years ref /\
    shape (values r) = shape (values ref) /\ rectangular (values r) /\
    row_totals r = sum_axis1 (values r) /\
    col_totals r = sum_axis0 (values r) /\
    total r = sum_all (values r) /\
    qsum (row_totals r) == total r /\
    qsum (col_totals r) == total r.
Proof.
  assert (Hc : exists r, interpolate_vega_grid sample_lib two_surfaces 0 "linear" = inr r)
    by (vm_compute; eexists; reflexivity).
  destruct Hc as [r Hr]. exists r.
  destruct (interpolated_grid_totals sample_lib two_surfaces 0 "linear" r
              ltac:(simpl; lia) eq_refl Hr) as (ref & H).
  exists ref. split; [exact Hr | exact H].
Defined.

(** X5.  With two or more surfaces every grid that [interpolate_vega_grid]
    returns is labelled with the requested move, clamped or not. *)
Theorem interpolate_labels_requested_move :
  forall (lib : PyLib) (surfaces : @dict Q VegaGrid) (s : Q) (method : string)
         (r : VegaGrid),
    (2 <= length surfaces)%nat ->
    interpolate_vega_grid lib surfaces s method = inr r ->
    spot_shift r = s.
Proof.
  intros lib surfaces s method r Hlen H.
  destruct (dict_get Qeq_bool surfaces
              (np_clip s (nth 0 (sorted (dict_keys surfaces)) 0)
                         (last (sorted (dict_keys surfaces)) 0))) as [grid |] eqn:E.
  - rewrite (interpolate_exact_match lib surfaces s method grid Hlen E) in H.
    now inversion H.
  - destruct (interpolate_interpolated lib surfaces s method r Hlen E H)
      as (ref & cells & _ & _ & _ & ->). reflexivity.
Qed.

Lemma interpolate_labels_requested_move_witness :
  exists r,
    interpolate_vega_grid sample_lib two_surfaces (3 # 100) "linear" = inr r /\
    spot_shift r = 3 # 100.
Proof.
  assert (Hc : exists r, interpolate_vega_grid sample_lib two_surfaces (3 # 100) "linear"
                         = inr r)
    by (vm_compute; eexists; reflexivity).
  destruct Hc as [r Hr]. exists r. split; [exact Hr |].
  apply (interpolate_labels_requested_move sample_lib two_surfaces (3 # 100) "linear" r);
    [simpl; lia | exact Hr].
Defined.

(** ** Linear interpolation between two surfaces *)

Lemma np_clip_strictly_inside (x lo hi : Q) : lo < x -> x < hi -> np_clip x lo hi = x.
Proof.
  intros H1 H2. unfold np_clip, Qmin, Qmax, GenericMinMax.gmin, GenericMinMax.gmax.
  apply Qgt_alt in H1. rewrite H1.
  apply Qgt_alt in H2. now rewrite H2.
Qed.

Lemma Qeq_bool_lt (x y : Q) : x < y -> Qeq_bool x y = false /\ Qeq_bool y x = false.
Proof.
  intros H. split; apply not_true_iff_false; rewrite Qeq_bool_iff; lra.
Qed.

Lemma Qltb_false_lt (x y : Q) : x < y -> Qltb y x = false.
Proof. intros H. apply Qltb_ge. lra. Qed.

Lemma map_result_pure {A B} (h : A -> B) (l : list A) :
  map_result (fun x => ret (h x)) l = ret (map h l).
Proof. induction l as [| x l IH]; simpl; [reflexivity | now rewrite IH]. Qed.

Lemma map_seq_zip_with {A B C} (f : A -> B -> C) (la : list A) (lb : list B) (da : A) (db : B) :
  length lb = length la ->
  map (fun i => f (nth i la da) (nth i lb db)) (seq 0 (length la)) = zip_with f la lb.
Proof.
  revert lb. induction la as [| x la IH]; intros [| y lb]; simpl; try discriminate; auto.
  intros H. rewrite <- seq_shift, map_map. simpl. f_equal. apply IH. lia.
Qed.

Lemma get2_rectangular (a : ndarray2) (i j : nat) :
  rectangular a -> (i < length (rows a))%nat -> (j < ncols a)%nat ->
  get2 a i j = ret (nth j (nth i (rows a) []) 0).
Proof.
  intros Hr Hi Hj. unfold get2, index.
  destruct (nth_error (rows a) i) as [row |] eqn:E.
  - simpl. assert (Hrow : length row = ncols a).
    { unfold rectangular in Hr. rewrite Forall_forall in Hr. apply Hr.
      eapply nth_error_In; eauto. }
    rewrite (nth_error_nth _ _ [] E).
    destruct (nth_error row j) as [v |] eqn:Ej.
    + simpl. now rewrite (nth_error_nth _ _ 0 Ej).
    + apply nth_error_None in Ej. lia.
  - apply nth_error_None in E. lia.
Qed.

Lemma interpolate_two_surfaces (lib : PyLib) (surfaces : @dict Q VegaGrid) (a b s : Q)
    (ga gb : VegaGrid) (method : string) :
  a < s -> s < b ->
  sorted (dict_keys surfaces) = [a; b] ->
  dict_get Qeq_bool surfaces a = Some ga ->
  dict_get Qeq_bool surfaces b = Some gb ->
  dict_get Qeq_bool surfaces s = None ->
  rectangular (values ga) -> rectangular (values gb) ->
  shape (values gb) = shape (values ga) ->
  exists r,
    interpolate_vega_grid lib surfaces s method = inr r /\
    values r = mk_ndarray2 (ncols (values ga))
                 (zip_with (zip_with (blend a b s)) (rows (values ga)) (rows (values gb))).
Proof.
  intros Has Hsb Hsorted Hga Hgb Hs Ra Rb Hshape.
  unfold shape in Hshape. injection Hshape as Hn Hm.
  unfold interpolate_vega_grid. rewrite Hsorted. simpl.
  rewrite (np_clip_strictly_inside s a b Has Hsb), Hs.
  unfold lookup at 1. rewrite Hga. simpl.
  rewrite andb_false_r.
  erewrite map_result_ext.
  2:{ intros i Hi. apply in_seq in Hi.
      erewrite map_result_ext.
      2:{ intros j Hj. apply in_seq in Hj.
          unfold lookup. rewrite Hga, Hgb. simpl.
          rewrite (get2_rectangular (values ga) i j) by (auto; lia). simpl.
          rewrite (get2_rectangular (values gb) i j) by (auto; lia). simpl.
          unfold interp1d_linear, searchsorted. simpl.
          apply Qltb_lt in Has. rewrite Has.
          rewrite (Qltb_false_lt s b Hsb). simpl.
          change ((nth j (nth i (rows (values gb)) []) 0 - nth j (nth i (rows (values ga)) []) 0)
                  / (b - a) * (s - a) + nth j (nth i (rows (values ga)) []) 0)
            with (blend a b s (nth j (nth i (rows (values ga)) []) 0)
                    (nth j (nth i (rows (values gb)) []) 0)).
          reflexivity. }
      rewrite map_result_pure.
      assert (Hla : length (nth i (rows (values ga)) []) = ncols (values ga)).
      { unfold rectangular in Ra. rewrite Forall_forall in Ra. apply Ra, nth_In. lia. }
      assert (Hlb : length (nth i (rows (values gb)) []) = ncols (values ga)).
      { unfold rectangular in Rb. rewrite Forall_forall in Rb. rewrite <- Hm.
        apply Rb, nth_In. lia. }
      rewrite <- Hla at 1.
      rewrite (map_seq_zip_with (blend a b s)) by congruence.
      reflexivity. }
  rewrite map_result_pure. simpl.
  rewrite (map_seq_zip_with (zip_with (blend a b s))) by exact Hn.
  eexists. split; reflexivity.
Qed.

(** X6.  Between two loaded shifts [a < s < b], with two surfaces of one
    shape, every cell of the returned matrix lies on the straight line
    through the two stored values: [va + (vb - va) / (b - a) * (s - a)],
    whichever interpolation method is asked for. *)
Theorem two_surfaces_linear_blend :
  forall (lib : PyLib) (surfaces : @dict Q VegaGrid) (a b s : Q) (ga gb : VegaGrid)
         (method : string),
    surfaces = [(a, ga); (b, gb)] \/ surfaces = [(b, gb); (a, ga)] ->
    a < s -> s < b ->
    rectangular (values ga) -> rectangular (values gb) ->
    shape (values gb) = shape (values ga) ->
    exists r,
      interpolate_vega_grid lib surfaces s method = inr r /\
      values r = mk_ndarray2 (ncols (values ga))
                   (zip_with (zip_with (blend a b s)) (rows (values ga)) (rows (values gb))).
Proof.
  intros lib surfaces a b s ga gb method Hsurf Has Hsb Ra Rb Hshape.
  assert (Hab : a < b) by lra.
  destruct (Qeq_bool_lt a b Hab) as [Eab Eba].
  destruct (Qeq_bool_lt a s Has) as [Eas _].
  destruct (Qeq_bool_lt s b Hsb) as [_ Ebs].
  apply (interpolate_two_surfaces lib surfaces a b s ga gb method); auto;
    destruct Hsurf as [-> | ->]; unfold sorted; simpl;
    rewrite ?Qeq_bool_refl, ?Eab, ?Eba, ?Eas, ?Ebs, ?(Qltb_false_lt a b Hab); auto.
  apply Qltb_lt in Hab. now rewrite Hab.
Qed.

(** Half-way between the sample surfaces every cell is the average. *)
Lemma two_surfaces_linear_blend_witness :
  exists r,
    interpolate_vega_grid sample_lib two_surfaces 0 "cubic" = inr r /\
    values r = mk_ndarray2 2
                 (zip_with (zip_with (blend (-(5 # 100)) (5 # 100) 0))
                    [[100; 200]; [150; 250]] [[120; 180]; [170; 230]]).
Proof.
  apply (two_surfaces_linear_blend sample_lib two_surfaces (-(5 # 100)) (5 # 100) 0
           sample_down sample_up "cubic").
  - left. reflexivity.
  - reflexivity.
  - reflexivity.
  - repeat constructor.
  - repeat constructor.
  - reflexivity.
Defined.

Example blend_midpoint :
  Forall2 (Forall2 Qeq)
    (zip_with (zip_with (blend (-(5 # 100)) (5 # 100) 0))
       [[100; 200]; [150; 250]] [[120; 180]; [170; 230]])
    [[110; 190]; [160; 240]].
Proof. repeat constructor. Qed.

(** ** Bounds of the vol scenario models *)

Lemma py_max_ge (a b : Q) : a <= py_max a b /\ b <= py_max a b.
Proof.
  unfold py_max. destruct (Qltb a b) eqn:E.
  - apply Qltb_lt in E. lra.
  - apply Qltb_ge in E. lra.
Qed.

Lemma py_min_le (a b : Q) : py_min a b <= a /\ py_min a b <= b.
Proof.
  unfold py_min. destruct (Qltb b a) eqn:E.
  - apply Qltb_lt in E. lra.
  - apply Qltb_ge in E. lra.
Qed.

Lemma py_min_glb (a b c : Q) : c <= a -> c <= b -> c <= py_min a b.
Proof. intros Ha Hb. unfold py_min. destruct (Qltb b a); assumption. Qed.

Lemma np_clip_band (x lo hi : Q) : lo <= hi -> lo <= np_clip x lo hi <= hi.
Proof.
  intros H. unfold np_clip.
  destruct (Q.max_spec x lo) as [[? E1] | [? E1]];
    destruct (Q.min_spec hi (Qmax x lo)) as [[? E2] | [? E2]]; lra.
Qed.

Lemma volga_term_bounds (lib : PyLib) (mny years dSigma scale : Q) :
  0 <= scale ->
  0 <= volga_term lib mny years dSigma scale <= 5 * (dSigma * dSigma) * scale.
Proof.
  intros Hs. unfold volga_term.
  set (l := np_log lib (py_max mny (1 # 100))).
  set (den := (20 # 100) * (20 # 100) * py_max years (1 # 100)).
  assert (Hden : 0 < den).
  { unfold den. destruct (py_max_ge years (1 # 100)) as [_ H].
    apply Qmult_lt_0_compat; lra. }
  assert (Hratio : 0 <= l * l / den).
  { unfold Qdiv. apply Qmult_le_0_compat; [nra |].
    apply Qlt_le_weak, Qinv_lt_0_compat, Hden. }
  set (vf := py_min (l * l / den) 10).
  assert (Hvf : 0 <= vf <= 10).
  { unfold vf. split; [apply py_min_glb; lra | apply py_min_le]. }
  assert (Hd : 0 <= dSigma * dSigma) by nra.
  assert (Hds : 0 <= dSigma * dSigma * scale) by (apply Qmult_le_0_compat; lra).
  split.
  - assert (0 <= vf * (dSigma * dSigma * scale)) by (apply Qmult_le_0_compat; lra).
    lra.
  - assert (0 <= (10 - vf) * (dSigma * dSigma * scale))
      by (apply Qmult_le_0_compat; lra).
    lra.
Qed.

(** X7.  For a non-negative [volga_scale], the second-order term of either
    model is never negative and never exceeds [5 * dSigma^2 * volga_scale]:
    the volga factor is capped at 10 and its denominator is floored.  For the
    manual model this is stated where its term factor is a number: the tenor
    is not negative, so that its square root is real, and the denominator
    [1 + term_multiplier * sqrt(years)] is not zero. *)
Theorem volga_pnl_bounds :
  forall (lib : PyLib) (mny years s : Q) (bp : BetaParams) (mp : ManualParams),
    0 <= beta_volga_scale bp -> 0 <= volga_scale mp ->
    (let '(dSigma, volga_pnl) := beta_vol_change lib mny years s bp in
     0 <= volga_pnl <= 5 * (dSigma * dSigma) * beta_volga_scale bp) /\
    (0 <= years ->
     ~ 1 + term_multiplier mp * np_sqrt lib years == 0 ->
     let '(dSigma, volga_pnl) := manual_vol_change lib mny years mp in
     0 <= volga_pnl <= 5 * (dSigma * dSigma) * volga_scale mp).
Proof.
  intros lib mny years s bp mp Hb Hm. unfold beta_vol_change, manual_vol_change.
  split; [| intros _ _]; apply volga_term_bounds; assumption.
Qed.

(** A six-month tenor and the default parameters: the manual denominator is
    [1 + 0.5 * sqrt(0.5)]. *)
Lemma volga_pnl_bounds_witness :
  (let '(dSigma, volga_pnl) :=
     beta_vol_change sample_lib (9 # 10) (1 # 2) (-(5 # 100)) BetaParams_default in
   0 <= volga_pnl <= 5 * (dSigma * dSigma) * beta_volga_scale BetaParams_default) /\
  0 <= 1 # 2 /\
  ~ 1 + term_multiplier ManualParams_default * np_sqrt sample_lib (1 # 2) == 0 /\
  (let '(dSigma, volga_pnl) :=
     manual_vol_change sample_lib (9 # 10) (1 # 2) ManualParams_default in
   0 <= volga_pnl <= 5 * (dSigma * dSigma) * volga_scale ManualParams_default).
Proof.
  assert (Hy : 0 <= 1 # 2) by discriminate.
  assert (Hd : ~ 1 + term_multiplier ManualParams_default * np_sqrt sample_lib (1 # 2) == 0)
    by (intros E; vm_compute in E; discriminate E).
  destruct (volga_pnl_bounds sample_lib (9 # 10) (1 # 2) (-(5 # 100)) BetaParams_default
              ManualParams_default) as [Hbeta Hmanual]; [discriminate | discriminate |].
  split; [exact Hbeta |]. split; [exact Hy |]. split; [exact Hd |].
  exact (Hmanual Hy Hd).
Defined.

(** X8.  The beta model's vol change is [atm_change] times a skew factor
    inside the band [0.5, 2.0] times a term factor that is never below
    [term_floor], whatever the moneyness, the tenor and the parameters. *)
Theorem beta_vol_change_factors :
  forall (lib : PyLib) (mny years s : Q) (params : BetaParams),
    exists skew_effect term_factor,
      fst (beta_vol_change lib mny years s params)
      = atm_change params (s * 100) * skew_effect * term_factor /\
      5 # 10 <= skew_effect <= 2 /\
      term_floor params <= term_factor /\
      np_exp lib (- term_decay params * years) <= term_factor.
Proof.
  intros. unfold beta_vol_change. simpl.
  do 2 eexists. split; [reflexivity |]. split.
  - apply np_clip_band. discriminate.
  - apply py_max_ge.
Qed.

(** ** No spot move, no P&L *)

Lemma beta_vol_change_at_zero (lib : PyLib) (mny years s : Q) (params : BetaParams) :
  s == 0 ->
  fst (beta_vol_change lib mny years s params) == 0 /\
  snd (beta_vol_change lib mny years s params) == 0.
Proof.
  intros Hs.
  assert (Ha : atm_change params (s * 100) == 0)
    by (unfold atm_change; rewrite Hs; ring).
  unfold beta_vol_change. cbn [fst snd].
  set (skew := np_clip _ _ _). set (term := py_max _ _).
  assert (Hd : atm_change params (s * 100) * skew * term == 0) by (rewrite Ha; ring).
  split; [exact Hd |].
  unfold volga_term. rewrite Hd. ring.
Qed.

Lemma zip_with_Forall {A B C} (f : A -> B -> C) (P : B -> Prop) (R : C -> Prop)
    (la : list A) (lb : list B) :
  (forall a b, P b -> R (f a b)) -> Forall P lb -> Forall R (zip_with f la lb).
Proof.
  intros Hf Hb. revert la. induction Hb as [| b lb Hb _ IH]; intros [| a la]; simpl;
    constructor; auto.
Qed.

Lemma zip_with_Forall_both {A B C} (f : A -> B -> C) (P : A -> Prop) (P' : B -> Prop)
    (R : C -> Prop) (la : list A) (lb : list B) :
  (forall a b, P a -> P' b -> R (f a b)) -> Forall P la -> Forall P' lb ->
  Forall R (zip_with f la lb).
Proof.
  intros Hf Ha. revert lb. induction Ha as [| a la Ha _ IH]; intros lb Hb; simpl;
    [constructor |].
  destruct Hb as [| b lb Hb Hbs]; constructor; auto.
Qed.

Lemma qsum_zero (l : list Q) : Forall (fun x => x == 0) l -> qsum l == 0.
Proof. induction 1 as [| x l Hx _ IH]; simpl; [reflexivity | rewrite Hx, IH; reflexivity]. Qed.

Lemma sum_all_zero (a : ndarray2) : all_zero a -> sum_all a == 0.
Proof.
  unfold all_zero, sum_all. intros H. apply qsum_zero.
  rewrite Forall_map. eapply Forall_impl; [| exact H]. apply qsum_zero.
Qed.

Lemma beta_grid_at_zero (lib : PyLib) (g : VegaGrid) (s : Q)
    (bp : option BetaParams) (mp : option ManualParams) (vc vg : ndarray2) :
  s == 0 ->
  compute_vol_change_grid lib g s "beta" bp mp = inr (vc, vg) ->
  all_zero vc /\ all_zero vg.
Proof.
  intros Hs H. unfold compute_vol_change_grid, shape in H.
  apply bind_inr in H. destruct H as (cells & Hcells & H). inversion H; subst vc vg.
  assert (Hz : Forall (Forall (fun c => fst c == 0 /\ snd c == 0)) cells).
  { eapply map_result_Forall; [| exact Hcells]. intros i row _ Hrow. simpl in Hrow.
    eapply map_result_Forall; [| exact Hrow]. intros j c _ Hc. simpl in Hc.
    apply bind_inr in Hc. destruct Hc as (m & _ & Hc).
    apply bind_inr in Hc. destruct Hc as (y & _ & Hc).
    inversion Hc. now apply beta_vol_change_at_zero. }
  unfold all_zero. simpl. rewrite !Forall_map.
  split; (eapply Forall_impl; [| exact Hz]); intros row Hrow; rewrite Forall_map;
    (eapply Forall_impl; [| exact Hrow]); intros c [H1 H2]; assumption.
Qed.

(** X9.  In beta mode a spot move of zero moves no vol: the vol-change
    matrix and the P&L matrix of the result are zero in every cell, and the
    total P&L is zero, whatever the surfaces and the parameters. *)
Theorem beta_zero_move_zero_pnl :
  forall (lib : PyLib) (surfaces : @dict Q VegaGrid) (s : Q) (bp : option BetaParams)
         (mp : option ManualParams) (method : string) (r : PnLResult),
    s == 0 ->
    compute_pnl lib surfaces s "beta" bp mp method = inr r ->
    all_zero (vol_change_grid r) /\ all_zero (pnl_grid r) /\ total_pnl r == 0.
Proof.
  intros lib surfaces s bp mp method r Hs H.
  apply compute_pnl_inr in H.
  destruct H as (vg & _ & Hvc & Hpnl & Htot & _).
  apply beta_grid_at_zero in Hvc; [| exact Hs]. destruct Hvc as [Zc Zg].
  assert (Zp : all_zero (pnl_grid r)).
  { rewrite Hpnl. unfold all_zero, ew in *. simpl.
    apply zip_with_Forall_both
      with (P := Forall (fun x => x == 0)) (P' := Forall (fun x => x == 0)).
    - intros ra rb Ha Hb.
      apply zip_with_Forall_both with (P := fun x => x == 0) (P' := fun x => x == 0);
        auto. intros x y Hx Hy. rewrite Hx, Hy. reflexivity.
    - apply zip_with_Forall with (P := Forall (fun x => x == 0)); auto.
      intros ra rb Hb. apply zip_with_Forall with (P := fun x => x == 0); auto.
      intros x y Hy. rewrite Hy. ring.
    - apply zip_with_Forall with (P := Forall (fun x => x == 0)); auto.
      intros ra rb Hb. apply zip_with_Forall with (P := fun x => x == 0); auto.
      intros x y Hy. rewrite Hy. ring. }
  split; [exact Zc |]. split; [exact Zp |].
  rewrite Htot. now apply sum_all_zero.
Qed.

Lemma beta_zero_move_zero_pnl_witness :
  exists r,
    compute_pnl sample_lib two_surfaces 0 "beta" None None "linear" = inr r /\
    all_zero (vol_change_grid r) /\ all_zero (pnl_grid r) /\ total_pnl r == 0.
Proof.
  assert (Hc : exists r, compute_pnl sample_lib two_surfaces 0 "beta" None None "linear"
                         = inr r)
    by (vm_compute; eexists; reflexivity).
  destruct Hc as [r Hr]. exists r. split; [exact Hr |].
  apply (beta_zero_move_zero_pnl sample_lib two_surfaces 0 None None "linear" r);
    [reflexivity | exact Hr].
Defined.

(** ** More on the surface parser *)

Lemma parse_csv_inr (lib : PyLib) (filepath : string) (df : DataFrame)
    (shift : option Q) (ref_date : option date) (g : VegaGrid) :
  parse_csv lib filepath df shift ref_date = inr g ->
  let df' := without_total df in
  match shift with
  | Some s => spot_shift g = s
  | None => detect_shift_from_filename lib filepath = Some (spot_shift g)
  end /\
  moneyness g
  = flat_map (fun r => match fst r with Some m => [m] | None => [] end)
      (filter notna (frame_rows df')) /\
  expiries g = map strip (columns df') /\
  map_result
    (year_fraction lib (match ref_date with Some d => d | None => REFERENCE_DATE end))
    (map strip (columns df')) = inr (expiry_years g) /\
  values g = mk_ndarray2 (length (columns df')) (map snd (filter notna (frame_rows df'))) /\
  (existsb (String.eqb "TOTAL") (columns df) = false -> row_totals g = sum_axis1 (values g)) /\
  (filter (fun r => negb (notna r)) (frame_rows df') = [] ->
   col_totals g = sum_axis0 (values g)) /\
  total g = qsum (row_totals g).
Proof.
  unfold parse_csv, without_total. intros H.
  apply bind_inr in H. destruct H as (sh & Hsh & H).
  assert (Hshift : match shift with
                   | Some s => sh = s
                   | None => detect_shift_from_filename lib filepath = Some sh
                   end).
  { destruct shift as [s |]; [now inversion Hsh |].
    destruct (detect_shift_from_filename lib filepath); now inversion Hsh. }
  clear Hsh.
  destruct (existsb (String.eqb "TOTAL") (columns df)) eqn:Etot;
    cbv zeta in H; apply bind_inr in H; destruct H as (ys & Hys & H);
    inversion H; subst g; clear H;
    cbn [spot_shift moneyness expiries expiry_years values row_totals col_totals total];
    (split; [exact Hshift |]);
    (split; [reflexivity |]); (split; [reflexivity |]); (split; [exact Hys |]);
    (split; [reflexivity |]); (split; [intros E; first [discriminate E | reflexivity] |]);
    (split; [| reflexivity]); intros E; cbn [frame_rows columns] in E |- *;
    rewrite E; reflexivity.
Qed.

Lemma without_total_rectangular (df : DataFrame) :
  frame_rectangular df -> frame_rectangular (without_total df).
Proof.
  unfold without_total, frame_rectangular. intros H.
  destruct (existsb (String.eqb "TOTAL") (columns df)); [| exact H]. simpl.
  rewrite Forall_map. eapply Forall_impl; [| exact H]. intros r Hr. simpl.
  now apply drop_column_length.
Qed.

Lemma moneyness_of_rows_length {A} (l : list (option Q * A)) :
  length (flat_map (fun r => match fst r with Some m => [m] | None => [] end)
            (filter notna l))
  = length (filter notna l).
Proof.
  induction l as [| [[m |] c] l IH]; simpl; auto.
Qed.

(** X10.  Every year fraction of a parsed surface whose expiry labels are
    dates (none of them a label that [pd.Timestamp] reads as NaT, for which
    the year fraction is no number) is at least one day, [1 / 365.25] of a
    year, hence positive, however far in the past the expiry lies; there is
    one year fraction per expiry label. *)
Theorem parse_csv_expiry_years_floor :
  forall (lib : PyLib) (filepath : string) (df : DataFrame) (shift : option Q)
         (ref_date : option date) (g : VegaGrid),
    parse_csv lib filepath df shift ref_date = inr g ->
    Forall (fun e => reads_as_nat e = false) (expiries g) ->
    Forall (fun y => 1 / (36525 # 100) <= y /\ 0 < y) (expiry_years g) /\
    length (expiry_years g) = length (expiries g).
Proof.
  intros lib filepath df shift ref_date g H _.
  apply parse_csv_inr in H. destruct H as (_ & _ & He & Hy & _).
  split.
  - eapply map_result_Forall; [| exact Hy]. intros e y _ Hf.
    unfold year_fraction in Hf. destruct (pd_Timestamp lib e); [| discriminate].
    inversion Hf.
    match goal with |- _ <= py_max ?a ?b /\ _ => destruct (py_max_ge a b) as [_ Hb] end.
    split; [exact Hb |]. eapply Qlt_le_trans; [| exact Hb]. reflexivity.
  - apply map_result_length in Hy. now rewrite Hy, He.
Qed.

(** The first expiry of [past_expiry_frame] lies 49 days before the
    reference date: its year fraction is the floor. *)
Lemma parse_csv_expiry_years_floor_witness :
  exists g,
    parse_csv sample_lib "SPX_atm.csv" past_expiry_frame None None = inr g /\
    expiries g = ["2025-12-19"; "2026-09-18"]%string /\
    Forall (fun y => 1 / (36525 # 100) <= y /\ 0 < y) (expiry_years g) /\
    length (expiry_years g) = length (expiries g).
Proof.
  assert (Hc : exists g, parse_csv sample_lib "SPX_atm.csv" past_expiry_frame None None
                         = inr g)
    by (vm_compute; eexists; reflexivity).
  destruct Hc as [g Hg]. pose proof Hg as Hn. vm_compute in Hn.
  injection Hn as Hn. subst g.
  eexists. split; [exact Hg |]. split; [reflexivity |].
  apply (parse_csv_expiry_years_floor sample_lib "SPX_atm.csv" past_expiry_frame None None
           _ Hg).
  repeat constructor.
Defined.

Lemma parse_csv_axes (lib : PyLib) (filepath : string) (df : DataFrame)
    (shift : option Q) (ref_date : option date) (g : VegaGrid) :
  frame_rectangular df ->
  parse_csv lib filepath df shift ref_date = inr g ->
  grid_consistent g /\ length (expiry_years g) = ncols (values g).
Proof.
  intros Hrect H.
  apply without_total_rectangular in Hrect.
  apply parse_csv_inr in H. cbv zeta in H.
  destruct H as (_ & Hm & He & Hy & Hv & _).
  apply map_result_length in Hy.
  unfold grid_consistent. rewrite Hm, He, Hy, Hv. simpl.
  rewrite !length_map, moneyness_of_rows_length.
  repeat split; auto.
  unfold rectangular. simpl. rewrite Forall_map.
  apply Forall_forall. intros r Hin. apply filter_In in Hin. destruct Hin as [Hin _].
  unfold frame_rectangular in Hrect. rewrite Forall_forall in Hrect. auto.
Qed.

(** X11.  A surface parsed from a rectangular table has axes that fit its
    matrix: one moneyness value per data row, one expiry label and one year
    fraction per column, with or without a TOTAL column and a summary row. *)
Theorem parse_csv_grid_consistent :
  forall (lib : PyLib) (filepath : string) (df : DataFrame) (shift : option Q)
         (ref_date : option date) (g : VegaGrid),
    frame_rectangular df ->
    parse_csv lib filepath df shift ref_date = inr g ->
    grid_consistent g /\ length (expiry_years g) = ncols (values g).
Proof.
  intros lib filepath df shift ref_date g Hrect H.
  now apply (parse_csv_axes lib filepath df shift ref_date).
Qed.

Lemma parse_csv_grid_consistent_witness :
  exists g,
    parse_csv sample_lib "SPX_atm.csv" consistent_frame None None = inr g /\
    grid_consistent g /\ length (expiry_years g) = ncols (values g).
Proof.
  assert (Hc : exists g, parse_csv sample_lib "SPX_atm.csv" consistent_frame None None
                         = inr g)
    by (vm_compute; eexists; reflexivity).
  destruct Hc as [g Hg]. exists g. split; [exact Hg |].
  apply (parse_csv_grid_consistent sample_lib "SPX_atm.csv" consistent_frame None None g);
    [repeat constructor | exact Hg].
Defined.

(** X12.  A rectangular table that supplies neither a TOTAL column nor a
    summary row gets its totals from the matrix: the row totals are the row
    sums, the column totals the column sums, and both add up to [total]. *)
Theorem parse_csv_derived_totals :
  forall (lib : PyLib) (filepath : string) (df : DataFrame) (shift : option Q)
         (ref_date : option date) (g : VegaGrid),
    frame_rectangular df ->
    existsb (String.eqb "TOTAL") (columns df) = false ->
    existsb (fun r => negb (notna r)) (frame_rows df) = false ->
    parse_csv lib filepath df shift ref_date = inr g ->
    row_totals g = sum_axis1 (values g) /\
    col_totals g = sum_axis0 (values g) /\
    total g = sum_all (values g) /\
    qsum (row_totals g) == total g /\
    qsum (col_totals g) == total g.
Proof.
  intros lib filepath df shift ref_date g Hrect Htotal Hsummary H.
  destruct (parse_csv_axes lib filepath df shift ref_date g Hrect H) as [(Rv & _) _].
  apply parse_csv_inr in H. cbv zeta in H.
  destruct H as (_ & _ & _ & _ & _ & Hr & Hc & Ht).
  specialize (Hr Htotal).
  assert (Hnone : filter (fun r => negb (notna r)) (frame_rows (without_total df)) = []).
  { unfold without_total. rewrite Htotal.
    destruct (filter (fun r => negb (notna r)) (frame_rows df)) as [| r l] eqn:E;
      [reflexivity |].
    assert (Hin : In r (filter (fun r => negb (notna r)) (frame_rows df)))
      by (rewrite E; now left).
    apply filter_In in Hin. destruct Hin as [Hin Hr'].
    assert (existsb (fun r => negb (notna r)) (frame_rows df) = true)
      by (apply existsb_exists; eauto).
    congruence. }
  specialize (Hc Hnone).
  rewrite Ht, Hc, Hr. repeat split; try reflexivity.
  now apply sum_axis0_total.
Qed.

Lemma parse_csv_derived_totals_witness :
  exists g,
    parse_csv sample_lib "SPX_up_25.csv" bare_frame None None = inr g /\
    row_totals g = sum_axis1 (values g) /\
    col_totals g = sum_axis0 (values g) /\
    total g = sum_all (values g) /\
    qsum (row_totals g) == total g /\
    qsum (col_totals g) == total g.
Proof.
  assert (Hc : exists g, parse_csv sample_lib "SPX_up_25.csv" bare_frame None None = inr g)
    by (vm_compute; eexists; reflexivity).
  destruct Hc as [g Hg]. exists g. split; [exact Hg |].
  apply (parse_csv_derived_totals sample_lib "SPX_up_25.csv" bare_frame None None g);
    [repeat constructor | reflexivity | reflexivity | exact Hg].
Defined.

Lemma detect_shift_in_table (lib : PyLib) (filename : string) (shift : Q) :
  detect_shift_from_filename lib filename = Some shift ->
  exists key, In (key, shift) FILE_SHIFT_MAP /\
              str_contains key (str_lower (path_stem lib filename)) = true.
Proof.
  unfold detect_shift_from_filename.
  destruct (find _ FILE_SHIFT_MAP) as [[key sh] |] eqn:E; [| discriminate].
  intros [= <-]. apply find_some in E. destruct E as [Hin Hc]. eauto.
Qed.

(** X13.  A surface carries the shift it was given; without one, its shift
    is read off the file name and is one of the seven shifts of the naming
    convention, the one whose key the lower-cased stem contains. *)
Theorem parse_csv_shift :
  forall (lib : PyLib) (filepath : string) (df : DataFrame) (shift : option Q)
         (ref_date : option date) (g : VegaGrid),
    parse_csv lib filepath df shift ref_date = inr g ->
    match shift with
    | Some s => spot_shift g = s
    | None =>
        exists key,
          In (key, spot_shift g) FILE_SHIFT_MAP /\
          str_contains key (str_lower (path_stem lib filepath)) = true
    end.
Proof.
  intros lib filepath df shift ref_date g H.
  apply parse_csv_inr in H. destruct H as (Hs & _).
  destruct shift; [exact Hs |]. now apply detect_shift_in_table.
Qed.

Lemma parse_csv_shift_witness :
  exists g key,
    parse_csv sample_lib "SPX_Down_25.csv" bare_frame None None = inr g /\
    In (key, spot_shift g) FILE_SHIFT_MAP /\
    str_contains key (str_lower (path_stem sample_lib "SPX_Down_25.csv")) = true.
Proof.
  assert (Hc : exists g, parse_csv sample_lib "SPX_Down_25.csv" bare_frame None None = inr g)
    by (vm_compute; eexists; reflexivity).
  destruct Hc as [g Hg]. exists g.
  destruct (parse_csv_shift sample_lib "SPX_Down_25.csv" bare_frame None None g Hg)
    as (key & H).
  exists key. split; [exact Hg | exact H].
Defined.

(** ** Loops that succeed *)

Lemma map_result_total {A B} (f : A -> result B) (l : list A) :
  (forall x, In x l -> exists y, f x = inr y) -> exists ys, map_result f l = inr ys.
Proof.
  induction l as [| x l IH]; simpl; intros H; [eauto |].
  destruct (H x (or_introl eq_refl)) as [y Hy]. rewrite Hy. simpl.
  destruct IH as [ys Hys]; [auto |]. rewrite Hys. simpl. eauto.
Qed.

Lemma for_each_total {A S} (f : S -> A -> result S) (l : list A) (s0 : S) :
  (forall s x, In x l -> exists s', f s x = inr s') -> exists s, for_each f l s0 = inr s.
Proof.
  revert s0. induction l as [| x l IH]; simpl; intros s0 H; [eauto |].
  destruct (H s0 x (or_introl eq_refl)) as [s1 H1]. rewrite H1. simpl.
  apply IH. auto.
Qed.

Lemma for_each_invariant {A S} (P : S -> Prop) (f : S -> A -> result S) (l : list A) :
  (forall s x s', In x l -> P s -> f s x = inr s' -> P s') ->
  forall s0 s, P s0 -> for_each f l s0 = inr s -> P s.
Proof.
  induction l as [| x l IH]; simpl; intros Hstep s0 s H0 H.
  - inversion H; subst. exact H0.
  - apply bind_inr in H. destruct H as (s1 & H1 & H).
    apply (IH (fun s x s' Hin => Hstep s x s' (or_intror Hin)) s1 s); eauto.
Qed.

Lemma for_each_steps {A S} (f : S -> A -> result S) (l : list A) (s0 s : S) :
  for_each f l s0 = inr s -> forall x, In x l -> exists s1 s2, f s1 x = inr s2.
Proof.
  revert s0. induction l as [| y l IH]; simpl; intros s0 H x Hin; [contradiction |].
  apply bind_inr in H. destruct H as (s1 & H1 & H).
  destruct Hin as [-> | Hin]; eauto.
Qed.

Lemma for_each_inl {A S} (f : S -> A -> result S) (l : list A) (s0 : S) (e : exn) :
  for_each f l s0 = inl e -> exists s x, In x l /\ f s x = inl e.
Proof.
  revert s0. induction l as [| y l IH]; simpl; intros s0 H; [discriminate |].
  apply bind_inl in H. destruct H as [H | (s1 & H1 & H)].
  - eauto.
  - destruct (IH s1 H) as (s & x & Hin & Hx). eauto.
Qed.

Lemma enumerate_In {A} (l : list A) (j : nat) (x : A) :
  In (j, x) (enumerate l) -> (j < length l)%nat /\ In x l.
Proof.
  unfold enumerate. intros H. split.
  - apply in_combine_l in H. apply in_seq in H. lia.
  - eapply in_combine_r; eauto.
Qed.

Lemma In_enumerate {A} (l : list A) (x : A) :
  In x l -> exists j, In (j, x) (enumerate l).
Proof.
  unfold enumerate. generalize 0%nat. induction l as [| y l IH]; simpl; intros n Hin;
    [contradiction |].
  destruct Hin as [-> | Hin]; [eauto |].
  destruct (IH (S n) Hin) as [j Hj]. eauto.
Qed.

Lemma index_total {A} (l : list A) (i : nat) :
  (i < length l)%nat -> exists a, index l i = inr a.
Proof.
  intros H. unfold index. destruct (nth_error l i) eqn:E; [eauto |].
  apply nth_error_None in E. lia.
Qed.

Section DictKeys.
Context {K V : Type}.
Variable eqb : K -> K -> bool.

Lemma dict_set_keys (d : @dict K V) (k : K) (v : V) (x : K) :
  In x (dict_keys (dict_set eqb d k v)) -> x = k \/ In x (dict_keys d).
Proof.
  induction d as [| [k0 v0] d IH]; simpl; [intuition |].
  destruct (eqb k0 k); simpl; intuition.
Qed.

End DictKeys.

(** ** The vol-change grid and the pipeline on a well-formed grid *)

Lemma compute_vol_change_grid_succeeds (lib : PyLib) (g : VegaGrid) (s : Q) (mode : string)
    (bp : option BetaParams) (mp : option ManualParams) :
  (length (rows (values g)) <= length (moneyness g))%nat ->
  (ncols (values g) <= length (expiry_years g))%nat ->
  exists vc vg,
    compute_vol_change_grid lib g s mode bp mp = inr (vc, vg) /\
    shape vc = shape (values g) /\ shape vg = shape (values g) /\
    rectangular vc /\ rectangular vg.
Proof.
  intros Hm Hy.
  destruct (compute_vol_change_grid lib g s mode bp mp) as [e | [vc vg]] eqn:E.
  - exfalso. unfold compute_vol_change_grid, shape in E.
    match type of E with bind ?c _ = _ => destruct c as [e' | cells] eqn:Ec end;
      [| discriminate].
    apply map_result_inl in Ec. destruct Ec as (i & Hi & Ec). apply in_seq in Hi.
    apply map_result_inl in Ec. destruct Ec as (j & Hj & Ec). apply in_seq in Hj.
    destruct (index_total (moneyness g) i) as [m Hmi]; [lia |].
    destruct (index_total (expiry_years g) j) as [y Hyj]; [lia |].
    rewrite Hmi, Hyj in Ec. discriminate.
  - exists vc, vg. split; [reflexivity |].
    apply compute_vol_change_grid_shape in E.
    destruct E as [(R1 & C1 & L1) (R2 & C2 & L2)].
    unfold shape. rewrite C1, L1, C2, L2. auto.
Qed.

(** X14.  On a grid with at least one moneyness value per matrix row and
    one year fraction per matrix column, [compute_vol_change_grid] does not
    fail, in either mode, and returns two rectangular matrices of the shape
    of the vega matrix. *)
Theorem compute_vol_change_grid_total :
  forall (lib : PyLib) (g : VegaGrid) (s : Q) (mode : string)
         (bp : option BetaParams) (mp : option ManualParams),
    (length (rows (values g)) <= length (moneyness g))%nat ->
    (ncols (values g) <= length (expiry_years g))%nat ->
    exists vc vg,
      compute_vol_change_grid lib g s mode bp mp = inr (vc, vg) /\
      shape vc = shape (values g) /\ shape vg = shape (values g) /\
      rectangular vc /\ rectangular vg.
Proof.
  intros. now apply compute_vol_change_grid_succeeds.
Qed.

Lemma compute_vol_change_grid_total_witness :
  exists vc vg,
    compute_vol_change_grid sample_lib sample_atm (2 # 100) "beta" None None = inr (vc, vg) /\
    shape vc = shape (values sample_atm) /\ shape vg = shape (values sample_atm) /\
    rectangular vc /\ rectangular vg.
Proof.
  apply (compute_vol_change_grid_total sample_lib sample_atm (2 # 100) "beta" None None);
    simpl; lia.
Defined.

(** A short moneyness axis makes the first cell of the missing row fail. *)
Example compute_vol_change_grid_short_axis :
  compute_vol_change_grid sample_lib
    (mk_VegaGrid 0 [1] ["2026-03-20"]%string [1 # 10] (mk_ndarray2 1 [[100]; [200]])
       [100; 200] [300] 300)
    0 "beta" None None
  = raise (IndexError "index out of range").
Proof. reflexivity. Qed.

Lemma classify_expiry_bucket (lib : PyLib) (e : string) (ref_date : option date)
    (b : string) :
  classify_expiry lib e ref_date = inr b -> In b BUCKETS.
Proof.
  unfold classify_expiry. destruct (pd_Timestamp lib e); [| discriminate].
  intros [= <-]. apply classify_days_spec.
Qed.

Lemma classify_expiry_parsed (lib : PyLib) (e : string) (ref_date : option date) :
  pd_Timestamp lib e <> None -> exists b, classify_expiry lib e ref_date = inr b.
Proof.
  unfold classify_expiry. destruct (pd_Timestamp lib e); [eauto | congruence].
Qed.

Lemma col_at_total (a : ndarray2) (j : nat) :
  (j < ncols a)%nat -> exists c, col_at a j = inr c.
Proof.
  intros H. unfold col_at. apply Nat.ltb_lt in H. rewrite H. eauto.
Qed.

Section PipelineSuccess.
Variable lib : PyLib.

(** The keys of the three aggregation dicts of a result. *)
Lemma compute_pnl_keys (surfaces : @dict Q VegaGrid) (s : Q) (mode : string)
    (bp : option BetaParams) (mp : option ManualParams) (method : string)
    (r : PnLResult) :
  compute_pnl lib surfaces s mode bp mp method = inr r ->
  (forall e, In e (dict_keys (pnl_by_expiry r)) -> In e (expiries (vega_grid r))) /\
  (forall b, In b (dict_keys (pnl_by_bucket r)) -> In b BUCKETS) /\
  (forall m, In m (dict_keys (pnl_by_moneyness r)) -> In m (moneyness (vega_grid r))) /\
  (forall e, In e (expiries (vega_grid r)) ->
             exists b, classify_expiry lib e None = inr b).
Proof.
  intros H. apply compute_pnl_inr in H.
  destruct H as (vg & _ & _ & _ & _ & _ & He & Hb & Hm).
  split; [| split; [| split]].
  - refine (for_each_invariant
              (fun d : @dict string Q =>
                 forall e, In e (dict_keys d) -> In e (expiries (vega_grid r)))
              _ _ _ [] (pnl_by_expiry r) _ He).
    + intros d [j exp] d' Hin Hd Hstep k Hk.
      apply bind_inr in Hstep. destruct Hstep as (c & _ & Hstep). inversion Hstep; subst d'.
      apply dict_set_keys in Hk. destruct Hk as [-> | Hk]; [| auto].
      now apply enumerate_In in Hin.
    + intros k [].
  - refine (for_each_invariant
              (fun d : @dict string Q => forall b, In b (dict_keys d) -> In b BUCKETS)
              _ _ _ [] (pnl_by_bucket r) _ Hb).
    + intros d [j exp] d' Hin Hd Hstep k Hk.
      apply bind_inr in Hstep. destruct Hstep as (bucket & Hbucket & Hstep).
      apply bind_inr in Hstep. destruct Hstep as (c & _ & Hstep).
      inversion Hstep; subst d'.
      apply dict_set_keys in Hk. destruct Hk as [-> | Hk]; [| auto].
      eapply classify_expiry_bucket; eauto.
    + intros k [].
  - refine (for_each_invariant
              (fun d : @dict Q Q =>
                 forall m, In m (dict_keys d) -> In m (moneyness (vega_grid r)))
              _ _ _ [] (pnl_by_moneyness r) _ Hm).
    + intros d [i m0] d' Hin Hd Hstep k Hk.
      apply bind_inr in Hstep. destruct Hstep as (c & _ & Hstep). inversion Hstep; subst d'.
      apply dict_set_keys in Hk. destruct Hk as [-> | Hk]; [| auto].
      now apply enumerate_In in Hin.
    + intros k [].
  - intros e Hin. destruct (In_enumerate _ _ Hin) as [j Hj].
    destruct (for_each_steps _ _ _ _ Hb _ Hj) as (d1 & d2 & Hstep). simpl in Hstep.
    apply bind_inr in Hstep. destruct Hstep as (b & Hb' & _). eauto.
Qed.

Lemma compute_pnl_succeeds (surfaces : @dict Q VegaGrid) (s : Q) (mode : string)
    (bp : option BetaParams) (mp : option ManualParams) (method : string)
    (g : VegaGrid) :
  interpolate_vega_grid lib surfaces s method = inr g ->
  grid_consistent g ->
  (ncols (values g) <= length (expiry_years g))%nat ->
  Forall (fun e => pd_Timestamp lib e <> None) (expiries g) ->
  exists r, compute_pnl lib surfaces s mode bp mp method = inr r.
Proof.
  intros Hg (Rg & Lm & Le) Ly Hdates.
  destruct (compute_pnl lib surfaces s mode bp mp method) as [e | r] eqn:E; [| eauto].
  exfalso. unfold compute_pnl in E. rewrite Hg in E. simpl in E.
  match type of E with
  | bind (compute_vol_change_grid lib g s mode ?b ?m) _ = _ =>
      destruct (compute_vol_change_grid_succeeds lib g s mode b m)
        as (vc & vg & Hvc & _); [lia | exact Ly |]
  end.
  rewrite Hvc in E. simpl in E.
  pose proof (compute_vol_change_grid_shape _ _ _ _ _ _ _ _ Hvc) as [Svc Svg].
  destruct (pnl_grid_shape g vc vg Rg Svc Svg) as (Rp & Cp & Lp). cbv zeta in Cp, Lp.
  apply bind_inl in E. destruct E as [E | (de & _ & E)].
  { apply for_each_inl in E. destruct E as (d & [j exp] & Hin & E).
    apply enumerate_In in Hin. destruct Hin as [Hj _].
    destruct (col_at_total (ew Qplus (ew Qmult (values g) vc) (ew Qmult (values g) vg)) j)
      as [c Hc]; [lia |].
    rewrite Hc in E. discriminate. }
  apply bind_inl in E. destruct E as [E | (db & _ & E)].
  { apply for_each_inl in E. destruct E as (d & [j exp] & Hin & E).
    apply enumerate_In in Hin. destruct Hin as [Hj Hexp].
    rewrite Forall_forall in Hdates.
    destruct (classify_expiry_parsed lib exp None (Hdates exp Hexp)) as [b Hb].
    destruct (col_at_total (ew Qplus (ew Qmult (values g) vc) (ew Qmult (values g) vg)) j)
      as [c Hc]; [lia |].
    rewrite Hb in E. simpl in E. rewrite Hc in E. discriminate. }
  apply bind_inl in E. destruct E as [E | (dm & _ & E)]; [| discriminate].
  apply for_each_inl in E. destruct E as (d & [i m] & Hin & E).
  apply enumerate_In in Hin. destruct Hin as [Hi _].
  destruct (index_total
              (rows (ew Qplus (ew Qmult (values g) vc) (ew Qmult (values g) vg))) i)
    as [c Hc]; [lia |].
  unfold row_at in E. rewrite Hc in E. discriminate.
Qed.

End PipelineSuccess.

(** X15.  When the interpolated grid has axes that fit its matrix, a year
    fraction per column and expiry labels that are dates, [compute_pnl] does
    not fail, in either mode; its result records the interpolated grid and
    the requested move, and the keys of its aggregations are expiry labels
    of the grid, tenor buckets and moneyness values of the grid. *)
Theorem compute_pnl_total :
  forall (lib : PyLib) (surfaces : @dict Q VegaGrid) (s : Q) (mode : string)
         (bp : option BetaParams) (mp : option ManualParams) (method : string)
         (g : VegaGrid),
    interpolate_vega_grid lib surfaces s method = inr g ->
    grid_consistent g ->
    (ncols (values g) <= length (expiry_years g))%nat ->
    Forall (fun e => pd_Timestamp lib e <> None) (expiries g) ->
    exists r,
      compute_pnl lib surfaces s mode bp mp method = inr r /\
      vega_grid r = g /\ spot_move r = s /\
      (forall e, In e (dict_keys (pnl_by_expiry r)) -> In e (expiries g)) /\
      (forall b, In b (dict_keys (pnl_by_bucket r)) -> In b BUCKETS) /\
      (forall m, In m (dict_keys (pnl_by_moneyness r)) -> In m (moneyness g)).
Proof.
  intros lib surfaces s mode bp mp method g Hg Hc Hy Hd.
  destruct (compute_pnl_succeeds lib surfaces s mode bp mp method g Hg Hc Hy Hd) as [r Hr].
  exists r. split; [exact Hr |].
  pose proof (compute_pnl_keys lib _ _ _ _ _ _ _ Hr) as (Ke & Kb & Km & _).
  apply compute_pnl_inr in Hr. destruct Hr as (vg & Hi & _ & _ & _ & Hs & _).
  assert (Eg : vega_grid r = g) by congruence.
  rewrite Eg in Ke, Km. auto.
Qed.

Lemma compute_pnl_total_witness :
  exists r,
    compute_pnl sample_lib two_surfaces (1 # 10) "manual" None None "linear" = inr r /\
    vega_grid r = relabel (1 # 10) sample_up /\ spot_move r = 1 # 10 /\
    (forall e, In e (dict_keys (pnl_by_expiry r)) ->
               In e (expiries (relabel (1 # 10) sample_up))) /\
    (forall b, In b (dict_keys (pnl_by_bucket r)) -> In b BUCKETS) /\
    (forall m, In m (dict_keys (pnl_by_moneyness r)) ->
               In m (moneyness (relabel (1 # 10) sample_up))).
Proof.
  apply (compute_pnl_total sample_lib two_surfaces (1 # 10) "manual" None None "linear"
           (relabel (1 # 10) sample_up)).
  - reflexivity.
  - repeat split; repeat constructor.
  - simpl. lia.
  - repeat constructor; discriminate.
Defined.

(** ** JSON export *)

Lemma expiry_entries_spec (lib : PyLib) (l : @dict string Q) (bx : list ExpiryEntry) :
  map_result (fun kv =>
                bucket <- classify_expiry lib (fst kv) None ;;
                ret (mk_ExpiryEntry (fst kv) (snd kv) bucket)) l = inr bx ->
  map (fun e => (entry_expiry e, entry_pnl e)) bx = l /\
  Forall (fun e => classify_expiry lib (entry_expiry e) None = inr (entry_bucket e)) bx.
Proof.
  revert bx. induction l as [| [k v] l IH]; simpl; intros bx H.
  - inversion H. split; constructor.
  - apply bind_inr in H. destruct H as (x & Hx & H).
    apply bind_inr in H. destruct H as (bx' & Hbx & H). inversion H; subst bx; clear H.
    apply bind_inr in Hx. destruct Hx as (b & Hb & Hx). inversion Hx; subst x; clear Hx.
    destruct (IH bx' Hbx) as [IH1 IH2]. simpl. split; [now rewrite IH1 |].
    constructor; auto.
Qed.

Lemma pnl_result_to_dict_succeeds :
  forall (lib : PyLib) (surfaces : @dict Q VegaGrid) (s : Q) (mode : string)
         (bp : option BetaParams) (mp : option ManualParams) (method : string)
         (r : PnLResult),
    compute_pnl lib surfaces s mode bp mp method = inr r ->
    exists body,
      pnl_result_to_dict lib r = inr body /\
      out_total_pnl body = total_pnl r /\
      out_vega_total body = total (vega_grid r) /\
      map (fun e => (entry_expiry e, entry_pnl e)) (out_pnl_by_expiry body)
      = pnl_by_expiry r /\
      Forall (fun e => classify_expiry lib (entry_expiry e) None = inr (entry_bucket e))
        (out_pnl_by_expiry body) /\
      out_pnl_by_bucket body = pnl_by_bucket r /\
      (forall kv, In kv (out_pnl_by_moneyness body)
                  <-> In kv (pnl_by_moneyness r) /\ 1 < Qabs (snd kv)).
Proof.
  intros lib surfaces s mode bp mp method r H.
  destruct (compute_pnl_keys lib _ _ _ _ _ _ _ H) as (Ke & _ & _ & Kc).
  unfold pnl_result_to_dict.
  match goal with
  | |- context [map_result ?f (pnl_by_expiry r)] =>
      destruct (map_result f (pnl_by_expiry r)) as [e | bx] eqn:E
  end.
  - exfalso. apply map_result_inl in E. destruct E as ([k v] & Hin & E). simpl in E.
    assert (Hk : In k (dict_keys (pnl_by_expiry r)))
      by (unfold dict_keys; change k with (fst (k, v)); now apply in_map).
    destruct (Kc k (Ke k Hk)) as [b Hb]. rewrite Hb in E. discriminate.
  - simpl. eexists. split; [reflexivity |]. simpl.
    destruct (expiry_entries_spec lib _ _ E) as [E1 E2].
    repeat split; auto.
    + match goal with Hin : In _ (filter _ _) |- _ => now apply filter_In in Hin end.
    + match goal with
      | Hin : In _ (filter _ _) |- _ =>
          apply filter_In in Hin; destruct Hin as [_ Hin]; now apply Qltb_lt
      end.
    + intros [Hin Hlt]. apply filter_In. split; [exact Hin | now apply Qltb_lt].
Qed.

(** X16.  Every result that [compute_pnl] produces can be exported:
    [pnl_result_to_dict] does not fail on it.  The export lists the
    by-expiry entries in order, each tagged with the bucket of its label,
    copies the by-bucket entries, and keeps of the by-moneyness entries
    exactly those whose P&L exceeds 1.0 in absolute value. *)
Theorem pnl_result_to_dict_of_computed :
  forall (lib : PyLib) (surfaces : @dict Q VegaGrid) (s : Q) (mode : string)
         (bp : option BetaParams) (mp : option ManualParams) (method : string)
         (r : PnLResult),
    compute_pnl lib surfaces s mode bp mp method = inr r ->
    exists body,
      pnl_result_to_dict lib r = inr body /\
      out_total_pnl body = total_pnl r /\
      out_vega_total body = total (vega_grid r) /\
      map (fun e => (entry_expiry e, entry_pnl e)) (out_pnl_by_expiry body)
      = pnl_by_expiry r /\
      Forall (fun e => classify_expiry lib (entry_expiry e) None = inr (entry_bucket e))
        (out_pnl_by_expiry body) /\
      out_pnl_by_bucket body = pnl_by_bucket r /\
      (forall kv, In kv (out_pnl_by_moneyness body)
                  <-> In kv (pnl_by_moneyness r) /\ 1 < Qabs (snd kv)).
Proof.
  intros. eapply pnl_result_to_dict_succeeds; eauto.
Qed.

Lemma pnl_result_to_dict_of_computed_witness :
  exists r body,
    compute_pnl sample_lib two_surfaces (-(5 # 100)) "beta" None None "linear" = inr r /\
    pnl_result_to_dict sample_lib r = inr body /\
    out_total_pnl body = total_pnl r /\
    out_vega_total body = total (vega_grid r) /\
    map (fun e => (entry_expiry e, entry_pnl e)) (out_pnl_by_expiry body)
    = pnl_by_expiry r /\
    Forall (fun e => classify_expiry sample_lib (entry_expiry e) None
                     = inr (entry_bucket e))
      (out_pnl_by_expiry body) /\
    out_pnl_by_bucket body = pnl_by_bucket r /\
    (forall kv, In kv (out_pnl_by_moneyness body)
                <-> In kv (pnl_by_moneyness r) /\ 1 < Qabs (snd kv)).
Proof.
  assert (Hc : exists r, compute_pnl sample_lib two_surfaces (-(5 # 100)) "beta" None None
                           "linear" = inr r)
    by (vm_compute; eexists; reflexivity).
  destruct Hc as [r Hr]. exists r.
  destruct (pnl_result_to_dict_of_computed sample_lib two_surfaces (-(5 # 100)) "beta"
              None None "linear" r Hr) as (body & H).
  exists body. split; [exact Hr | exact H].
Defined.

(** The export drops the by-moneyness entries of small magnitude, so the
    exported entries need not add up to the total. *)
Example pnl_result_to_dict_drops_small_entries :
  exists r body,
    compute_pnl sample_lib
      [(0, mk_VegaGrid 0 [1; 2] ["2026-03-20"]%string [1 # 10]
             (mk_ndarray2 1 [[1]; [100]]) [1; 100] [101] 101)]
      0 "manual" None (Some parallel_shift) "linear" = inr r /\
    pnl_result_to_dict sample_lib r = inr body /\
    map fst (pnl_by_moneyness r) = [1; 2] /\
    map fst (out_pnl_by_moneyness body) = [2].
Proof.
  assert (Hc : exists r,
             compute_pnl sample_lib
               [(0, mk_VegaGrid 0 [1; 2] ["2026-03-20"]%string [1 # 10]
                      (mk_ndarray2 1 [[1]; [100]]) [1; 100] [101] 101)]
               0 "manual" None (Some parallel_shift) "linear" = inr r)
    by (vm_compute; eexists; reflexivity).
  destruct Hc as [r Hr]. pose proof Hr as Hn. vm_compute in Hn.
  injection Hn as Hn. subst r.
  do 2 eexists. split; [exact Hr |].
  split; [vm_compute; reflexivity |]. split; vm_compute; reflexivity.
Qed.

(** ** More on the scenario matrix *)

Section DictDistinct.
Context {K V : Type}.
Variable eqb : K -> K -> bool.

(** Assignment keeps the keys of a dict pairwise different. *)
Lemma dict_set_distinct (d : @dict K V) (k : K) (v : V) :
  distinct eqb (dict_keys d) = true -> distinct eqb (dict_keys (dict_set eqb d k v)) = true.
Proof.
  induction d as [| [k0 v0] d IH]; simpl; [reflexivity |].
  intros H. apply andb_true_iff in H. destruct H as [H0 Hd].
  destruct (eqb k0 k) eqn:E; simpl.
  - now rewrite H0, Hd.
  - rewrite (IH Hd), andb_true_r. apply negb_true_iff in H0.
    apply negb_true_iff, not_true_iff_false. intros Hex.
    apply existsb_exists in Hex. destruct Hex as (x & Hx & Hk).
    apply dict_set_keys in Hx. destruct Hx as [-> | Hx]; [congruence |].
    assert (existsb (eqb k0) (dict_keys d) = true) by (apply existsb_exists; eauto).
    congruence.
Qed.

End DictDistinct.

Lemma pnl_by_bucket_distinct (lib : PyLib) (surfaces : @dict Q VegaGrid) (s : Q)
    (mode : string) (bp : option BetaParams) (mp : option ManualParams) (method : string)
    (r : PnLResult) :
  compute_pnl lib surfaces s mode bp mp method = inr r ->
  distinct String.eqb (dict_keys (pnl_by_bucket r)) = true.
Proof.
  intros H. apply compute_pnl_inr in H.
  destruct H as (vg & _ & _ & _ & _ & _ & _ & Hb & _).
  refine (for_each_invariant
            (fun d : @dict string Q => distinct String.eqb (dict_keys d) = true)
            _ _ _ [] (pnl_by_bucket r) eq_refl Hb).
  intros d [j exp] d' _ Hd Hstep.
  apply bind_inr in Hstep. destruct Hstep as (bucket & _ & Hstep).
  apply bind_inr in Hstep. destruct Hstep as (c & _ & Hstep). inversion Hstep.
  now apply dict_set_distinct.
Qed.

Lemma pnl_labels_not (k : string) (l : list string) :
  String.eqb k "spot_move" = true \/ String.eqb k "total_pnl" = true ->
  existsb (String.eqb k) (map (append "pnl_") l) = false.
Proof.
  intros Hk.
  assert (E : k = "spot_move"%string \/ k = "total_pnl"%string)
    by (destruct Hk as [Hk | Hk]; apply String.eqb_eq in Hk; auto).
  destruct E as [-> | ->]; induction l as [| b l IH]; simpl; auto.
Qed.

Lemma eqb_pnl_prefix (a b : string) :
  String.eqb ("pnl_" ++ a) ("pnl_" ++ b) = String.eqb a b.
Proof. reflexivity. Qed.

Lemma existsb_pnl_prefix (b : string) (l : list string) :
  existsb (String.eqb ("pnl_" ++ b)) (map (append "pnl_") l) = existsb (String.eqb b) l.
Proof.
  induction l as [| c l IH]; cbn [map existsb]; [reflexivity |].
  now rewrite IH, eqb_pnl_prefix.
Qed.

Lemma pnl_labels_distinct (l : list string) :
  distinct String.eqb l = true -> distinct String.eqb (map (append "pnl_") l) = true.
Proof.
  induction l as [| b l IH]; cbn [map distinct]; [reflexivity |].
  intros H. apply andb_true_iff in H. destruct H as [Hb Hl].
  now rewrite (IH Hl), andb_true_r, existsb_pnl_prefix.
Qed.

Lemma beta_row_columns (items : @dict string Q) :
  forall row0 : @dict string Q,
    distinct String.eqb (dict_keys row0 ++ map (append "pnl_") (dict_keys items)) = true ->
    fold_left (fun row '(bucket, pnl) => dict_set String.eqb row ("pnl_" ++ bucket)%string pnl)
      items row0
    = row0 ++ map (fun kv => (("pnl_" ++ fst kv)%string, snd kv)) items.
Proof.
  induction items as [| [b p] items IH]; simpl; intros row0 Hd.
  - now rewrite app_nil_r.
  - rewrite dict_set_fresh by (eapply distinct_app_fresh; eauto).
    rewrite IH.
    + now rewrite <- app_assoc.
    + unfold dict_keys. rewrite map_app. simpl. now rewrite <- app_assoc.
Qed.

Lemma beta_row_labels_distinct (l : list string) :
  distinct String.eqb l = true ->
  distinct String.eqb ("spot_move"%string :: "total_pnl"%string :: map (append "pnl_") l)
  = true.
Proof.
  intros H. cbn [distinct existsb].
  rewrite !pnl_labels_not by (simpl; auto).
  rewrite (pnl_labels_distinct l H). reflexivity.
Qed.

Lemma beta_sweep_row (lib : PyLib) (surfaces : @dict Q VegaGrid) (sm : Q)
    (bp : BetaParams) (r : PnLResult) :
  compute_pnl lib surfaces sm "beta" (Some bp) None "linear" = inr r ->
  fold_left (fun row '(bucket, pnl) => dict_set String.eqb row ("pnl_" ++ bucket)%string pnl)
    (pnl_by_bucket r) [("spot_move"%string, sm); ("total_pnl"%string, total_pnl r)]
  = ("spot_move"%string, sm) :: ("total_pnl"%string, total_pnl r)
    :: map (fun kv => (("pnl_" ++ fst kv)%string, snd kv)) (pnl_by_bucket r).
Proof.
  intros H. apply pnl_by_bucket_distinct in H.
  rewrite beta_row_columns; [reflexivity |].
  exact (beta_row_labels_distinct _ H).
Qed.

(** Assignment to one key changes the keys of two dicts with the same keys
    alike. *)
Lemma dict_set_same_keys {K V} (eqb : K -> K -> bool) (d1 d2 : @dict K V) (k : K)
    (v1 v2 : V) :
  dict_keys d1 = dict_keys d2 ->
  dict_keys (dict_set eqb d1 k v1) = dict_keys (dict_set eqb d2 k v2).
Proof.
  revert d2. induction d1 as [| [k1 x1] d1 IH]; intros [| [k2 x2] d2] H;
    simpl in *; try discriminate; [reflexivity |].
  injection H as -> H. destruct (eqb k2 k); simpl; f_equal; auto.
Qed.

(** The keys of the by-bucket aggregation, and their order, follow from the
    expiry labels alone. *)
Lemma bucket_loop_keys (lib : PyLib) (pg1 pg2 : ndarray2) (l : list (nat * string)) :
  forall d1 d2 r1 r2 : @dict string Q,
    dict_keys d1 = dict_keys d2 ->
    for_each (fun d '(j, exp) =>
                bucket <- classify_expiry lib exp None ;;
                c <- col_at pg1 j ;;
                ret (dict_set String.eqb d bucket
                       (dict_get_default String.eqb d bucket 0 + qsum c))) l d1 = inr r1 ->
    for_each (fun d '(j, exp) =>
                bucket <- classify_expiry lib exp None ;;
                c <- col_at pg2 j ;;
                ret (dict_set String.eqb d bucket
                       (dict_get_default String.eqb d bucket 0 + qsum c))) l d2 = inr r2 ->
    dict_keys r1 = dict_keys r2.
Proof.
  induction l as [| [j exp] l IH]; intros d1 d2 r1 r2 Hk H1 H2; cbn [for_each] in H1, H2.
  - inversion H1; inversion H2; subst. exact Hk.
  - apply bind_inr in H1. destruct H1 as (s1 & Hs1 & H1).
    apply bind_inr in H2. destruct H2 as (s2 & Hs2 & H2).
    apply bind_inr in Hs1. destruct Hs1 as (b1 & Hb1 & Hs1).
    apply bind_inr in Hs2. destruct Hs2 as (b2 & Hb2 & Hs2).
    rewrite Hb1 in Hb2. injection Hb2 as <-.
    apply bind_inr in Hs1. destruct Hs1 as (c1 & _ & Hs1).
    apply bind_inr in Hs2. destruct Hs2 as (c2 & _ & Hs2).
    injection Hs1 as <-. injection Hs2 as <-.
    eapply IH; [| exact H1 | exact H2]. now apply dict_set_same_keys.
Qed.

Lemma lookup_In {V} (d : @dict Q V) (k : Q) (v : V) :
  lookup d k = inr v -> In v (dict_values d).
Proof.
  unfold lookup. destruct (dict_get Qeq_bool d k) as [v' |] eqn:E; [| discriminate].
  intros [= <-]. induction d as [| [k0 v0] d IH]; simpl in *; [discriminate |].
  destruct (Qeq_bool k0 k); [left; congruence | right; auto].
Qed.

(** Whatever path the interpolation takes, the expiry axis of its result is
    the expiry axis of a stored surface. *)
Lemma interpolate_expiries (lib : PyLib) (surfaces : @dict Q VegaGrid) (s : Q)
    (method : string) (g : VegaGrid) :
  interpolate_vega_grid lib surfaces s method = inr g ->
  exists g0, In g0 (dict_values surfaces) /\ expiries g = expiries g0.
Proof.
  unfold interpolate_vega_grid. intros H.
  destruct (length (sorted (dict_keys surfaces)) =? 0)%nat; [discriminate |].
  destruct (length (sorted (dict_keys surfaces)) =? 1)%nat.
  { exists g. split; [eapply lookup_In; eauto | reflexivity]. }
  match type of H with
  | match dict_get Qeq_bool surfaces ?c with _ => _ end = _ =>
      destruct (dict_get Qeq_bool surfaces c) as [grid |] eqn:E
  end.
  - exists grid. split.
    + apply (lookup_In surfaces (np_clip s (nth 0 (sorted (dict_keys surfaces)) 0)
                                   (last (sorted (dict_keys surfaces)) 0))).
      unfold lookup. now rewrite E.
    + now inversion H.
  - apply bind_inr in H. destruct H as (ref & Href & H).
    exists ref. split; [eapply lookup_In; eauto |].
    unfold shape in H. apply bind_inr in H. destruct H as (cells & _ & H).
    now inversion H.
Qed.

Lemma Forall2_In_right {A B} (P : A -> B -> Prop) (l1 : list A) (l2 : list B) (y : B) :
  Forall2 P l1 l2 -> In y l2 -> exists x, In x l1 /\ P x y.
Proof.
  induction 1 as [| x y0 l1 l2 Hxy _ IH]; simpl; [contradiction |].
  intros [<- | Hin]; [eauto |]. destruct (IH Hin) as (x' & Hx' & Hp). eauto.
Qed.

(** Two results computed on one store whose surfaces share their expiry
    axis aggregate into the same buckets, in the same order. *)
Lemma shared_axis_same_buckets (lib : PyLib) (surfaces : @dict Q VegaGrid)
    (axis : list string) (s1 s2 : Q) (mode1 mode2 : string)
    (bp1 bp2 : option BetaParams) (mp1 mp2 : option ManualParams)
    (method1 method2 : string) (r1 r2 : PnLResult) :
  Forall (fun g => expiries g = axis) (dict_values surfaces) ->
  compute_pnl lib surfaces s1 mode1 bp1 mp1 method1 = inr r1 ->
  compute_pnl lib surfaces s2 mode2 bp2 mp2 method2 = inr r2 ->
  dict_keys (pnl_by_bucket r1) = dict_keys (pnl_by_bucket r2).
Proof.
  intros Haxis H1 H2. rewrite Forall_forall in Haxis.
  apply compute_pnl_inr in H1. destruct H1 as (vg1 & Hi1 & _ & _ & _ & _ & _ & Hb1 & _).
  apply compute_pnl_inr in H2. destruct H2 as (vg2 & Hi2 & _ & _ & _ & _ & _ & Hb2 & _).
  apply interpolate_expiries in Hi1. destruct Hi1 as (g1 & Hin1 & E1).
  apply interpolate_expiries in Hi2. destruct Hi2 as (g2 & Hin2 & E2).
  rewrite E1, (Haxis g1 Hin1) in Hb1. rewrite E2, (Haxis g2 Hin2) in Hb2.
  exact (bucket_loop_keys lib _ _ _ [] [] _ _ eq_refl Hb1 Hb2).
Qed.

(** X17.  In beta mode the sweep returns one row per spot move, 31 rows
    for the default moves; each row holds the spot move, the total P&L of
    that move and then one [pnl_<bucket>] column per tenor bucket present, in
    the order of the by-bucket aggregation.  This is stated for a store
    whose surfaces share one expiry axis: then all rows have the same
    columns in the same order, so the frame built from the rows has exactly
    these columns, no cell of it is filled in, and its records are the
    rows. *)
Theorem beta_sweep_rows :
  forall (lib : PyLib) (surfaces : @dict Q VegaGrid) (spot_moves : option (list Q))
         (bp : option BetaParams) (mp : option ManualParams)
         (vol_changes_override : option (list Q)) (table : list (@dict string Q))
         (axis : list string),
    Forall (fun g => expiries g = axis) (dict_values surfaces) ->
    compute_scenario_matrix lib surfaces spot_moves "beta" bp mp vol_changes_override
    = inr table ->
    let sms := match spot_moves with Some l => l | None => default_spot_moves end in
    length table = length sms /\
    (spot_moves = None -> length table = 31%nat) /\
    Forall2
      (fun sm row =>
         exists r,
           compute_pnl lib surfaces sm "beta"
             (Some (match bp with Some p => p | None => BetaParams_default end))
             None "linear" = inr r /\
           row = ("spot_move"%string, sm) :: ("total_pnl"%string, total_pnl r)
                 :: map (fun kv => (("pnl_" ++ fst kv)%string, snd kv)) (pnl_by_bucket r))
      sms table /\
    (forall row1 row2, In row1 table -> In row2 table -> dict_keys row1 = dict_keys row2).
Proof.
  intros lib surfaces spot_moves bp mp ovs table axis Haxis H sms.
  unfold compute_scenario_matrix in H. simpl in H. fold sms in H.
  pose proof (map_result_length _ _ _ H) as Hlen.
  assert (Hrows :
            Forall2
              (fun sm row =>
                 exists r,
                   compute_pnl lib surfaces sm "beta"
                     (Some (match bp with Some p => p | None => BetaParams_default end))
                     None "linear" = inr r /\
                   row = ("spot_move"%string, sm) :: ("total_pnl"%string, total_pnl r)
                         :: map (fun kv => (("pnl_" ++ fst kv)%string, snd kv))
                              (pnl_by_bucket r))
              sms table).
  { apply map_result_Forall2 in H.
    eapply Forall2_impl; [| exact H]. intros sm row Hrow. simpl in Hrow.
    apply bind_inr in Hrow. destruct Hrow as (r & Hr & Hrow).
    exists r. split; [exact Hr |]. injection Hrow as <-.
    exact (beta_sweep_row lib surfaces sm _ r Hr). }
  split; [exact Hlen |]. split; [intros ->; exact Hlen |]. split; [exact Hrows |].
  intros row1 row2 Hin1 Hin2.
  destruct (Forall2_In_right _ _ _ _ Hrows Hin1) as (sm1 & _ & r1 & Hr1 & ->).
  destruct (Forall2_In_right _ _ _ _ Hrows Hin2) as (sm2 & _ & r2 & Hr2 & ->).
  pose proof (shared_axis_same_buckets lib surfaces axis _ _ _ _ _ _ _ _ _ _ r1 r2
                Haxis Hr1 Hr2) as Hk.
  unfold dict_keys in *. cbn [map fst]. rewrite !map_map. cbn [fst].
  rewrite <- !(map_map fst (append "pnl_")). now rewrite Hk.
Qed.

(** Three moves between the two loaded surfaces, which share the axis
    2026-03-20, 2026-09-18. *)
Lemma beta_sweep_rows_witness :
  exists table,
    compute_scenario_matrix sample_lib two_surfaces (Some [-(2 # 100); 0; 2 # 100]) "beta"
      None None None = inr table /\
    length table = 3%nat /\
    Forall2
      (fun sm row =>
         exists r,
           compute_pnl sample_lib two_surfaces sm "beta" (Some BetaParams_default)
             None "linear" = inr r /\
           row = ("spot_move"%string, sm) :: ("total_pnl"%string, total_pnl r)
                 :: map (fun kv => (("pnl_" ++ fst kv)%string, snd kv)) (pnl_by_bucket r))
      [-(2 # 100); 0; 2 # 100] table /\
    (forall row1 row2, In row1 table -> In row2 table -> dict_keys row1 = dict_keys row2).
Proof.
  assert (Hc : exists table,
             compute_scenario_matrix sample_lib two_surfaces
               (Some [-(2 # 100); 0; 2 # 100]) "beta" None None None = inr table)
    by (vm_compute; eexists; reflexivity).
  destruct Hc as [table Ht]. exists table. split; [exact Ht |].
  destruct (beta_sweep_rows sample_lib two_surfaces (Some [-(2 # 100); 0; 2 # 100])
              None None None table ["2026-03-20"; "2026-09-18"]%string
              ltac:(repeat constructor) Ht) as (Hlen & _ & Hrows & Hcols).
  split; [exact Hlen |]. split; [exact Hrows | exact Hcols].
Defined.

(** X18.  On an empty store the sweep fails with
    [ValueError("No surfaces provided")] as soon as it has a scenario to
    compute: it returns no rows for an empty list of spot moves, and in
    manual mode with an empty list of vol overrides it returns rows that hold
    the spot move alone, without looking at the store. *)
Theorem scenario_matrix_empty_store :
  forall (lib : PyLib) (spot_moves : option (list Q)) (mode : string)
         (bp : option BetaParams) (mp : option ManualParams)
         (vol_changes_override : option (list Q)),
    let sms := match spot_moves with Some l => l | None => default_spot_moves end in
    let ovs := match vol_changes_override with
               | Some l => l
               | None => default_vol_changes_override
               end in
    compute_scenario_matrix lib [] spot_moves mode bp mp vol_changes_override
    = match sms with
      | [] => ret []
      | _ :: _ =>
          if String.eqb mode "beta" then raise (ValueError "No surfaces provided")
          else match ovs with
               | [] => ret (map (fun sm => [("spot_move"%string, sm)]) sms)
               | _ :: _ => raise (ValueError "No surfaces provided")
               end
      end.
Proof.
  intros lib spot_moves mode bp mp vol_changes_override sms ovs.
  unfold compute_scenario_matrix. fold sms. fold ovs.
  destruct sms as [| sm sms]; [destruct (String.eqb mode "beta"); reflexivity |].
  destruct (String.eqb mode "beta"); [reflexivity |].
  destruct ovs as [| dv ovs]; [| reflexivity].
  apply (map_result_pure (fun sm => [("spot_move"%string, sm)]) (sm :: sms)).
Qed.

(** X19.  Two vol overrides that print to the same signed integer tag share
    one column of the manual sweep: the row holds the spot move and a single
    vol column, under that tag, with the total P&L of the later override. *)
Theorem manual_sweep_label_collision :
  forall (lib : PyLib) (surfaces : @dict Q VegaGrid) (spot_moves : list Q) (mode : string)
         (bp : option BetaParams) (base : ManualParams) (dv1 dv2 : Q)
         (table : list (@dict string Q)),
    String.eqb mode "beta" = false ->
    vol_label dv1 = vol_label dv2 ->
    compute_scenario_matrix lib surfaces (Some spot_moves) mode bp (Some base)
      (Some [dv1; dv2]) = inr table ->
    Forall2
      (fun sm row =>
         exists r2,
           compute_pnl lib surfaces sm "manual" None
             (Some (sweep_manual_params base dv2)) "linear" = inr r2 /\
           row = [("spot_move"%string, sm); (vol_label dv1, total_pnl r2)])
      spot_moves table.
Proof.
  intros lib surfaces spot_moves mode bp base dv1 dv2 table Hmode Hlabel H.
  unfold compute_scenario_matrix in H. rewrite Hmode in H.
  apply map_result_Forall2 in H.
  eapply Forall2_impl; [| exact H]. intros sm row Hrow. cbn [for_each] in Hrow.
  change ("vol_" ++ format_signed_0f dv1)%string with (vol_label dv1) in Hrow.
  change ("vol_" ++ format_signed_0f dv2)%string with (vol_label dv2) in Hrow.
  rewrite <- Hlabel in Hrow.
  apply bind_inr in Hrow. destruct Hrow as (row1 & H1 & Hrow).
  apply bind_inr in H1. destruct H1 as (r1 & _ & H1). injection H1 as <-.
  apply bind_inr in Hrow. destruct Hrow as (row2 & H2 & Hrow).
  apply bind_inr in H2. destruct H2 as (r2 & Hr2 & H2). injection H2 as <-.
  injection Hrow as <-.
  exists r2. split; [exact Hr2 |].
  now rewrite String.eqb_refl.
Qed.

Lemma manual_sweep_label_collision_witness :
  exists table,
    compute_scenario_matrix sample_lib one_surface (Some [0]) "manual" None
      (Some ManualParams_default) (Some [12 # 10; 13 # 10]) = inr table /\
    Forall2
      (fun sm row =>
         exists r2,
           compute_pnl sample_lib one_surface sm "manual" None
             (Some (sweep_manual_params ManualParams_default (13 # 10))) "linear" = inr r2 /\
           row = [("spot_move"%string, sm); (vol_label (12 # 10), total_pnl r2)])
      [0] table.
Proof.
  assert (Hc : exists table,
             compute_scenario_matrix sample_lib one_surface (Some [0]) "manual" None
               (Some ManualParams_default) (Some [12 # 10; 13 # 10]) = inr table)
    by (vm_compute; eexists; reflexivity).
  destruct Hc as [table Ht]. exists table. split; [exact Ht |].
  apply (manual_sweep_label_collision sample_lib one_surface [0] "manual" None
           ManualParams_default (12 # 10) (13 # 10) table); [reflexivity | reflexivity | exact Ht].
Defined.

(** ** The server's endpoints *)

Lemma index_inl {A} (l : list A) (i : nat) (e : exn) :
  index l i = inl e -> pipeline_error e.
Proof.
  unfold index. destruct (nth_error l i); [discriminate |].
  intros [= <-]. left. eauto.
Qed.

Lemma get2_inl (a : ndarray2) (i j : nat) (e : exn) :
  get2 a i j = inl e -> pipeline_error e.
Proof.
  unfold get2. intros H. apply bind_inl in H. destruct H as [H | (r & _ & H)];
    eapply index_inl; eauto.
Qed.

Lemma col_at_inl (a : ndarray2) (j : nat) (e : exn) :
  col_at a j = inl e -> pipeline_error e.
Proof.
  unfold col_at. destruct (j <? ncols a)%nat; [discriminate |].
  intros [= <-]. left. eauto.
Qed.

Lemma lookup_inl {V} (d : @dict Q V) (k : Q) (e : exn) :
  lookup d k = inl e -> pipeline_error e.
Proof.
  unfold lookup. destruct (dict_get Qeq_bool d k); [discriminate |].
  intros [= <-]. right. left. eauto.
Qed.

Lemma classify_expiry_inl (lib : PyLib) (label : string) (ref_date : option date)
    (e : exn) :
  classify_expiry lib label ref_date = inl e -> pipeline_error e.
Proof.
  unfold classify_expiry. destruct (pd_Timestamp lib label); [discriminate |].
  intros [= <-]. right. right. exists label. reflexivity.
Qed.

Lemma pipeline_error_not_empty_store (e : exn) :
  pipeline_error e -> e <> ValueError "No surfaces provided".
Proof. intros [[m ->] | [[m ->] | [l ->]]]; discriminate. Qed.

Section EndpointFacts.
Variable lib : PyLib.

Lemma interpolate_inl (surfaces : @dict Q VegaGrid) (s : Q) (method : string) (e : exn) :
  surfaces <> [] ->
  interpolate_vega_grid lib surfaces s method = inl e -> pipeline_error e.
Proof.
  intros Hne H. unfold interpolate_vega_grid in H.
  assert (Hl : length (sorted (dict_keys surfaces)) = length surfaces)
    by (rewrite sorted_length; apply length_map).
  rewrite Hl in H.
  destruct (Nat.eqb_spec (length surfaces) 0) as [E0 | _].
  { destruct surfaces; [congruence | discriminate]. }
  destruct (length surfaces =? 1)%nat; [eapply lookup_inl; eauto |].
  destruct (dict_get Qeq_bool surfaces _); [discriminate |].
  apply bind_inl in H. destruct H as [H | (ref & _ & H)]; [eapply lookup_inl; eauto |].
  unfold shape in H. apply bind_inl in H. destruct H as [H | (cells & _ & H)];
    [| discriminate].
  apply map_result_inl in H. destruct H as (i & _ & H).
  apply map_result_inl in H. destruct H as (j & _ & H).
  apply bind_inl in H. destruct H as [H | (ys & _ & H)]; [| discriminate].
  apply map_result_inl in H. destruct H as (k & _ & H).
  apply bind_inl in H. destruct H as [H | (g & _ & H)];
    [eapply lookup_inl | eapply get2_inl]; eauto.
Qed.

Lemma compute_vol_change_grid_inl (g : VegaGrid) (s : Q) (mode : string)
    (bp : option BetaParams) (mp : option ManualParams) (e : exn) :
  compute_vol_change_grid lib g s mode bp mp = inl e -> pipeline_error e.
Proof.
  unfold compute_vol_change_grid, shape. intros H.
  apply bind_inl in H. destruct H as [H | (cells & _ & H)]; [| discriminate].
  apply map_result_inl in H. destruct H as (i & _ & H).
  apply map_result_inl in H. destruct H as (j & _ & H).
  apply bind_inl in H. destruct H as [H | (m & _ & H)]; [eapply index_inl; eauto |].
  apply bind_inl in H. destruct H as [H | (y & _ & H)]; [eapply index_inl; eauto |].
  discriminate.
Qed.

Lemma compute_pnl_inl (surfaces : @dict Q VegaGrid) (s : Q) (mode : string)
    (bp : option BetaParams) (mp : option ManualParams) (method : string) (e : exn) :
  surfaces <> [] ->
  compute_pnl lib surfaces s mode bp mp method = inl e -> pipeline_error e.
Proof.
  intros Hne H. unfold compute_pnl in H.
  apply bind_inl in H. destruct H as [H | (g & _ & H)]; [eapply interpolate_inl; eauto |].
  apply bind_inl in H. destruct H as [H | ([vc vg] & _ & H)];
    [eapply compute_vol_change_grid_inl; eauto |].
  cbv zeta in H.
  apply bind_inl in H. destruct H as [H | (de & _ & H)].
  { apply for_each_inl in H. destruct H as (d & [j exp] & _ & H).
    apply bind_inl in H. destruct H as [H | (c & _ & H)]; [| discriminate].
    eapply col_at_inl; eauto. }
  apply bind_inl in H. destruct H as [H | (db & _ & H)].
  { apply for_each_inl in H. destruct H as (d & [j exp] & _ & H).
    apply bind_inl in H. destruct H as [H | (b & _ & H)];
      [eapply classify_expiry_inl; eauto |].
    apply bind_inl in H. destruct H as [H | (c & _ & H)]; [| discriminate].
    eapply col_at_inl; eauto. }
  apply bind_inl in H. destruct H as [H | (dm & _ & H)]; [| discriminate].
  apply for_each_inl in H. destruct H as (d & [i m] & _ & H).
  apply bind_inl in H. destruct H as [H | (c & _ & H)]; [| discriminate].
  unfold row_at in H. eapply index_inl; eauto.
Qed.

Lemma compute_scenario_matrix_inl (surfaces : @dict Q VegaGrid)
    (spot_moves : option (list Q)) (mode : string) (bp : option BetaParams)
    (mp : option ManualParams) (ovs : option (list Q)) (e : exn) :
  surfaces <> [] ->
  compute_scenario_matrix lib surfaces spot_moves mode bp mp ovs = inl e ->
  pipeline_error e.
Proof.
  intros Hne H. unfold compute_scenario_matrix in H.
  destruct (String.eqb mode "beta").
  - apply map_result_inl in H. destruct H as (sm & _ & H).
    apply bind_inl in H. destruct H as [H | (r & _ & H)]; [| discriminate].
    eapply compute_pnl_inl; eauto.
  - apply map_result_inl in H. destruct H as (sm & _ & H).
    apply for_each_inl in H. destruct H as (row & dv & _ & H).
    apply bind_inl in H. destruct H as [H | (r & _ & H)]; [| discriminate].
    eapply compute_pnl_inl; eauto.
Qed.

End EndpointFacts.

(** X20.  The two computing endpoints answer a request on an empty store
    with status 400 and never let the engine's
    [ValueError("No surfaces provided")] escape; an exception that escapes
    from [/pnl] is the one [compute_pnl] raised on the request, never one of
    the export, and a body of [/pnl] is the export of the result of
    [compute_pnl]. *)
Theorem endpoints_guard_empty_store :
  forall (lib : PyLib) (surfaces : @dict Q VegaGrid) (req : PnLRequest)
         (sreq : ScenarioMatrixRequest),
    (surfaces = [] ->
     compute_pnl_endpoint lib surfaces req
     = HTTPException 400 "No surfaces loaded. Upload CSVs first." /\
     scenario_matrix_endpoint lib surfaces sreq
     = HTTPException 400 "No surfaces loaded.") /\
    compute_pnl_endpoint lib surfaces req <> Unhandled (ValueError "No surfaces provided") /\
    scenario_matrix_endpoint lib surfaces sreq
    <> Unhandled (ValueError "No surfaces provided") /\
    (forall e,
        compute_pnl_endpoint lib surfaces req = Unhandled e ->
        compute_pnl lib surfaces (req_spot_move req) (req_vol_mode req)
          (Some (match req_beta_params req with
                 | Some p => BetaParams_of_input p
                 | None => BetaParams_default
                 end))
          (Some (match req_manual_params req with
                 | Some p => ManualParams_of_input p
                 | None => ManualParams_default
                 end))
          (req_interp_method req) = inl e) /\
    (forall body,
        compute_pnl_endpoint lib surfaces req = Ok body ->
        exists r,
          compute_pnl lib surfaces (req_spot_move req) (req_vol_mode req)
            (Some (match req_beta_params req with
                   | Some p => BetaParams_of_input p
                   | None => BetaParams_default
                   end))
            (Some (match req_manual_params req with
                   | Some p => ManualParams_of_input p
                   | None => ManualParams_default
                   end))
            (req_interp_method req) = inr r /\
          pnl_result_to_dict lib r = inr body).
Proof.
  intros lib surfaces req sreq.
  assert (Hraise : forall e,
             compute_pnl_endpoint lib surfaces req = Unhandled e ->
             surfaces <> [] /\
             compute_pnl lib surfaces (req_spot_move req) (req_vol_mode req)
               (Some (match req_beta_params req with
                      | Some p => BetaParams_of_input p
                      | None => BetaParams_default
                      end))
               (Some (match req_manual_params req with
                      | Some p => ManualParams_of_input p
                      | None => ManualParams_default
                      end))
               (req_interp_method req) = inl e).
  { intros e H. unfold compute_pnl_endpoint in H.
    destruct surfaces as [| kv rest]; [discriminate |]. simpl in H.
    split; [discriminate |].
    match type of H with
    | match ?c with _ => _ end = _ => destruct c as [e' | r] eqn:E
    end.
    - now inversion H.
    - destruct (pnl_result_to_dict_succeeds lib _ _ _ _ _ _ r E) as (body & Hb & _).
      rewrite Hb in H. discriminate. }
  assert (Hsc : forall e, scenario_matrix_endpoint lib surfaces sreq = Unhandled e ->
                          pipeline_error e).
  { intros e H. unfold scenario_matrix_endpoint in H.
    destruct surfaces as [| kv rest]; [discriminate |]. simpl in H.
    match type of H with
    | match ?c with _ => _ end = _ => destruct c as [e' | t] eqn:E
    end; [| discriminate].
    inversion H; subst e'. eapply compute_scenario_matrix_inl; [| exact E]. discriminate. }
  split; [intros ->; split; reflexivity |].
  split.
  { intros H. apply Hraise in H. destruct H as [Hne H].
    apply (compute_pnl_inl lib _ _ _ _ _ _ _ Hne) in H.
    now apply pipeline_error_not_empty_store in H. }
  split; [intros H; apply Hsc in H; now apply pipeline_error_not_empty_store in H |].
  split; [intros e H; now apply Hraise in H |].
  intros body H. unfold compute_pnl_endpoint in H.
  destruct (length surfaces =? 0)%nat; [discriminate |].
  match type of H with
  | match ?c with _ => _ end = _ => destruct c as [e' | r] eqn:E
  end; [discriminate |].
  exists r. split; [reflexivity |].
  destruct (pnl_result_to_dict lib r); [discriminate | now inversion H].
Qed.

(** ** Stores: upload and directory load *)

(** Lookup after assignment, on float keys. *)
Lemma dict_get_set {V} (d : @dict Q V) (k k' : Q) (v : V) :
  dict_get Qeq_bool (dict_set Qeq_bool d k v) k'
  = if Qeq_bool k k' then Some v else dict_get Qeq_bool d k'.
Proof.
  induction d as [| [k0 v0] d IH]; simpl; [reflexivity |].
  destruct (Qeq_bool k0 k) eqn:E0; simpl.
  - apply Qeq_bool_iff in E0. rewrite E0. destruct (Qeq_bool k k'); reflexivity.
  - rewrite IH. destruct (Qeq_bool k0 k') eqn:E1; [| reflexivity].
    destruct (Qeq_bool k k') eqn:E2; [| reflexivity].
    apply Qeq_bool_iff in E1, E2. apply Qeq_bool_neq in E0.
    exfalso. apply E0. rewrite E1, E2. reflexivity.
Qed.

Lemma dict_get_absent {V} (l : @dict Q V) (k1 k : Q) :
  existsb (Qeq_bool k1) (dict_keys l) = false -> k1 == k ->
  dict_get Qeq_bool l k = None.
Proof.
  intros H E. induction l as [| [k0 v0] l IH]; simpl in *; [reflexivity |].
  apply orb_false_iff in H. destruct H as [H0 H].
  destruct (Qeq_bool k0 k) eqn:X; [| auto].
  apply Qeq_bool_iff in X. apply Qeq_bool_neq in H0.
  exfalso. apply H0. rewrite E. symmetry. exact X.
Qed.

(** Lookup after [update] with a dict. *)
Lemma dict_get_update {V} (other : @dict Q V) :
  forall (d : @dict Q V) (k : Q),
    distinct Qeq_bool (dict_keys other) = true ->
    dict_get Qeq_bool (dict_update d other) k
    = match dict_get Qeq_bool other k with
      | Some v => Some v
      | None => dict_get Qeq_bool d k
      end.
Proof.
  unfold dict_update.
  induction other as [| [k1 v1] other IH]; simpl; intros d k Hd; [reflexivity |].
  apply andb_true_iff in Hd. destruct Hd as [H1 Hd]. apply negb_true_iff in H1.
  rewrite (IH _ _ Hd), dict_get_set.
  destruct (Qeq_bool k1 k) eqn:E; [| reflexivity].
  apply Qeq_bool_iff in E. now rewrite (dict_get_absent other k1 k H1 E).
Qed.

Lemma dict_set_stored (d : @dict Q VegaGrid) (k : Q) (g : VegaGrid) :
  Forall stored_under_its_shift d -> spot_shift g = k -> In k (map snd FILE_SHIFT_MAP) ->
  Forall stored_under_its_shift (dict_set Qeq_bool d k g).
Proof.
  intros Hd Hg Hk. induction Hd as [| [k0 g0] d [H0 H0'] Hd IH]; cbn [dict_set].
  - constructor; [| constructor].
    split; cbn [fst snd]; [rewrite Hg; reflexivity | exact Hk].
  - destruct (Qeq_bool k0 k) eqn:E; constructor; auto.
    + apply Qeq_bool_iff in E.
      split; cbn [fst snd] in *; [rewrite Hg, E; reflexivity | exact H0'].
    + split; assumption.
Qed.

Lemma detect_shift_value (lib : PyLib) (filename : string) (shift : Q) :
  detect_shift_from_filename lib filename = Some shift -> In shift (map snd FILE_SHIFT_MAP).
Proof.
  intros H. apply detect_shift_in_table in H. destruct H as (key & Hin & _).
  change shift with (snd (key, shift)). now apply in_map.
Qed.

Lemma parse_csv_given_shift (lib : PyLib) (filepath : string) (df : DataFrame) (s : Q)
    (ref_date : option date) (g : VegaGrid) :
  parse_csv lib filepath df (Some s) ref_date = inr g -> spot_shift g = s.
Proof. intros H. now apply parse_csv_inr in H. Qed.

Section StoreFacts.
Variable lib : PyLib.

Lemma upload_loop_spec (files : list UploadFile) :
  forall loaded0 : @dict Q VegaGrid,
    distinct Qeq_bool (dict_keys loaded0) = true ->
    Forall stored_under_its_shift loaded0 ->
    match upload_loop lib files loaded0 with
    | Ok loaded =>
        distinct Qeq_bool (dict_keys loaded) = true /\ Forall stored_under_its_shift loaded
    | HTTPException status_code _ => status_code = 400%nat
    | Unhandled _ => False
    end.
Proof.
  induction files as [| file files IH]; simpl; intros loaded0 Hd Hs; [auto |].
  destruct (detect_shift_from_filename lib (upload_filename file)) as [shift |] eqn:E;
    [| now apply IH].
  destruct (parse_csv lib (upload_tmp_path file) (upload_content file) (Some shift) None)
    as [e | grid] eqn:Ep; [reflexivity |].
  apply IH.
  - now apply dict_set_distinct.
  - apply dict_set_stored; auto.
    + eapply parse_csv_given_shift; eauto.
    + eapply detect_shift_value; eauto.
Qed.

End StoreFacts.

(** X21.  An upload is all or nothing.  If one file with a recognised name
    fails to parse, the answer is status 400 and the store is left as it
    was.  Otherwise the new store answers a lookup with the uploaded surface
    when one was uploaded for that shift and with the old surface when not;
    every uploaded surface is labelled with its shift, one of the seven of
    the naming convention. *)
Theorem upload_surfaces_merge :
  forall (lib : PyLib) (surfaces : @dict Q VegaGrid) (files : list UploadFile),
    match upload_surfaces lib surfaces files with
    | (surfaces', Ok summary) =>
        exists loaded,
          upload_loop lib files [] = Ok loaded /\
          Forall stored_under_its_shift loaded /\
          (forall k,
              dict_get Qeq_bool surfaces' k
              = match dict_get Qeq_bool loaded k with
                | Some g => Some g
                | None => dict_get Qeq_bool surfaces k
                end) /\
          summary_uploaded summary = length loaded /\
          summary_total_surfaces summary = length surfaces' /\
          summary_shifts summary = sorted (dict_keys surfaces')
    | (surfaces', HTTPException status_code _) =>
        surfaces' = surfaces /\ status_code = 400%nat
    | (_, Unhandled _) => False
    end.
Proof.
  intros lib surfaces files. unfold upload_surfaces.
  pose proof (upload_loop_spec lib files [] eq_refl (Forall_nil _)) as H.
  destruct (upload_loop lib files []) as [loaded | code detail | e]; [| auto | exact H].
  destruct H as [Hd Hs]. exists loaded. simpl.
  repeat split; auto. intros k. now apply dict_get_update.
Qed.

(** A store at shift 0, an upload of a new surface for +2.5%, of a file
    without a shift key, and of a replacement for shift 0. *)
Example upload_surfaces_run :
  exists surfaces' summary g_up g_atm,
    upload_surfaces sample_lib one_surface
      [ mk_UploadFile "SPX_up_25.csv" "/tmp/a.csv" bare_frame;
        mk_UploadFile "notes.csv" "/tmp/b.csv" bare_frame;
        mk_UploadFile "SPX_ATM.csv" "/tmp/c.csv" consistent_frame ]
    = (surfaces', Ok summary) /\
    summary_uploaded summary = 2%nat /\ summary_total_surfaces summary = 2%nat /\
    summary_shifts summary = [0; 25 # 1000] /\
    dict_get Qeq_bool surfaces' (25 # 1000) = Some g_up /\ spot_shift g_up = 25 # 1000 /\
    dict_get Qeq_bool surfaces' 0 = Some g_atm /\ row_totals g_atm = [300; 400].
Proof. vm_compute. do 4 eexists. repeat split; reflexivity. Qed.

(** One unreadable expiry label in a recognised file rejects the upload. *)
Example upload_surfaces_rejects :
  upload_surfaces sample_lib one_surface
    [ mk_UploadFile "SPX_up_25.csv" "/tmp/a.csv" bare_frame;
      mk_UploadFile "SPX_up_50.csv" "/tmp/b.csv"
        (mk_DataFrame ["March"]%string [(Some 1, [100])]) ]
  = (one_surface,
     HTTPException 400
       "Error parsing SPX_up_50.csv: Unknown datetime string format: March").
Proof. reflexivity. Qed.

Lemma insert_item_In {V} (x a : Q * V) (l : list (Q * V)) :
  In a (insert_item x l) <-> a = x \/ In a l.
Proof.
  induction l as [| y l IH]; simpl; [intuition |].
  destruct (Qltb (fst x) (fst y)); simpl; rewrite ?IH; intuition.
Qed.

Lemma insert_item_ascending {V} (x : Q * V) (l : list (Q * V)) :
  StronglySorted key_lt l ->
  (forall a, In a l -> ~ fst a == fst x) ->
  StronglySorted key_lt (insert_item x l).
Proof.
  induction 1 as [| y l Hs IH Hy]; simpl; intros Hne.
  - repeat constructor.
  - destruct (Qltb (fst x) (fst y)) eqn:E.
    + apply Qltb_lt in E. constructor; [now constructor |].
      constructor; [exact E |].
      rewrite Forall_forall in Hy |- *. intros z Hz. unfold key_lt in *.
      apply Qlt_trans with (fst y); auto.
    + apply Qltb_ge in E.
      assert (Hyx : fst y < fst x).
      { pose proof (Hne y (or_introl eq_refl)). lra. }
      constructor; [apply IH; auto |].
      rewrite Forall_forall in Hy |- *. intros z Hz.
      apply insert_item_In in Hz. destruct Hz as [-> | Hz]; [exact Hyx | auto].
Qed.

Lemma sorted_items_acc_In {V} (l acc : list (Q * V)) (a : Q * V) :
  In a (fold_left (fun acc x => insert_item x acc) l acc) <-> In a l \/ In a acc.
Proof.
  revert acc. induction l as [| x l IH]; simpl; intros acc; [intuition |].
  rewrite IH, insert_item_In. intuition.
Qed.

Lemma sorted_items_In {V} (d : @dict Q V) (a : Q * V) :
  In a (sorted_items d) <-> In a d.
Proof. unfold sorted_items. rewrite sorted_items_acc_In. simpl. intuition. Qed.

Lemma existsb_Qeq_false (k : Q) (l : list Q) (x : Q) :
  existsb (Qeq_bool k) l = false -> In x l -> ~ k == x.
Proof.
  intros H Hin E. apply Qeq_bool_iff in E.
  assert (existsb (Qeq_bool k) l = true) by (apply existsb_exists; eauto).
  congruence.
Qed.

Lemma sorted_items_acc_ascending {V} (l : list (Q * V)) :
  forall acc : list (Q * V),
    StronglySorted key_lt acc ->
    (forall a x, In a acc -> In x l -> ~ fst a == fst x) ->
    distinct Qeq_bool (map fst l) = true ->
    StronglySorted key_lt (fold_left (fun acc x => insert_item x acc) l acc).
Proof.
  induction l as [| x l IH]; simpl; intros acc Hs Hne Hd; [exact Hs |].
  apply andb_true_iff in Hd. destruct Hd as [Hx Hd]. apply negb_true_iff in Hx.
  apply IH; [| | exact Hd].
  - apply insert_item_ascending; [exact Hs |]. intros a Ha. apply Hne; auto.
  - intros a y Ha Hy. apply insert_item_In in Ha. destruct Ha as [-> | Ha].
    + eapply existsb_Qeq_false; [exact Hx |]. now apply in_map.
    + apply Hne; auto.
Qed.

Lemma sorted_items_ascending {V} (d : @dict Q V) :
  distinct Qeq_bool (dict_keys d) = true -> StronglySorted key_lt (sorted_items d).
Proof.
  intros Hd. unfold sorted_items. apply sorted_items_acc_ascending.
  - constructor.
  - intros a x [].
  - exact Hd.
Qed.

(** X22.  A directory load returns the surfaces in strictly ascending order
    of shift, so no shift occurs twice; every surface is labelled with the
    shift it is stored under, which is one of the seven shifts of the naming
    convention. *)
Theorem load_surfaces_sorted :
  forall (lib : PyLib) (entries : list DirEntry) (surfaces : @dict Q VegaGrid),
    load_surfaces lib entries = inr surfaces ->
    StronglySorted key_lt surfaces /\
    Forall stored_under_its_shift surfaces.
Proof.
  intros lib entries surfaces H. unfold load_surfaces in H.
  apply bind_inr in H. destruct H as (d & Hd & H). inversion H; subst surfaces; clear H.
  assert (Hinv : distinct Qeq_bool (dict_keys d) = true /\ Forall stored_under_its_shift d).
  { refine (for_each_invariant
              (fun d : @dict Q VegaGrid =>
                 distinct Qeq_bool (dict_keys d) = true /\ Forall stored_under_its_shift d)
              _ _ _ [] d (conj eq_refl (Forall_nil _)) Hd).
    intros d0 f d1 _ [Hdist Hst] Hstep.
    destruct (detect_shift_from_filename lib (entry_name f)) as [shift |] eqn:E.
    - apply bind_inr in Hstep. destruct Hstep as (grid & Hgrid & Hstep).
      inversion Hstep; subst d1. split.
      + now apply dict_set_distinct.
      + apply dict_set_stored; auto.
        * eapply parse_csv_given_shift; eauto.
        * eapply detect_shift_value; eauto.
    - inversion Hstep; subst d1. auto. }
  destruct Hinv as [Hdist Hst]. split.
  - now apply sorted_items_ascending.
  - rewrite Forall_forall in Hst |- *. intros kv Hin. apply Hst.
    now apply sorted_items_In.
Qed.

Lemma load_surfaces_sorted_witness :
  exists surfaces,
    load_surfaces sample_lib
      [ mk_DirEntry "SPX_up_50.csv" "data/SPX_up_50.csv" bare_frame;
        mk_DirEntry "SPX_readme.csv" "data/SPX_readme.csv" bare_frame;
        mk_DirEntry "SPX_down_25.csv" "data/SPX_down_25.csv" consistent_frame;
        mk_DirEntry "SPX_UP_50_v2.csv" "data/SPX_UP_50_v2.csv" consistent_frame ]
    = inr surfaces /\
    StronglySorted key_lt surfaces /\
    Forall stored_under_its_shift surfaces.
Proof.
  assert (Hc : exists surfaces,
             load_surfaces sample_lib
               [ mk_DirEntry "SPX_up_50.csv" "data/SPX_up_50.csv" bare_frame;
                 mk_DirEntry "SPX_readme.csv" "data/SPX_readme.csv" bare_frame;
                 mk_DirEntry "SPX_down_25.csv" "data/SPX_down_25.csv" consistent_frame;
                 mk_DirEntry "SPX_UP_50_v2.csv" "data/SPX_UP_50_v2.csv" consistent_frame ]
             = inr surfaces)
    by (vm_compute; eexists; reflexivity).
  destruct Hc as [surfaces Hs]. exists surfaces. split; [exact Hs |].
  apply (load_surfaces_sorted sample_lib _ surfaces Hs).
Defined.

Example load_surfaces_run :
  exists surfaces,
    load_surfaces sample_lib
      [ mk_DirEntry "SPX_up_50.csv" "data/SPX_up_50.csv" bare_frame;
        mk_DirEntry "SPX_readme.csv" "data/SPX_readme.csv" bare_frame;
        mk_DirEntry "SPX_down_25.csv" "data/SPX_down_25.csv" consistent_frame;
        mk_DirEntry "SPX_UP_50_v2.csv" "data/SPX_UP_50_v2.csv" consistent_frame ]
    = inr surfaces /\
    dict_keys surfaces = [-(25 # 1000); 5 # 100] /\
    map (fun kv => row_totals (snd kv)) surfaces = [[300; 400]; [300; 400]].
Proof. vm_compute. eexists. repeat split; reflexivity. Qed.
